(** * Hiking journal: trip statistics

    A shallow embedding of the statistics code of the hiking journal
    ([js/utils.js], [js/trip.js] and the homepage script [js/main.js]) and
    the properties its specification states about it.

    Conventions of the embedding.

    - In Parts I to VI a JavaScript Number is [number]: [NaN] or an exact
      rational.  Decimal literals of the source denote the rational they
      spell; binary64 rounding error, overflow to an infinity and the sign
      of zero are outside that model.  The properties proved on it are
      those that do not turn on a rounded digit: which days count, which
      override wins, what a date difference prints, orderings, equalities
      between two runs of the same computation.
    - Part VII embeds the statistics code a second time, on IEEE 754
      binary64 numbers (the kernel's primitive floats) and on payloads in
      which a feature, a path or a position may be [null].  What the
      specification says about rounded values, and about the two pages
      agreeing on a day, is settled there.
    - [Math.sin], [Math.cos], [Math.sqrt] and [Math.atan2] are
      implementation-approximated in ECMAScript; they are fields of the
      host ([MathHost]).  The local time zone and the parser that [Date]
      falls back to outside the ISO format are fields of [DateHost].
    - Day payloads are GeoJSON shaped: a FeatureCollection, a Feature or a
      geometry, with every member the code guards against being absent
      modelled as an [option]; a position is an array of numbers or nulls,
      of any length.  In Parts I to VI no feature and no position is
      [null]; in Part VII they may be, and reading a member of [null]
      throws.  Coordinates that are not arrays are outside both payload
      types.
    - Code that may throw is a [completion]: a thrown [Error] or a value;
      an object updated before a throw keeps its updates ([Stateful]). *)

From Stdlib Require Import ZArith QArith Qround String Ascii DecimalString List Bool Lia Lqa.
From Stdlib Require Import Setoid Morphisms.
From Stdlib Require Floats.
Import ListNotations.

Set Implicit Arguments.
Set Warnings "-inexact-float".

(* ================================================================== *)
(** * Part I. The host language *)
(* ================================================================== *)

Module JS.

(** ** Numbers *)

Inductive number : Type :=
| NaN
| Num (q : Q).

Arguments Num q%_Q.

Definition lift2 (f : Q -> Q -> Q) (a b : number) : number :=
  match a, b with
  | Num x, Num y => Num (f x y)
  | _, _ => NaN
  end.

Definition add : number -> number -> number := lift2 Qplus.
Definition sub : number -> number -> number := lift2 Qminus.
Definition mul : number -> number -> number := lift2 Qmult.

(** Division; every divisor of the source is a non-zero literal. *)
Definition div (a b : number) : number :=
  match a, b with
  | Num x, Num y => if Qeq_bool y 0 then NaN else Num (x / y)
  | _, _ => NaN
  end.

(** [a < b], [a <= b], [a > b]: false as soon as one side is [NaN]. *)
Definition ltb (a b : number) : bool :=
  match a, b with
  | Num x, Num y => negb (Qle_bool y x)
  | _, _ => false
  end.

Definition leb (a b : number) : bool :=
  match a, b with
  | Num x, Num y => Qle_bool x y
  | _, _ => false
  end.

Definition gtb (a b : number) : bool := ltb b a.

(** ToBoolean on a number: [NaN] and zero are falsy. *)
Definition truthy (a : number) : bool :=
  match a with
  | NaN => false
  | Num x => negb (Qeq_bool x 0)
  end.

Definition of_Z (z : Z) : number := Num (inject_Z z).
Definition of_nat (n : nat) : number := of_Z (Z.of_nat n).

(** [Math.floor] and [Math.round] (ties go towards plus infinity). *)
Definition Math_floor (a : number) : number :=
  match a with
  | NaN => NaN
  | Num x => of_Z (Qfloor x)
  end.

Definition Math_round (a : number) : number :=
  match a with
  | NaN => NaN
  | Num x => of_Z (Qfloor (x + (1 # 2)))
  end.

(** [Math.PI], the binary64 constant 3.141592653589793. *)
Definition Math_PI : number := Num (884279719003555 # 281474976710656).

(** [x ** 2] *)
Definition sqr (a : number) : number := mul a a.

(** The implementation-approximated part of [Math]. *)
Class MathHost : Type := {
  Math_sin : number -> number;
  Math_cos : number -> number;
  Math_sqrt : number -> number;
  Math_atan2 : number -> number -> number
}.

(** ** The values stored in positions and in override properties *)

Inductive value : Type :=
| Undefined
| Null
| Number (n : number).

(** [typeof v === 'number'] *)
Definition is_number (v : value) : bool :=
  match v with
  | Number _ => true
  | _ => false
  end.

(** ToNumber, applied by the arithmetic operators. *)
Definition ToNumber (v : value) : number :=
  match v with
  | Undefined => NaN
  | Null => Num 0
  | Number n => n
  end.

(** [a[i]] on an array of values: [undefined] past the end. *)
Definition get (a : list value) (i : nat) : value := nth i a Undefined.

(** ** Strings *)

(** ToString on a number that holds an integer (a [Math.floor] result, an
    HTTP status); the digits of other numbers are never printed by the
    modelled code. *)
Definition string_of_Z (z : Z) : string :=
  NilZero.string_of_int (Z.to_int z).

Definition Number_toString (a : number) : string :=
  match a with
  | NaN => "NaN"
  | Num x => string_of_Z (Qfloor x)
  end.

(** A string member of a parsed JSON object: [None] when it is absent. *)
Definition jsstring : Type := option string.

(** [`${v}`] *)
Definition template (v : jsstring) : string :=
  match v with
  | None => "undefined"
  | Some s => s
  end.

(** [v || dflt]: an absent or empty string is falsy. *)
Definition or_string (v : jsstring) (dflt : string) : string :=
  match v with
  | None => dflt
  | Some EmptyString => dflt
  | Some s => s
  end.

(** [s || dflt] on a string. *)
Definition nonempty_or (s dflt : string) : string :=
  match s with
  | EmptyString => dflt
  | _ => s
  end.

(** [s.replace(/c/g, r)] for a pattern that is the single character [c]
    and a replacement [r] without [$]: every [c] becomes [r]. *)
Fixpoint replace_all (c : ascii) (r : string) (s : string) : string :=
  match s with
  | EmptyString => EmptyString
  | String x rest =>
      if Ascii.eqb x c then r ++ replace_all c r rest
      else String x (replace_all c r rest)
  end.

(** [v || null] on a string member. *)
Definition or_null (v : jsstring) : jsstring :=
  match v with
  | None => None
  | Some EmptyString => None
  | Some s => Some s
  end.

(** An argument that should be a string: a string, or a value of another
    type, of which the code reads only whether it is truthy and what
    [String(v)] returns for it. *)
Inductive any : Type :=
| Str (s : string)
| Other (truthy : bool) (shown : string).

(** ToBoolean on a string member: absent and empty are falsy. *)
Definition truthy_string (v : jsstring) : bool :=
  match v with
  | None => false
  | Some EmptyString => false
  | Some _ => true
  end.

(** ** Dates *)

(** What the host decides: the offset of local time from UTC, in
    milliseconds, at a local time value, and the time value of a string
    that is not an instance of the date-time string format. *)
Class DateHost : Type := {
  LocalTZA : Z -> Z;
  Date_parse_fallback : string -> option Z;
  LocalTZA_range : forall t : Z, (Z.abs (LocalTZA t) < 86400000)%Z
}.

(** A [Date] object holds a time value, [None] standing for the [NaN] of an
    invalid date. *)
Definition Date : Type := option Z.

Definition valueOf (d : Date) : number :=
  match d with
  | None => NaN
  | Some t => of_Z t
  end.

Definition msPerDay : Z := 86400000.

Definition leap_year (y : Z) : bool :=
  ((y mod 4 =? 0) && negb (y mod 100 =? 0) || (y mod 400 =? 0))%Z.

Definition DayFromYear (y : Z) : Z :=
  (365 * (y - 1970) + (y - 1969) / 4 - (y - 1901) / 100 + (y - 1601) / 400)%Z.

(** Days of the year before the first of month [m] (1 to 12). *)
Definition days_before_month (y m : Z) : Z :=
  (nth (Z.to_nat (m - 1)) [0; 31; 59; 90; 120; 151; 181; 212; 243; 273; 304; 334] 0
   + (if leap_year y && (3 <=? m) then 1 else 0))%Z.

Definition DaysInMonth (y m : Z) : Z :=
  (if m =? 2 then (if leap_year y then 29 else 28)
   else if (m =? 4) || (m =? 6) || (m =? 9) || (m =? 11) then 30
   else 31)%Z.

Definition MakeDay (y m d : Z) : Z :=
  (DayFromYear y + days_before_month y m + d - 1)%Z.

Definition MakeTime (h mi s ms : Z) : Z :=
  (h * 3600000 + mi * 60000 + s * 1000 + ms)%Z.

Definition TimeClip (t : Z) : Date :=
  if (Z.abs t <=? 8640000000000000)%Z then Some t else None.

(** The fields of an instance of the date-time string format
    [YYYY-MM-DDTHH:mm:ss.sssZ]. *)
Record DateFields : Type := {
  f_year : Z;
  f_month : Z;
  f_day : Z;
  f_time : option (Z * Z * Z * Z);
  f_offset : option Z
}.

Definition digit (c : ascii) : option Z :=
  let n := nat_of_ascii c in
  if ((48 <=? n) && (n <=? 57))%nat then Some (Z.of_nat (n - 48)) else None.

(** Exactly [k] decimal digits at the head of [s]. *)
Fixpoint digits (k : nat) (acc : Z) (s : string) : option (Z * string) :=
  match k with
  | O => Some (acc, s)
  | S k' =>
      match s with
      | String c s' =>
          match digit c with
          | Some d => digits k' (10 * acc + d)%Z s'
          | None => None
          end
      | EmptyString => None
      end
  end.

(** [YYYY], or a sign and six digits other than [-000000]. *)
Definition parse_year (s : string) : option (Z * string) :=
  match s with
  | String "+" s' => digits 6 0 s'
  | String "-" s' =>
      match digits 6 0 s' with
      | Some (y, r) => if (y =? 0)%Z then None else Some ((- y)%Z, r)
      | None => None
      end
  | _ => digits 4 0 s
  end.

(** [-NN] when the string goes on with a hyphen, the default otherwise. *)
Definition parse_dash2 (dflt : Z) (s : string) : option (Z * bool * string) :=
  match s with
  | String "-" s' =>
      match digits 2 0 s' with
      | Some (v, r) => Some (v, true, r)
      | None => None
      end
  | _ => Some (dflt, false, s)
  end.

(** [Z] or [+HH:mm] or [-HH:mm] up to the end of the string: the offset in
    minutes, [None] when the string ends without one. *)
Definition parse_offset (s : string) : option (option Z) :=
  match s with
  | EmptyString => Some None
  | String "Z" EmptyString => Some (Some 0%Z)
  | String sign s' =>
      match digits 2 0 s' with
      | Some (h, String ":" s'') =>
          match digits 2 0 s'' with
          | Some (mi, EmptyString) =>
              if ((h <=? 23) && (mi <=? 59))%Z then
                if Ascii.eqb sign "+" then Some (Some (h * 60 + mi)%Z)
                else if Ascii.eqb sign "-" then Some (Some (- (h * 60 + mi))%Z)
                else None
              else None
          | _ => None
          end
      | _ => None
      end
  end.

(** [.sss] when the string goes on with a dot. *)
Definition parse_millis (s : string) : option (Z * string) :=
  match s with
  | String "." s' => digits 3 0 s'
  | _ => Some (0%Z, s)
  end.

(** [:ss] and an optional [.sss] when the string goes on with a colon. *)
Definition parse_seconds (s : string) : option (Z * Z * string) :=
  match s with
  | String ":" s' =>
      match digits 2 0 s' with
      | Some (sec, r) =>
          match parse_millis r with
          | Some (ms, r') => Some (sec, ms, r')
          | None => None
          end
      | None => None
      end
  | _ => Some (0%Z, 0%Z, s)
  end.

(** [THH:mm[:ss[.sss]]] and an optional offset, up to the end of the string. *)
Definition parse_time (s : string) : option (option (Z * Z * Z * Z) * option Z) :=
  match s with
  | EmptyString => Some (None, None)
  | String "T" s' =>
      match digits 2 0 s' with
      | Some (h, String ":" s'') =>
          match digits 2 0 s'' with
          | Some (mi, r) =>
              match parse_seconds r with
              | Some (sec, ms, r') =>
                  match parse_offset r' with
                  | Some off => Some (Some (h, mi, sec, ms), off)
                  | None => None
                  end
              | None => None
              end
          | None => None
          end
      | _ => None
      end
  | _ => None
  end.

Definition parse_fields (s : string) : option DateFields :=
  match parse_year s with
  | Some (y, r) =>
      match parse_dash2 1 r with
      | Some (m, has_month, r') =>
          match (if has_month then parse_dash2 1 r' else Some (1%Z, false, r')) with
          | Some (d, _, r'') =>
              match parse_time r'' with
              | Some (t, off) =>
                  Some {| f_year := y; f_month := m; f_day := d;
                          f_time := t; f_offset := off |}
              | None => None
              end
          | None => None
          end
      | None => None
      end
  | None => None
  end.

(** The element values the format allows. *)
Definition valid_time (t : Z * Z * Z * Z) : bool :=
  let '(h, mi, s, ms) := t in
  (((h <=? 23) && (mi <=? 59) && (s <=? 59))
   || ((h =? 24) && (mi =? 0) && (s =? 0) && (ms =? 0)))%Z.

Definition valid_fields (f : DateFields) : bool :=
  ((1 <=? f_month f) && (f_month f <=? 12)
   && (1 <=? f_day f) && (f_day f <=? DaysInMonth (f_year f) (f_month f)))%Z
  && match f_time f with
     | Some t => valid_time t
     | None => true
     end.

Section Dates.
Context {host : DateHost}.

(** UTC(t) for a local time value. *)
Definition UTC (t : Z) : Z := (t - LocalTZA t)%Z.

(** The time value of an instance of the format: a date alone is UTC, a
    date and time without an offset is local time. *)
Definition fields_time_value (f : DateFields) : Date :=
  let day := MakeDay (f_year f) (f_month f) (f_day f) in
  match f_time f with
  | None => TimeClip (day * msPerDay)
  | Some (h, mi, s, ms) =>
      let t := (day * msPerDay + MakeTime h mi s ms)%Z in
      match f_offset f with
      | Some off => TimeClip (t - off * 60000)
      | None => TimeClip (UTC t)
      end
  end.

(** [Date.parse] *)
Definition Date_parse (s : string) : Date :=
  match parse_fields s with
  | Some f => if valid_fields f then fields_time_value f else Date_parse_fallback s
  | None => Date_parse_fallback s
  end.

(** [new Date(s)] for a string argument. *)
Definition Date_new (s : string) : Date := Date_parse s.

End Dates.

(** ** Exceptions *)

(** A thrown error, with its [message]. *)
Record Error : Type := { message : string }.

Definition completion (A : Type) : Type := (Error + A)%type.

Definition ret {A : Type} (a : A) : completion A := inr a.
Definition throw {A : Type} (msg : string) : completion A := inl {| message := msg |}.

Definition bind {A B : Type} (c : completion A) (k : A -> completion B) : completion B :=
  match c with
  | inl e => inl e
  | inr a => k a
  end.

(** [try { body } catch (err) { handler }] *)
Definition try_catch {A : Type} (body : completion A) (handler : Error -> A) : A :=
  match body with
  | inl e => handler e
  | inr a => a
  end.

(** ** Code that updates an object and may throw

    A computation over a mutable object of type [S]: it returns the object
    as it stands when the computation ends, normally or by a throw. *)
Definition Stateful (S A : Type) : Type := S -> S * completion A.

Definition st_ret {S A : Type} (a : A) : Stateful S A := fun s => (s, inr a).

Definition st_bind {S A B : Type} (c : Stateful S A) (k : A -> Stateful S B) : Stateful S B :=
  fun s =>
    match c s with
    | (s', inl e) => (s', inl e)
    | (s', inr a) => k a s'
    end.

Definition st_throw {S A : Type} (msg : string) : Stateful S A :=
  fun s => (s, throw msg).

(** [await p] for a promise that has settled as [c]. *)
Definition await {S A : Type} (c : completion A) : Stateful S A := fun s => (s, c).

Definition update {S : Type} (f : S -> S) : Stateful S unit := fun s => (f s, inr tt).

(** [try { body } catch (err) { handler(err) }], then the object. *)
Definition st_try_catch {S : Type} (body : Stateful S unit) (handler : Error -> Stateful S unit)
  (s : S) : S :=
  match body s with
  | (s', inl e) => fst (handler e s')
  | (s', inr _) => s'
  end.

(** ** The network *)

(** A response, with the completion of [res.json()]. *)
Record Response (A : Type) : Type := {
  res_ok : bool;
  res_status : nat;
  res_json : completion A
}.

(** How [fetch(url)] settles: rejected, or resolved with a response. *)
Definition Fetch (A : Type) : Type := string -> completion (Response A).

End JS.

Declare Scope js_scope.
Delimit Scope js_scope with js.
Bind Scope js_scope with JS.number.

Notation "a + b" := (JS.add a b) : js_scope.
Notation "a - b" := (JS.sub a b) : js_scope.
Notation "a * b" := (JS.mul a b) : js_scope.
Notation "a / b" := (JS.div a b) : js_scope.
Notation "a <? b" := (JS.ltb a b) : js_scope.
Notation "a <=? b" := (JS.leb a b) : js_scope.
Notation "a >? b" := (JS.gtb a b) : js_scope.

(* ================================================================== *)
(** * Part II. [js/utils.js] *)
(* ================================================================== *)

Module Utils.
Import JS.
Local Open Scope js_scope.

(** A position [[lon, lat]] or [[lon, lat, ele]], and a coordinate array. *)
Definition Position : Type := list value.
Definition Coords : Type := list Position.

(** [coords[i]] for an index the loops keep inside the array. *)
Definition at_ (coords : Coords) (i : nat) : Position := nth i coords [].

Section Geometry.
Context {math : MathHost}.

Definition toRad (deg : number) : number := (deg * Math_PI) / Num 180.

Definition haversineDistance (c1 c2 : Position) : number :=
  let R := Num 3958.8 in
  let lat1 := toRad (ToNumber (get c1 1)) in
  let lat2 := toRad (ToNumber (get c2 1)) in
  let dLat := toRad (ToNumber (get c2 1) - ToNumber (get c1 1)) in
  let dLon := toRad (ToNumber (get c2 0) - ToNumber (get c1 0)) in
  let a :=
    sqr (Math_sin (dLat / Num 2)) +
    Math_cos lat1 * Math_cos lat2 * sqr (Math_sin (dLon / Num 2)) in
  R * Num 2 * Math_atan2 (Math_sqrt a) (Math_sqrt (Num 1 - a)).

(** The [for (let i = 1; i < coords.length; i++)] loop of [calcDistance]. *)
Definition calcDistance_loop (coords : Coords) : number :=
  fold_left
    (fun total i => total + haversineDistance (at_ coords (i - 1)) (at_ coords i))
    (seq 1 (length coords - 1)) (Num 0).

Definition calcDistance (coords : Coords) : number :=
  if (length coords <? 2)%nat then Num 0
  else
    let total := calcDistance_loop coords in
    Math_round (total * Num 10) / Num 10.

End Geometry.

(** One turn of the loop of [calcElevationGain]. *)
Definition elevation_step (coords : Coords) (gain : number) (i : nat) : number :=
  let prevEle := get (at_ coords (i - 1)) 2 in
  let currEle := get (at_ coords i) 2 in
  if is_number prevEle && is_number currEle then
    let diff := ToNumber currEle - ToNumber prevEle in
    if diff >? Num 0 then gain + diff else gain
  else gain.

Definition calcElevationGain_loop (coords : Coords) : number :=
  fold_left (elevation_step coords) (seq 1 (length coords - 1)) (Num 0).

Definition calcElevationGain (coords : Coords) : number :=
  if (length coords <? 2)%nat then Num 0
  else
    let gain := calcElevationGain_loop coords in
    Math_round ((gain * Num 3.28084) / Num 10) * Num 10.

(** [parts.push(s)] *)
Definition push (parts : list string) (s : string) : list string := (parts ++ [s])%list.

Section Elapsed.
Context {host : DateHost}.
Local Open Scope string_scope.

(** [calcElapsedTime]; no operation of its body throws on strings or absent
    members, so the [catch] branch is never entered. *)
Definition calcElapsedTime (startDate startTime endDate endTime : jsstring) : string :=
  try_catch
    (let start := Date_new (template startDate ++ "T" ++ or_string startTime "00:00") in
     let end_ := Date_new (template endDate ++ "T" ++ or_string endTime "00:00") in
     let diffMs := valueOf end_ - valueOf start in
     if (diffMs <=? Num 0)%js then ret "—"
     else
       let days := Math_floor (diffMs / Num 86400000) in
       let diffMs := diffMs - days * Num 86400000 in
       let hours := Math_floor (diffMs / Num 3600000) in
       let diffMs := diffMs - hours * Num 3600000 in
       let minutes := Math_floor (diffMs / Num 60000) in
       let parts := [] in
       let parts := if truthy days then push parts (Number_toString days ++ "d") else parts in
       let parts := if truthy hours then push parts (Number_toString hours ++ "h") else parts in
       let parts := if truthy minutes then push parts (Number_toString minutes ++ "m") else parts in
       ret (nonempty_or (String.concat " " parts) "< 1m"))
    (fun _ => "—").

End Elapsed.

(** The colour tables and [dayColorNeutral], [dayColorHover]; an array read
    past its end is [undefined], here [None]. *)
Definition DAY_COLORS_NEUTRAL : list string :=
  [ "#6a85a0"; "#7a9e78"; "#a09060"; "#9e7878"; "#6a9e9e";
    "#8878a0"; "#a07860"; "#6878a0"; "#a09878"; "#6a9080" ]%string.

Definition DAY_COLORS_HOVER : list string :=
  [ "#4a9ed4"; "#5cba5c"; "#d4a832"; "#d45c5c"; "#3ab8b8";
    "#a060d0"; "#e07832"; "#4868d4"; "#c8b050"; "#40a890" ]%string.

Definition dayColorNeutral (index : nat) : option string :=
  nth_error DAY_COLORS_NEUTRAL (index mod length DAY_COLORS_NEUTRAL).

Definition dayColorHover (index : nat) : option string :=
  nth_error DAY_COLORS_HOVER (index mod length DAY_COLORS_HOVER).

End Utils.

(* ================================================================== *)
(** * Part III. GeoJSON payloads *)
(* ================================================================== *)

Module GeoJSON.
Import JS.

(** The members of [properties] the code reads. *)
Record Properties : Type := {
  day : value;
  distance_miles : value;
  elevation_gain_ft : value
}.

(** A geometry object, by its [type]; [coordinates] may be missing. *)
Inductive Geometry : Type :=
| LineString (coordinates : option Utils.Coords)
| MultiLineString (coordinates : option (list Utils.Coords))
| OtherGeometry (type : jsstring).

(** A feature; [geometry] and [properties] may be missing or null. *)
Record Feature : Type := {
  geometry : option Geometry;
  properties : option Properties
}.

(** A parsed document, by its [type]. *)
Inductive Document : Type :=
| FeatureCollection (features : option (list Feature))
| FeatureObject (feature : Feature)
| GeometryObject (g : Geometry).

(** The document read as a geometry object: a collection or a feature has
    a [type] that is neither ['LineString'] nor ['MultiLineString']. *)
Definition as_geometry (doc : Document) : Geometry :=
  match doc with
  | FeatureCollection _ => OtherGeometry (Some "FeatureCollection"%string)
  | FeatureObject _ => OtherGeometry (Some "Feature"%string)
  | GeometryObject g => g
  end.

(** What [res.json()] resolves to: a document, or [null]. *)
Definition Payload : Type := option Document.

(** [a || []] *)
Definition or_empty {A : Type} (a : option (list A)) : list A :=
  match a with
  | Some l => l
  | None => []
  end.

(** [a.flat()] on an array of arrays. *)
Definition flat {A : Type} (a : list (list A)) : list A := List.concat a.

(** [c.length] as a condition. *)
Definition has_length {A : Type} (c : list A) : bool :=
  negb (length c =? 0)%nat.

(** [(props && props.member != null) ? props.member : computed] *)
Definition override (props : option Properties) (member : Properties -> value)
  (computed : number) : number :=
  match props with
  | Some p =>
      match member p with
      | Number n => n
      | Undefined | Null => computed
      end
  | None => computed
  end.

(** [meta.json]: the members the scripts read. *)
Record Meta : Type := {
  title : jsstring;
  description : jsstring;
  start_date : jsstring;
  start_time : jsstring;
  end_date : jsstring;
  end_time : jsstring;
  days : option (list string)
}.

(** An entry of [trips.json]. *)
Record TripEntry : Type := {
  trip_id : string;
  page_url : jsstring
}.

End GeoJSON.

(* ================================================================== *)
(** * Part IV. [js/trip.js] *)
(* ================================================================== *)

Module Trip.
Import JS GeoJSON.
Local Open Scope js_scope.

Definition extractCoordsFromGeometry (geometry : option Geometry) : Utils.Coords :=
  match geometry with
  | None => []
  | Some (LineString coordinates) => or_empty coordinates
  | Some (MultiLineString coordinates) => flat (or_empty coordinates)
  | Some (OtherGeometry _) => []
  end.

(** The [for (const feature of geojson.features || [])] loop of
    [extractCoords]: [Some c] when it returns [c], [None] when it ends. *)
Fixpoint extractCoords_loop (features : list Feature) : option Utils.Coords :=
  match features with
  | [] => None
  | feature :: rest =>
      let c := extractCoordsFromGeometry (geometry feature) in
      if has_length c then Some c else extractCoords_loop rest
  end.

Definition extractCoords (geojson : Payload) : Utils.Coords :=
  match geojson with
  | None => []
  | Some doc =>
      let returned :=
        match doc with
        | FeatureCollection features => extractCoords_loop (or_empty features)
        | _ => None
        end in
      match returned with
      | Some c => c
      | None =>
          match doc with
          | FeatureObject feature => extractCoordsFromGeometry (geometry feature)
          | _ => extractCoordsFromGeometry (Some (as_geometry doc))
          end
      end
  end.

Definition getFirstFeatureProps (geojson : Payload) : option Properties :=
  match geojson with
  | None => None
  | Some (FeatureCollection features) =>
      match features with
      | None => None
      | Some fs =>
          match nth_error fs 0 with
          | None => None
          | Some f => properties f
          end
      end
  | Some (FeatureObject feature) => properties feature
  | Some (GeometryObject _) => None
  end.

(** The result object of [loadDayGeoJSON]. *)
Record DayResult : Type := {
  index : nat;
  filename : string;
  url : string;
  ok : bool;
  geojson : Payload;
  dayNumber : number;
  distance : number;
  elevation : number;
  error : option string
}.

Definition set_geojson (g : Payload) (r : DayResult) : DayResult :=
  {| index := index r; filename := filename r; url := url r; ok := ok r;
     geojson := g; dayNumber := dayNumber r; distance := distance r;
     elevation := elevation r; error := error r |}.

Definition set_ok (b : bool) (r : DayResult) : DayResult :=
  {| index := index r; filename := filename r; url := url r; ok := b;
     geojson := geojson r; dayNumber := dayNumber r; distance := distance r;
     elevation := elevation r; error := error r |}.

Definition set_dayNumber (n : number) (r : DayResult) : DayResult :=
  {| index := index r; filename := filename r; url := url r; ok := ok r;
     geojson := geojson r; dayNumber := n; distance := distance r;
     elevation := elevation r; error := error r |}.

Definition set_distance (n : number) (r : DayResult) : DayResult :=
  {| index := index r; filename := filename r; url := url r; ok := ok r;
     geojson := geojson r; dayNumber := dayNumber r; distance := n;
     elevation := elevation r; error := error r |}.

Definition set_elevation (n : number) (r : DayResult) : DayResult :=
  {| index := index r; filename := filename r; url := url r; ok := ok r;
     geojson := geojson r; dayNumber := dayNumber r; distance := distance r;
     elevation := n; error := error r |}.

Definition set_error (e : option string) (r : DayResult) : DayResult :=
  {| index := index r; filename := filename r; url := url r; ok := ok r;
     geojson := geojson r; dayNumber := dayNumber r; distance := distance r;
     elevation := elevation r; error := e |}.

Section Page.
Context {math : MathHost}.
Local Open Scope string_scope.

Notation "x <- c ;; k" := (st_bind c (fun x => k))
  (at level 61, c at next level, right associativity).
Notation "c ;; k" := (st_bind c (fun _ => k))
  (at level 61, right associativity).

Definition loadDayGeoJSON (fetch : Fetch Payload)
  (tripId dataRoot filename : string) (index : nat) : DayResult :=
  let url := dataRoot ++ "/" ++ tripId ++ "/" ++ filename in
  let result :=
    {| index := index; filename := filename; url := url; ok := false;
       geojson := None; dayNumber := (of_nat index + Num 1)%js;
       distance := Num 0; elevation := Num 0; error := None |} in
  st_try_catch
    (res <- await (fetch url) ;;
     (if negb (res_ok res)
      then st_throw ("HTTP " ++ string_of_Z (Z.of_nat (res_status res)))
      else st_ret tt) ;;
     geojson <- await (res_json res) ;;
     update (set_geojson geojson) ;;
     update (set_ok true) ;;
     let coords := extractCoords geojson in
     let props := getFirstFeatureProps geojson in
     update (set_dayNumber (override props day (of_nat index + Num 1)%js)) ;;
     update (set_distance (override props distance_miles (Utils.calcDistance coords))) ;;
     update (set_elevation (override props elevation_gain_ft (Utils.calcElevationGain coords))))
    (fun err => update (set_error (Some (message err))))
    result.

(** [dayFiles.map((filename, index) => f(filename, index))] *)
Fixpoint mapi_from {A B : Type} (f : A -> nat -> B) (i : nat) (l : list A) : list B :=
  match l with
  | [] => []
  | a :: rest => f a i :: mapi_from f (S i) rest
  end.

(** [loadAllDays]; [net index] is how the request made for the day at
    [index] settles, and [Promise.all] keeps the order of the promises. *)
Definition loadAllDays (net : nat -> Fetch Payload)
  (tripId dataRoot : string) (dayFiles : list string) : list DayResult :=
  mapi_from (fun filename index => loadDayGeoJSON (net index) tripId dataRoot filename index)
    0 dayFiles.

(** The numbers [initTripPage] writes into the overview. *)
Record Totals : Type := {
  trip_total_distance : number;
  trip_total_elevation : number;
  trip_days_count : nat
}.

(** The aggregation of [initTripPage], from the day results on. *)
Definition aggregateTotals (dayResults : list DayResult) : Totals :=
  let validDays := filter ok dayResults in
  let '(totalDistance, totalElevation) :=
    fold_left
      (fun '(totalDistance, totalElevation) day =>
         ((totalDistance + distance day)%js, (totalElevation + elevation day)%js))
      validDays (Num 0, Num 0) in
  {| trip_total_distance := (Math_round (totalDistance * Num 10) / Num 10)%js;
     trip_total_elevation := (Math_round (totalElevation / Num 10) * Num 10)%js;
     trip_days_count := length validDays |}.

End Page.

Section InitTripPage.
Context {math : MathHost} {host : DateHost}.
Local Open Scope string_scope.

(** What [initTripPage] leaves below the header: the map error for an empty
    day list, or the totals and the day results handed to the table, the
    map and the legend. *)
Inductive Overview : Type :=
| NoDayFiles
| DayStats (totals : Totals) (dayResults : list DayResult).

(** The page: the error of a [meta.json] that did not load, or the elapsed
    time of the header and the overview. *)
Inductive TripPage : Type :=
| MetaError (msg : string)
| Loaded (trip_elapsed : string) (overview : Overview).

(** Lines 64 to 88 of [initTripPage]: the day results and their totals. *)
Definition aggregate (net : nat -> Fetch Payload)
  (tripId dataRoot : string) (dayFiles : list string) : Totals * list DayResult :=
  let dayResults := loadAllDays net tripId dataRoot dayFiles in
  (aggregateTotals dayResults, dayResults).

(** [initTripPage] up to the calls of [buildDayTable], [buildMap] and
    [buildLegend] (lines 31 to 78): the values it computes for the page.
    What the three calls do with the day results, the tile requests of
    [buildMap] among it, is not embedded. *)
Definition initTripPage (fetchMeta : Fetch Meta) (net : nat -> Fetch Payload)
  (tripId dataRoot : string) : TripPage :=
  let metaUrl := dataRoot ++ "/" ++ tripId ++ "/meta.json" in
  let loaded :=
    bind (fetchMeta metaUrl) (fun res =>
    bind (if negb (res_ok res)
          then throw ("HTTP " ++ string_of_Z (Z.of_nat (res_status res))
                      ++ " fetching " ++ metaUrl)
          else ret tt) (fun _ =>
    res_json res)) in
  match loaded with
  | inl err => MetaError (message err)
  | inr meta =>
      let elapsed :=
        Utils.calcElapsedTime (start_date meta) (start_time meta)
          (end_date meta) (end_time meta) in
      let dayFiles := or_empty (days meta) in
      if (length dayFiles =? 0)%nat then Loaded elapsed NoDayFiles
      else
        let '(totals, dayResults) := aggregate net tripId dataRoot dayFiles in
        Loaded elapsed (DayStats totals dayResults)
  end.

End InitTripPage.

(** [escapeHtml]; for an argument that is not a string, [str || '']
    is the argument when it is truthy and the empty string otherwise. *)
Definition escapeHtml (str : any) : string :=
  match str with
  | Other truthy shown => if truthy then shown else EmptyString
  | Str str =>
      replace_all "034" "&quot;"
        (replace_all ">" "&gt;"
           (replace_all "<" "&lt;"
              (replace_all "&" "&amp;" str)))
  end.

End Trip.

(* ================================================================== *)
(** * Part V. The homepage script [js/main.js] *)
(* ================================================================== *)

Module Main.
Import JS GeoJSON.
Local Open Scope js_scope.

Definition extractCoordsFromGeometry (geometry : option Geometry) : Utils.Coords :=
  match geometry with
  | None => []
  | Some g =>
      match g with
      | LineString coordinates => or_empty coordinates
      | MultiLineString coordinates => flat (or_empty coordinates)
      | OtherGeometry _ => []
      end
  end.

(** The [for (const f of geojson.features || [])] loop of [extractCoords]. *)
Fixpoint extractCoords_loop (features : list Feature) : option Utils.Coords :=
  match features with
  | [] => None
  | f :: rest =>
      let c := extractCoordsFromGeometry (geometry f) in
      if has_length c then Some c else extractCoords_loop rest
  end.

Definition extractCoords (geojson : Payload) : Utils.Coords :=
  match geojson with
  | None => []
  | Some doc =>
      let returned :=
        match doc with
        | FeatureCollection features => extractCoords_loop (or_empty features)
        | _ => None
        end in
      match returned with
      | Some c => c
      | None =>
          match doc with
          | FeatureObject feature => extractCoordsFromGeometry (geometry feature)
          | _ => extractCoordsFromGeometry (Some (as_geometry doc))
          end
      end
  end.

(** [a?.member]: [undefined] on a missing [a]. *)
Definition opt_chain {A B : Type} (a : option A) (member : A -> option B) : option B :=
  match a with
  | None => None
  | Some x => member x
  end.

Definition getFirstFeatureProps (geojson : Payload) : option Properties :=
  match geojson with
  | None => None
  | Some (FeatureCollection features) =>
      opt_chain (opt_chain features (fun fs => nth_error fs 0)) properties
  | Some (FeatureObject feature) => properties feature
  | Some (GeometryObject _) => None
  end.

(** What [fetchDayStats] returns. *)
Record DayStats : Type := {
  ok : bool;
  distance : number;
  elevation : number
}.

Section Homepage.
Context {math : MathHost}.
Local Open Scope string_scope.

Definition fetchDayStats (fetch : Fetch Payload) (url : string) : DayStats :=
  try_catch
    (bind (fetch url) (fun res =>
     bind (if negb (res_ok res)
           then throw ("HTTP " ++ string_of_Z (Z.of_nat (res_status res)))
           else ret tt) (fun _ =>
     bind (res_json res) (fun geojson =>
     let coords := extractCoords geojson in
     let props := getFirstFeatureProps geojson in
     let distance := override props distance_miles (Utils.calcDistance coords) in
     let elevation := override props elevation_gain_ft (Utils.calcElevationGain coords) in
     ret {| ok := true; distance := distance; elevation := elevation |}))))
    (fun _ => {| ok := false; distance := Num 0; elevation := Num 0 |}).

End Homepage.

Definition escapeHtml (str : any) : string :=
  match str with
  | Other truthy shown => if truthy then shown else EmptyString
  | Str str =>
      replace_all "034" "&quot;"
        (replace_all ">" "&gt;"
           (replace_all "<" "&lt;"
              (replace_all "&" "&amp;" str)))
  end.

(** The result object of [computeTripData]: [null] is [None] for a string
    member and [Null] for a total. *)
Record TripData : Type := {
  trip_id : string;
  page_url : jsstring;
  title : string;
  description : string;
  start_date : jsstring;
  start_time : jsstring;
  end_date : jsstring;
  end_time : jsstring;
  totalDistance : value;
  totalElevation : value;
  duration : jsstring;
  error : jsstring
}.

Section TripCards.
Context {math : MathHost} {host : DateHost}.
Local Open Scope string_scope.

(** The [for (const day of dayResults)] loop of [computeTripData]. *)
Definition computeTripData_loop (dayResults : list DayStats) : number * number :=
  fold_left
    (fun '(totalDistance, totalElevation) day =>
       if ok day
       then ((totalDistance + distance day)%js, (totalElevation + elevation day)%js)
       else (totalDistance, totalElevation))
    dayResults (Num 0, Num 0).

(** [computeTripData]; [net index] is how the request for the day at
    [index] settles. *)
Definition computeTripData (fetchMeta : Fetch Meta) (net : nat -> Fetch Payload)
  (entry : TripEntry) : TripData :=
  let trip_id := GeoJSON.trip_id entry in
  let page_url := GeoJSON.page_url entry in
  let dataRoot := "./data" in
  let loaded :=
    bind (fetchMeta (dataRoot ++ "/" ++ trip_id ++ "/meta.json")) (fun res =>
    bind (if negb (res_ok res)
          then throw ("HTTP " ++ string_of_Z (Z.of_nat (res_status res)))
          else ret tt) (fun _ =>
    res_json res)) in
  match loaded with
  | inl err =>
      {| trip_id := trip_id; page_url := page_url; title := trip_id;
         description := EmptyString;
         start_date := None; start_time := None; end_date := None; end_time := None;
         totalDistance := Null; totalElevation := Null; duration := None;
         error := Some ("Could not load meta.json (" ++ message err ++ ")") |}
  | inr meta =>
      let duration :=
        if truthy_string (GeoJSON.start_date meta) && truthy_string (GeoJSON.end_date meta)
        then Some (Utils.calcElapsedTime (GeoJSON.start_date meta) (GeoJSON.start_time meta)
                     (GeoJSON.end_date meta) (GeoJSON.end_time meta))
        else None in
      let dayFiles := or_empty (days meta) in
      let totals :=
        if (length dayFiles =? 0)%nat then (Null, Null)
        else
          let dayResults :=
            Trip.mapi_from
              (fun filename index =>
                 fetchDayStats (net index) (dataRoot ++ "/" ++ trip_id ++ "/" ++ filename))
              0 dayFiles in
          let '(totalDistance, totalElevation) := computeTripData_loop dayResults in
          (Number (Math_round (totalDistance * Num 10) / Num 10)%js,
           Number (Math_round (totalElevation / Num 10) * Num 10)%js) in
      {| trip_id := trip_id; page_url := page_url;
         title := or_string (GeoJSON.title meta) trip_id;
         description := or_string (GeoJSON.description meta) EmptyString;
         start_date := or_null (GeoJSON.start_date meta);
         start_time := or_null (GeoJSON.start_time meta);
         end_date := or_null (GeoJSON.end_date meta);
         end_time := or_null (GeoJSON.end_time meta);
         totalDistance := fst totals; totalElevation := snd totals;
         duration := duration; error := None |}
  end.

End TripCards.

End Main.

(* ================================================================== *)
(** * Part VI. The specification's notions *)
(* ================================================================== *)

Module Spec.
Import JS GeoJSON.
Local Open Scope js_scope.

(** ** Tracks *)

(** The segments of a track: each point paired with the next. *)
Definition consecutive_pairs (coords : Utils.Coords) : list (Utils.Position * Utils.Position) :=
  combine coords (tl coords).

(** A sum taken from left to right, starting from zero. *)
Definition sum (terms : list number) : number := fold_left add terms (Num 0).

(** The elevation a point carries: its third element, when it is a number. *)
Definition elevation_of (p : Utils.Position) : option number :=
  match get p 2 with
  | Number e => Some e
  | _ => None
  end.

(** The climb of a segment: the elevation delta when both ends carry an
    elevation and the delta is positive. *)
Definition climb (segment : Utils.Position * Utils.Position) : option number :=
  match elevation_of (fst segment), elevation_of (snd segment) with
  | Some a, Some b => if (b - a) >? Num 0 then Some (b - a) else None
  | _, _ => None
  end.

Fixpoint keep_some {A B : Type} (f : A -> option B) (l : list A) : list B :=
  match l with
  | [] => []
  | a :: rest =>
      match f a with
      | Some b => b :: keep_some f rest
      | None => keep_some f rest
      end
  end.

(** The positive elevation deltas of a track, in metres. *)
Definition positive_deltas (coords : Utils.Coords) : list number :=
  keep_some climb (consecutive_pairs coords).

(** Metres to feet. *)
Definition feet (metres : number) : number := metres * Num 3.28084.

(** Rounding to the nearest ten and to one decimal, as [Math.round] does
    it: a tie goes up. *)
Definition round_to_ten (x : number) : number := Math_round (x / Num 10) * Num 10.
Definition round_to_tenth (x : number) : number := Math_round (x * Num 10) / Num 10.

(** The haversine great-circle distance between two points given by their
    longitude and latitude in degrees, on a sphere of radius [radius]. *)
Section Haversine.
Context {math : MathHost}.

Definition radians (degrees : number) : number := degrees * Math_PI / Num 180.

Definition great_circle (radius lon1 lat1 lon2 lat2 : number) : number :=
  let phi1 := radians lat1 in
  let phi2 := radians lat2 in
  let dphi := radians (lat2 - lat1) in
  let dlambda := radians (lon2 - lon1) in
  let h := sqr (Math_sin (dphi / Num 2))
           + Math_cos phi1 * Math_cos phi2 * sqr (Math_sin (dlambda / Num 2)) in
  radius * Num 2 * Math_atan2 (Math_sqrt h) (Math_sqrt (Num 1 - h)).

Definition longitude (p : Utils.Position) : number := ToNumber (get p 0).
Definition latitude (p : Utils.Position) : number := ToNumber (get p 1).

Definition distanceBetween (segment : Utils.Position * Utils.Position) : number :=
  great_circle (Num 3958.8)
    (longitude (fst segment)) (latitude (fst segment))
    (longitude (snd segment)) (latitude (snd segment)).

End Haversine.

(** ** Records *)

(** The first non-empty track of a list of tracks, the empty track when
    there is none. *)
Fixpoint first_nonempty (tracks : list Utils.Coords) : Utils.Coords :=
  match tracks with
  | [] => []
  | [] :: rest => first_nonempty rest
  | track :: _ => track
  end.

(** An override: the member when present and not null. *)
Definition present (v : value) : option number :=
  match v with
  | Number n => Some n
  | Undefined | Null => None
  end.

(** Coalesce: the override, else the computed value. *)
Definition coalesce (o : option number) (computed : number) : number :=
  match o with
  | Some n => n
  | None => computed
  end.

(** The override of a member of the properties, when there are properties. *)
Definition override_of (props : option Properties) (member : Properties -> value)
  : option number :=
  match props with
  | Some p => present (member p)
  | None => None
  end.

(** ** Fetch outcomes *)

(** A fetch outcome is a retrieved payload or a failure reason. *)
Definition outcome (settled : completion (Response Payload)) : string + Payload :=
  match settled with
  | inl e => inl (message e)
  | inr res =>
      if res_ok res then
        match res_json res with
        | inl e => inl (message e)
        | inr payload => inr payload
        end
      else inl ("HTTP " ++ string_of_Z (Z.of_nat (res_status res)))%string
  end.

(** ** Durations *)

(** Days, then hours of the remainder, then minutes of the remainder. *)
Definition decompose (ms : Z) : Z * Z * Z :=
  let days := (ms / 86400000)%Z in
  let rest := (ms - days * 86400000)%Z in
  let hours := (rest / 3600000)%Z in
  let rest := (rest - hours * 3600000)%Z in
  let minutes := (rest / 60000)%Z in
  (days, hours, minutes).

Definition component (n : Z) (letter : string) : list string :=
  if (n =? 0)%Z then [] else [(string_of_Z n ++ letter)%string].

Definition unknown : string := "—".
Definition under_a_minute : string := "< 1m".

Definition format_duration (dhm : Z * Z * Z) : string :=
  let '(d, h, m) := dhm in
  match (component d "d" ++ component h "h" ++ component m "m")%list with
  | [] => under_a_minute
  | parts => String.concat " " parts
  end.

(** The duration between two instants. *)
Definition duration (start finish : Z) : string :=
  if (finish <=? start)%Z then unknown
  else format_duration (decompose (finish - start)).

(** A calendar date and a time of day, and how [meta.json] writes them:
    [YYYY-MM-DD] and [HH:MM]. *)
Record CalendarDate : Type := { year : Z; month : Z; day_of_month : Z }.
Record TimeOfDay : Type := { hours : Z; minutes : Z }.

Definition valid_date (d : CalendarDate) : Prop :=
  (0 <= year d <= 9999 /\ 1 <= month d <= 12
   /\ 1 <= day_of_month d <= DaysInMonth (year d) (month d))%Z.

Definition valid_time_of_day (t : TimeOfDay) : Prop :=
  (0 <= hours t <= 23 /\ 0 <= minutes t <= 59)%Z.

(** A time of day that may be absent. *)
Definition valid_optional_time (t : option TimeOfDay) : Prop :=
  match t with
  | Some t => valid_time_of_day t
  | None => True
  end.

Definition digit_char (d : Z) : ascii := ascii_of_nat (48 + Z.to_nat d).

Definition two_digits (n : Z) : string :=
  String (digit_char (n / 10)) (String (digit_char (n mod 10)) EmptyString).

Definition four_digits (n : Z) : string :=
  (two_digits (n / 100) ++ two_digits (n mod 100))%string.

Definition date_string (d : CalendarDate) : string :=
  (four_digits (year d) ++ "-" ++ two_digits (month d) ++ "-"
   ++ two_digits (day_of_month d))%string.

Definition time_string (t : TimeOfDay) : string :=
  (two_digits (hours t) ++ ":" ++ two_digits (minutes t))%string.

(** The local time value of a date and a time of day, midnight when the
    time is absent, and the instant it denotes on the host. *)
Definition local_time (d : CalendarDate) (t : option TimeOfDay) : Z :=
  (MakeDay (year d) (month d) (day_of_month d) * msPerDay
   + match t with
     | Some t => MakeTime (hours t) (minutes t) 0 0
     | None => 0
     end)%Z.

Definition instant {host : DateHost} (d : CalendarDate) (t : option TimeOfDay) : Z :=
  UTC (local_time d t).

End Spec.

(* ================================================================== *)
(** * Part VII. The code on binary64 numbers and on payloads as parsed

    The parts above compute on exact rationals and on payloads that hold
    no [null] where the code reads a member.  This part embeds the
    statistics code again without these two restrictions: a Number is an
    IEEE 754 binary64 value, with its rounding, its infinities and its
    signed zeros, and a feature or a position of a payload may be [null],
    in which case reading one of its members throws a [TypeError]. *)
(* ================================================================== *)

(** ** Numbers *)

Module F64.
Import PrimFloat.

Definition number : Type := float.

(** [a > b] *)
Definition gtb (a b : float) : bool := (b <? a)%float.

(** The number that holds the integer [z], for [z] below [2^53] in
    magnitude. *)
Definition of_Z (z : Z) : float :=
  match z with
  | Z0 => zero
  | Zpos p => of_uint63 (Uint63.of_Z (Zpos p))
  | Zneg p => opp (of_uint63 (Uint63.of_Z (Zpos p)))
  end.

(** An array index as a Number. *)
Definition of_nat (n : nat) : float := of_Z (Z.of_nat n).

(** The exact value of the finite number [(-1)^s * m * 2^e], for [e < 0]. *)
Definition exact_value (s : bool) (m : positive) (e : Z) : Q :=
  Qmake (if s then Zneg m else Zpos m) (Pos.pow 2 (Z.to_pos (- e))).

(** The Number of an integer that [Math.round] returns: a zero keeps the
    sign of the argument. *)
Definition rounded (s : bool) (n : Z) : float :=
  if (n =? 0)%Z then (if s then neg_zero else zero) else of_Z n.

(** [Math.round]: the integer closest to the exact value of [x], a tie
    going towards plus infinity; [x] itself when [x] is an integer, a zero,
    an infinity or [NaN]. *)
Definition Math_round (x : float) : float :=
  match FloatOps.Prim2SF x with
  | SpecFloat.S754_finite s m e =>
      if (0 <=? e)%Z then x
      else rounded s (Qfloor (exact_value s m e + (1 # 2)))
  | _ => x
  end.

(** [Math.PI] *)
Definition Math_PI : float := 3.141592653589793%float.

(** The operations that ECMAScript leaves implementation-approximated:
    [Math.sin], [Math.cos], [Math.sqrt], [Math.atan2] and [**]. *)
Class MathHost : Type := {
  Math_sin : float -> float;
  Math_cos : float -> float;
  Math_sqrt : float -> float;
  Math_atan2 : float -> float -> float;
  exponentiate : float -> float -> float
}.

(** The message of the [TypeError] thrown on reading the member [key] of
    [null]; its wording differs between engines. *)
Class Engine : Type := {
  TypeError_null : string -> string
}.

(** The values stored in positions and in override properties. *)
Inductive value : Type :=
| Undefined
| Null
| Number (n : float).

(** [typeof v === 'number'] *)
Definition is_number (v : value) : bool :=
  match v with
  | Number _ => true
  | _ => false
  end.

(** ToNumber, applied by the arithmetic operators. *)
Definition ToNumber (v : value) : float :=
  match v with
  | Undefined => nan
  | Null => zero
  | Number n => n
  end.

(** [a[i]] on an array of values: [undefined] past the end. *)
Definition get (a : list value) (i : nat) : value := nth i a Undefined.

(** A loop whose body may throw: the steps run in order, up to the first
    that throws. *)
Fixpoint foldM {A B : Type} (step : A -> B -> JS.completion A) (l : list B) (a : A)
  : JS.completion A :=
  match l with
  | [] => JS.ret a
  | b :: rest => JS.bind (step a b) (fun a' => foldM step rest a')
  end.

End F64.

(** ** Payloads *)

Module Parsed.
Import PrimFloat JS F64.

(** The members of [properties] the code reads. *)
Record Properties : Type := {
  day : value;
  distance_miles : value;
  elevation_gain_ft : value
}.

(** A position is an array of values, and an entry of a coordinate array
    is a position or [null]. *)
Definition Position : Type := list value.
Definition Coords : Type := list (option Position).

(** A geometry object, by its [type]; [coordinates] may be missing, and a
    path of a MultiLineString may be [null]. *)
Inductive Geometry : Type :=
| LineString (coordinates : option Coords)
| MultiLineString (coordinates : option (list (option Coords)))
| OtherGeometry (type : jsstring).

(** A feature; [geometry] and [properties] may be missing or null. *)
Record Feature : Type := {
  geometry : option Geometry;
  properties : option Properties
}.

(** A parsed document, by its [type]; an entry of [features] is a feature
    or [null]. *)
Inductive Document : Type :=
| FeatureCollection (features : option (list (option Feature)))
| FeatureObject (feature : Feature)
| GeometryObject (g : Geometry).

Definition as_geometry (doc : Document) : Geometry :=
  match doc with
  | FeatureCollection _ => OtherGeometry (Some "FeatureCollection"%string)
  | FeatureObject _ => OtherGeometry (Some "Feature"%string)
  | GeometryObject g => g
  end.

(** What [res.json()] resolves to: a document, or [null]. *)
Definition Payload : Type := option Document.

(** [a.flat()] on an array of paths: a path gives its entries, and an
    entry that is not an array, here [null], stays as it is. *)
Definition flat (a : list (option Coords)) : Coords :=
  List.concat
    (map (fun path => match path with
                      | Some c => c
                      | None => [None]
                      end) a).

(** [(props && props.member != null) ? props.member : computed()]: the
    computation runs only when there is no override. *)
Definition override (props : option Properties) (member : Properties -> value)
  (computed : completion float) : completion float :=
  match props with
  | Some p =>
      match member p with
      | Number n => ret n
      | Undefined | Null => computed
      end
  | None => computed
  end.

(** [c[k]] on an entry of a coordinate array: a [TypeError] on [null]. *)
Definition member {engine : Engine} (c : option Position) (k : nat) (key : string)
  : completion value :=
  match c with
  | None => throw (TypeError_null key)
  | Some p => ret (get p k)
  end.

End Parsed.

(** ** [js/utils.js] *)

Module Utils64.
Import PrimFloat JS F64 Parsed.
Local Open Scope float_scope.

Notation "x <- c ;; k" := (bind c (fun x => k))
  (at level 61, c at next level, right associativity).

(** [coords[i]] for an index the loops keep inside the array. *)
Definition at_ (coords : Coords) (i : nat) : option Position := nth i coords None.

Section Geometry.
Context {math : MathHost} {engine : Engine}.

Definition toRad (deg : float) : float := (deg * Math_PI) / 180.

Definition haversineDistance (c1 c2 : option Position) : completion float :=
  let R := 3958.8 in
  c1_1 <- member c1 1 "1" ;;
  let lat1 := toRad (ToNumber c1_1) in
  c2_1 <- member c2 1 "1" ;;
  let lat2 := toRad (ToNumber c2_1) in
  let dLat := toRad (ToNumber c2_1 - ToNumber c1_1) in
  c2_0 <- member c2 0 "0" ;;
  c1_0 <- member c1 0 "0" ;;
  let dLon := toRad (ToNumber c2_0 - ToNumber c1_0) in
  let a :=
    exponentiate (Math_sin (dLat / 2)) 2 +
    Math_cos lat1 * Math_cos lat2 * exponentiate (Math_sin (dLon / 2)) 2 in
  ret (R * 2 * Math_atan2 (Math_sqrt a) (Math_sqrt (1 - a))).

Definition calcDistance (coords : Coords) : completion float :=
  if (length coords <? 2)%nat then ret 0
  else
    total <-
      foldM (fun total i =>
               d <- haversineDistance (at_ coords (i - 1)) (at_ coords i) ;;
               ret (total + d))
        (seq 1 (length coords - 1)) 0 ;;
    ret (Math_round (total * 10) / 10).

End Geometry.

Section Elevation.
Context {engine : Engine}.

(** One turn of the loop of [calcElevationGain]. *)
Definition elevation_step (coords : Coords) (gain : float) (i : nat) : completion float :=
  prevEle <- member (at_ coords (i - 1)) 2 "2" ;;
  currEle <- member (at_ coords i) 2 "2" ;;
  ret (if is_number prevEle && is_number currEle then
         let diff := ToNumber currEle - ToNumber prevEle in
         if gtb diff 0 then gain + diff else gain
       else gain).

Definition calcElevationGain (coords : Coords) : completion float :=
  if (length coords <? 2)%nat then ret 0
  else
    gain <- foldM (elevation_step coords) (seq 1 (length coords - 1)) 0 ;;
    ret (Math_round ((gain * 3.28084) / 10) * 10).

End Elevation.

End Utils64.

(** ** [js/trip.js] *)

Module Trip64.
Import PrimFloat JS F64 Parsed.
Local Open Scope float_scope.

Definition extractCoordsFromGeometry (geometry : option Geometry) : Coords :=
  match geometry with
  | None => []
  | Some (LineString coordinates) => GeoJSON.or_empty coordinates
  | Some (MultiLineString coordinates) => flat (GeoJSON.or_empty coordinates)
  | Some (OtherGeometry _) => []
  end.

Section Extraction.
Context {engine : Engine}.

(** The [for (const feature of geojson.features || [])] loop of
    [extractCoords]: [Some c] when it returns [c], [None] when it ends; on
    an entry that is [null], [feature.geometry] throws. *)
Fixpoint extractCoords_loop (features : list (option Feature)) : completion (option Coords) :=
  match features with
  | [] => ret None
  | feature :: rest =>
      match feature with
      | None => throw (TypeError_null "geometry")
      | Some feature =>
          let c := extractCoordsFromGeometry (geometry feature) in
          if GeoJSON.has_length c then ret (Some c) else extractCoords_loop rest
      end
  end.

Definition extractCoords (geojson : Payload) : completion Coords :=
  match geojson with
  | None => ret []
  | Some doc =>
      bind
        match doc with
        | FeatureCollection features => extractCoords_loop (GeoJSON.or_empty features)
        | _ => ret None
        end
        (fun returned =>
           match returned with
           | Some c => ret c
           | None =>
               match doc with
               | FeatureObject feature => ret (extractCoordsFromGeometry (geometry feature))
               | _ => ret (extractCoordsFromGeometry (Some (as_geometry doc)))
               end
           end)
  end.

End Extraction.

(** [geojson.features[0]] is [undefined] on an empty array and may be
    [null]: both are falsy. *)
Definition getFirstFeatureProps (geojson : Payload) : option Properties :=
  match geojson with
  | None => None
  | Some (FeatureCollection features) =>
      match features with
      | None => None
      | Some fs =>
          match nth_error fs 0 with
          | None => None
          | Some None => None
          | Some (Some f) => properties f
          end
      end
  | Some (FeatureObject feature) => properties feature
  | Some (GeometryObject _) => None
  end.

(** The result object of [loadDayGeoJSON]. *)
Record DayResult : Type := {
  index : nat;
  filename : string;
  url : string;
  ok : bool;
  geojson : Payload;
  dayNumber : float;
  distance : float;
  elevation : float;
  error : option string
}.

Definition set_geojson (g : Payload) (r : DayResult) : DayResult :=
  {| index := index r; filename := filename r; url := url r; ok := ok r;
     geojson := g; dayNumber := dayNumber r; distance := distance r;
     elevation := elevation r; error := error r |}.

Definition set_ok (b : bool) (r : DayResult) : DayResult :=
  {| index := index r; filename := filename r; url := url r; ok := b;
     geojson := geojson r; dayNumber := dayNumber r; distance := distance r;
     elevation := elevation r; error := error r |}.

Definition set_dayNumber (n : float) (r : DayResult) : DayResult :=
  {| index := index r; filename := filename r; url := url r; ok := ok r;
     geojson := geojson r; dayNumber := n; distance := distance r;
     elevation := elevation r; error := error r |}.

Definition set_distance (n : float) (r : DayResult) : DayResult :=
  {| index := index r; filename := filename r; url := url r; ok := ok r;
     geojson := geojson r; dayNumber := dayNumber r; distance := n;
     elevation := elevation r; error := error r |}.

Definition set_elevation (n : float) (r : DayResult) : DayResult :=
  {| index := index r; filename := filename r; url := url r; ok := ok r;
     geojson := geojson r; dayNumber := dayNumber r; distance := distance r;
     elevation := n; error := error r |}.

Definition set_error (e : option string) (r : DayResult) : DayResult :=
  {| index := index r; filename := filename r; url := url r; ok := ok r;
     geojson := geojson r; dayNumber := dayNumber r; distance := distance r;
     elevation := elevation r; error := e |}.

(** [(props && props.day != null) ? props.day : index + 1] *)
Definition day_number (props : option Properties) (index : nat) : float :=
  match props with
  | Some p =>
      match day p with
      | Number n => n
      | Undefined | Null => of_nat index + 1
      end
  | None => of_nat index + 1
  end.

Section Page.
Context {math : MathHost} {engine : Engine}.
Local Open Scope string_scope.

Notation "x <- c ;; k" := (st_bind c (fun x => k))
  (at level 61, c at next level, right associativity).
Notation "c ;; k" := (st_bind c (fun _ => k))
  (at level 61, right associativity).

(** [loadDayGeoJSON]: the assignments made before a throw stay in the
    result, [ok = true] among them when the throw comes from
    [extractCoords], [calcDistance] or [calcElevationGain]. *)
Definition loadDayGeoJSON (fetch : Fetch Payload)
  (tripId dataRoot filename : string) (index : nat) : DayResult :=
  let url := dataRoot ++ "/" ++ tripId ++ "/" ++ filename in
  let result :=
    {| index := index; filename := filename; url := url; ok := false;
       geojson := None; dayNumber := (of_nat index + 1)%float;
       distance := 0%float; elevation := 0%float; error := None |} in
  st_try_catch
    (res <- await (fetch url) ;;
     (if negb (res_ok res)
      then st_throw ("HTTP " ++ string_of_Z (Z.of_nat (res_status res)))
      else st_ret tt) ;;
     geojson <- await (res_json res) ;;
     update (set_geojson geojson) ;;
     update (set_ok true) ;;
     coords <- await (extractCoords geojson) ;;
     let props := getFirstFeatureProps geojson in
     update (set_dayNumber (day_number props index)) ;;
     distance <- await (override props distance_miles (Utils64.calcDistance coords)) ;;
     update (set_distance distance) ;;
     elevation <- await (override props elevation_gain_ft (Utils64.calcElevationGain coords)) ;;
     update (set_elevation elevation))
    (fun err => update (set_error (Some (message err))))
    result.

(** [loadAllDays]; [net index] is how the request made for the day at
    [index] settles. *)
Definition loadAllDays (net : nat -> Fetch Payload)
  (tripId dataRoot : string) (dayFiles : list string) : list DayResult :=
  Trip.mapi_from (fun filename index => loadDayGeoJSON (net index) tripId dataRoot filename index)
    0 dayFiles.

End Page.

(** The numbers [initTripPage] writes into the overview. *)
Record Totals : Type := {
  trip_total_distance : float;
  trip_total_elevation : float;
  trip_days_count : nat
}.

(** The aggregation of [initTripPage], from the day results on. *)
Definition aggregateTotals (dayResults : list DayResult) : Totals :=
  let validDays := filter ok dayResults in
  let '(totalDistance, totalElevation) :=
    fold_left
      (fun '(totalDistance, totalElevation) day =>
         (totalDistance + distance day, totalElevation + elevation day))
      validDays (0, 0) in
  {| trip_total_distance := Math_round (totalDistance * 10) / 10;
     trip_total_elevation := Math_round (totalElevation / 10) * 10;
     trip_days_count := length validDays |}.

(** Lines 64 to 78 of [initTripPage]: the day results and their totals. *)
Definition aggregate {math : MathHost} {engine : Engine} (net : nat -> Fetch Payload)
  (tripId dataRoot : string) (dayFiles : list string) : Totals * list DayResult :=
  let dayResults := loadAllDays net tripId dataRoot dayFiles in
  (aggregateTotals dayResults, dayResults).

End Trip64.

(** ** The homepage script [js/main.js] *)

Module Main64.
Import PrimFloat JS F64 Parsed.
Local Open Scope float_scope.

Definition extractCoordsFromGeometry (geometry : option Geometry) : Coords :=
  match geometry with
  | None => []
  | Some g =>
      match g with
      | LineString coordinates => GeoJSON.or_empty coordinates
      | MultiLineString coordinates => flat (GeoJSON.or_empty coordinates)
      | OtherGeometry _ => []
      end
  end.

Section Extraction.
Context {engine : Engine}.

(** The [for (const f of geojson.features || [])] loop of [extractCoords]. *)
Fixpoint extractCoords_loop (features : list (option Feature)) : completion (option Coords) :=
  match features with
  | [] => ret None
  | f :: rest =>
      match f with
      | None => throw (TypeError_null "geometry")
      | Some f =>
          let c := extractCoordsFromGeometry (geometry f) in
          if GeoJSON.has_length c then ret (Some c) else extractCoords_loop rest
      end
  end.

Definition extractCoords (geojson : Payload) : completion Coords :=
  match geojson with
  | None => ret []
  | Some doc =>
      bind
        match doc with
        | FeatureCollection features => extractCoords_loop (GeoJSON.or_empty features)
        | _ => ret None
        end
        (fun returned =>
           match returned with
           | Some c => ret c
           | None =>
               match doc with
               | FeatureObject feature => ret (extractCoordsFromGeometry (geometry feature))
               | _ => ret (extractCoordsFromGeometry (Some (as_geometry doc)))
               end
           end)
  end.

End Extraction.

(** [geojson.features?.[0]?.properties || null] *)
Definition getFirstFeatureProps (geojson : Payload) : option Properties :=
  match geojson with
  | None => None
  | Some (FeatureCollection features) =>
      Main.opt_chain (Main.opt_chain features (fun fs => nth 0 fs None)) properties
  | Some (FeatureObject feature) => properties feature
  | Some (GeometryObject _) => None
  end.

(** What [fetchDayStats] returns. *)
Record DayStats : Type := {
  ok : bool;
  distance : float;
  elevation : float
}.

Section Homepage.
Context {math : MathHost} {engine : Engine}.
Local Open Scope string_scope.

(** [fetchDayStats]: a throw anywhere in the [try] block, the statistics
    code included, gives the failed result. *)
Definition fetchDayStats (fetch : Fetch Payload) (url : string) : DayStats :=
  try_catch
    (bind (fetch url) (fun res =>
     bind (if negb (res_ok res)
           then throw ("HTTP " ++ string_of_Z (Z.of_nat (res_status res)))
           else ret tt) (fun _ =>
     bind (res_json res) (fun geojson =>
     bind (extractCoords geojson) (fun coords =>
     let props := getFirstFeatureProps geojson in
     bind (override props distance_miles (Utils64.calcDistance coords)) (fun distance =>
     bind (override props elevation_gain_ft (Utils64.calcElevationGain coords)) (fun elevation =>
     ret {| ok := true; distance := distance; elevation := elevation |})))))))
    (fun _ => {| ok := false; distance := 0%float; elevation := 0%float |}).

End Homepage.

(** The result object of [computeTripData]. *)
Record TripData : Type := {
  trip_id : string;
  page_url : jsstring;
  title : string;
  description : string;
  start_date : jsstring;
  start_time : jsstring;
  end_date : jsstring;
  end_time : jsstring;
  totalDistance : value;
  totalElevation : value;
  duration : jsstring;
  error : jsstring
}.

Section TripCards.
Context {math : MathHost} {engine : Engine} {host : DateHost}.
Local Open Scope string_scope.

(** The [for (const day of dayResults)] loop of [computeTripData]. *)
Definition computeTripData_loop (dayResults : list DayStats) : float * float :=
  fold_left
    (fun '(totalDistance, totalElevation) day =>
       if ok day
       then ((totalDistance + distance day)%float, (totalElevation + elevation day)%float)
       else (totalDistance, totalElevation))
    dayResults (0%float, 0%float).

Definition computeTripData (fetchMeta : Fetch GeoJSON.Meta) (net : nat -> Fetch Payload)
  (entry : GeoJSON.TripEntry) : TripData :=
  let trip_id := GeoJSON.trip_id entry in
  let page_url := GeoJSON.page_url entry in
  let dataRoot := "./data" in
  let loaded :=
    bind (fetchMeta (dataRoot ++ "/" ++ trip_id ++ "/meta.json")) (fun res =>
    bind (if negb (res_ok res)
          then throw ("HTTP " ++ string_of_Z (Z.of_nat (res_status res)))
          else ret tt) (fun _ =>
    res_json res)) in
  match loaded with
  | inl err =>
      {| trip_id := trip_id; page_url := page_url; title := trip_id;
         description := EmptyString;
         start_date := None; start_time := None; end_date := None; end_time := None;
         totalDistance := Null; totalElevation := Null; duration := None;
         error := Some ("Could not load meta.json (" ++ message err ++ ")") |}
  | inr meta =>
      let duration :=
        if truthy_string (GeoJSON.start_date meta) && truthy_string (GeoJSON.end_date meta)
        then Some (Utils.calcElapsedTime (GeoJSON.start_date meta) (GeoJSON.start_time meta)
                     (GeoJSON.end_date meta) (GeoJSON.end_time meta))
        else None in
      let dayFiles := GeoJSON.or_empty (GeoJSON.days meta) in
      let totals :=
        if (length dayFiles =? 0)%nat then (Null, Null)
        else
          let dayResults :=
            Trip.mapi_from
              (fun filename index =>
                 fetchDayStats (net index) (dataRoot ++ "/" ++ trip_id ++ "/" ++ filename))
              0 dayFiles in
          let '(totalDistance, totalElevation) := computeTripData_loop dayResults in
          (Number (Math_round (totalDistance * 10) / 10)%float,
           Number (Math_round (totalElevation / 10) * 10)%float) in
      {| trip_id := trip_id; page_url := page_url;
         title := or_string (GeoJSON.title meta) trip_id;
         description := or_string (GeoJSON.description meta) EmptyString;
         start_date := or_null (GeoJSON.start_date meta);
         start_time := or_null (GeoJSON.start_time meta);
         end_date := or_null (GeoJSON.end_date meta);
         end_time := or_null (GeoJSON.end_time meta);
         totalDistance := fst totals; totalElevation := snd totals;
         duration := duration; error := None |}
  end.

End TripCards.

End Main64.

(** ** The specification's notions, on binary64 numbers *)

Module Spec64.
Import PrimFloat JS F64 Parsed.
Local Open Scope float_scope.

(** The segments of a track: each point paired with the next. *)
Definition consecutive_pairs {A : Type} (points : list A) : list (A * A) :=
  combine points (tl points).

(** A sum taken from left to right, starting from zero. *)
Definition sum (terms : list float) : float := fold_left PrimFloat.add terms 0.

(** The elevation a point carries: its third element, when it is a number. *)
Definition elevation_of (p : Position) : option float :=
  match get p 2 with
  | Number e => Some e
  | _ => None
  end.

(** The climb of a segment: the elevation delta when both ends carry an
    elevation and the delta is above zero. *)
Definition climb (segment : Position * Position) : option float :=
  match elevation_of (fst segment), elevation_of (snd segment) with
  | Some a, Some b => if gtb (b - a) 0 then Some (b - a) else None
  | _, _ => None
  end.

(** The positive elevation deltas of a track, in metres. *)
Definition positive_deltas (points : list Position) : list float :=
  Spec.keep_some climb (consecutive_pairs points).

(** Metres to feet. *)
Definition feet (metres : float) : float := metres * 3.28084.

(** Rounding to the nearest ten and to one decimal, as the code does it. *)
Definition round_to_ten (x : float) : float := Math_round (x / 10) * 10.
Definition round_to_tenth (x : float) : float := Math_round (x * 10) / 10.

(** The elevation gain of a track. *)
Definition trackElevationGain (points : list Position) : float :=
  match points with
  | [] | [_] => 0
  | _ => round_to_ten (feet (sum (positive_deltas points)))
  end.

Section Haversine.
Context {math : MathHost}.

Definition radians (degrees : float) : float := degrees * Math_PI / 180.

Definition great_circle (radius lon1 lat1 lon2 lat2 : float) : float :=
  let phi1 := radians lat1 in
  let phi2 := radians lat2 in
  let dphi := radians (lat2 - lat1) in
  let dlambda := radians (lon2 - lon1) in
  let h := exponentiate (Math_sin (dphi / 2)) 2
           + Math_cos phi1 * Math_cos phi2 * exponentiate (Math_sin (dlambda / 2)) 2 in
  radius * 2 * Math_atan2 (Math_sqrt h) (Math_sqrt (1 - h)).

Definition distanceBetween (segment : Position * Position) : float :=
  great_circle 3958.8
    (ToNumber (get (fst segment) 0)) (ToNumber (get (fst segment) 1))
    (ToNumber (get (snd segment) 0)) (ToNumber (get (snd segment) 1)).

(** The distance of a track. *)
Definition trackDistance (points : list Position) : float :=
  match points with
  | [] | [_] => 0
  | _ => round_to_tenth (sum (map distanceBetween (consecutive_pairs points)))
  end.

End Haversine.

(** A fetch outcome is a retrieved payload or a failure reason. *)
Definition outcome {A : Type} (settled : completion (Response A)) : string + A :=
  match settled with
  | inl e => inl (message e)
  | inr res =>
      if res_ok res then
        match res_json res with
        | inl e => inl (message e)
        | inr payload => inr payload
        end
      else inl ("HTTP " ++ string_of_Z (Z.of_nat (res_status res)))%string
  end.

End Spec64.

(* ================================================================== *)
(** * Part VIII. Auxiliary notions and sample data *)
(* ================================================================== *)

Import JS GeoJSON.
Local Open Scope js_scope.

(** ** Notions the statements use *)

(** The order of numbers that are not [NaN]. *)
Definition number_le (a b : number) : Prop :=
  match a, b with
  | Num x, Num y => (x <= y)%Q
  | _, _ => False
  end.

(** A number above zero. *)
Definition positive_number (d : number) : Prop :=
  exists x : Q, d = Num x /\ (0 < x)%Q.

(** A number that holds the integer [z]. *)
Definition holds (a : number) (z : Z) : Prop :=
  exists q : Q, a = Num q /\ (q == inject_Z z)%Q.

(** The URL [loadDayGeoJSON] requests. *)
Definition day_url (tripId dataRoot filename : string) : string :=
  (dataRoot ++ "/" ++ tripId ++ "/" ++ filename)%string.

(** The string [calcElapsedTime] hands to [new Date]. *)
Definition date_time_string (date time : jsstring) : string :=
  (template date ++ "T" ++ or_string time "00:00")%string.

(** ** Sample hosts, to run the definitions *)

(** Low-order rational stand-ins for the [Math] functions. *)
Definition sample_math : MathHost :=
  {| Math_sin := fun x => (x - x * x * x / Num 6)%js;
     Math_cos := fun x => (Num 1 - x * x / Num 2)%js;
     Math_sqrt := fun x => ((Num 1 + x) / Num 2)%js;
     Math_atan2 := fun y x => (y / (x + y))%js |}.

(** A host on UTC whose [Date] knows the date-time string format only. *)
Definition utc_host : DateHost :=
  {| LocalTZA := fun _ => 0%Z;
     Date_parse_fallback := fun _ => None;
     LocalTZA_range := fun _ => eq_refl |}.

(** ** Sample data *)

(** The track of the README's day file. *)
Definition whitney_track : Utils.Coords :=
  [ [Number (Num (-118.2923)); Number (Num 36.5785); Number (Num 2100)];
    [Number (Num (-118.2901)); Number (Num 36.5712); Number (Num 2210)];
    [Number (Num (-118.2876)); Number (Num 36.5648); Number (Num 2380)] ].

Definition empty_feature : Feature := {| geometry := None; properties := None |}.

Definition line_feature (path : Utils.Coords) : Feature :=
  {| geometry := Some (LineString (Some path)); properties := None |}.

(** A request answered with status 200 and a payload, and one answered
    with status 404. *)
Definition json_response (record : Payload) : completion (Response Payload) :=
  inr {| res_ok := true; res_status := 200; res_json := inr record |}.

Definition not_found : completion (Response Payload) :=
  inr {| res_ok := false; res_status := 404; res_json := inr None |}.

(** Properties that give the distance by hand. *)
Definition manual_distance : Properties :=
  {| day := Undefined; distance_miles := Number (Num 14.2); elevation_gain_ft := Null |}.

Definition overridden_feature : Payload :=
  Some (FeatureObject
          {| geometry := Some (LineString (Some [[Number (Num 1); Number (Num 2)]]));
             properties := Some manual_distance |}).

(** A collection whose first feature gives the distance by hand. *)
Definition overridden_collection : Payload :=
  Some (FeatureCollection
          (Some [{| geometry := Some (OtherGeometry (Some "Point"%string));
                    properties := Some manual_distance |};
                 line_feature whitney_track])).

(** A [meta.json] that lists three days. *)
Definition sample_meta : Meta :=
  {| title := Some "John Muir Trail"%string;
     description := None;
     start_date := Some "2024-06-01"%string;
     start_time := Some "07:00"%string;
     end_date := Some "2024-06-15"%string;
     end_time := Some "14:30"%string;
     days := Some ["day-1.geojson"; "day-2.geojson"; "day-3.geojson"]%string |}.

Definition meta_response : Response Meta :=
  {| res_ok := true; res_status := 200; res_json := inr sample_meta |}.

Definition three_days : list string :=
  ["day-1.geojson"; "day-2.geojson"; "day-3.geojson"]%string.

Definition sample_day : Payload :=
  Some (FeatureCollection
          (Some [{| geometry :=
                      Some (LineString
                              (Some [[Number (Num (-118.2923)); Number (Num 36.5785);
                                      Number (Num 2100)];
                                     [Number (Num (-118.2901)); Number (Num 36.5712);
                                      Number (Num 2210)]]));
                    properties := None |}])).

(** The second of three requests fails. *)
Definition second_fails (index : nat) : Fetch Payload :=
  fun _ => if (index =? 1)%nat then not_found else json_response sample_day.

Definition june_1 : Spec.CalendarDate :=
  {| Spec.year := 2024; Spec.month := 6; Spec.day_of_month := 1 |}.

Definition june_15 : Spec.CalendarDate :=
  {| Spec.year := 2024; Spec.month := 6; Spec.day_of_month := 15 |}.

Definition clock (h mi : Z) : option Spec.TimeOfDay :=
  Some {| Spec.hours := h; Spec.minutes := mi |}.

(** ** Notions the further properties use *)

(** The same number: two [NaN], or two rationals that are equal. *)
Definition number_eq (a b : number) : Prop :=
  match a, b with
  | NaN, NaN => True
  | Num x, Num y => (x == y)%Q
  | _, _ => False
  end.

(** The character [c] occurs in [s]. *)
Fixpoint has_char (c : ascii) (s : string) : bool :=
  match s with
  | EmptyString => false
  | String x rest => Ascii.eqb x c || has_char c rest
  end.

(** What one character becomes when it is escaped for HTML. *)
Definition escape_char (c : ascii) : string :=
  if Ascii.eqb c "&" then "&amp;"
  else if Ascii.eqb c "<" then "&lt;"
  else if Ascii.eqb c ">" then "&gt;"
  else if Ascii.eqb c "034" then "&quot;"
  else String c EmptyString.

Fixpoint escape_each (s : string) : string :=
  match s with
  | EmptyString => EmptyString
  | String c rest => (escape_char c ++ escape_each rest)%string
  end.

(** Text that is safe between tags and inside a double-quoted attribute:
    no [<], [>] or double quote, and every [&] starts one of the four
    entities. *)
Fixpoint well_escaped (s : string) : bool :=
  match s with
  | EmptyString => true
  | String c rest =>
      negb (Ascii.eqb c "<") && negb (Ascii.eqb c ">") && negb (Ascii.eqb c "034")
      && (if Ascii.eqb c "&"
          then prefix "amp;" rest || prefix "lt;" rest || prefix "gt;" rest
               || prefix "quot;" rest
          else true)
      && well_escaped rest
  end.

(** Reading the four entities back. *)
Fixpoint unescapeHtml (s : string) : string :=
  match s with
  | EmptyString => EmptyString
  | String c rest =>
      match c, rest with
      | "&"%char, String "a" (String "m" (String "p" (String ";" r))) =>
          String "&" (unescapeHtml r)
      | "&"%char, String "l" (String "t" (String ";" r)) => String "<" (unescapeHtml r)
      | "&"%char, String "g" (String "t" (String ";" r)) => String ">" (unescapeHtml r)
      | "&"%char, String "q" (String "u" (String "o" (String "t" (String ";" r)))) =>
          String "034" (unescapeHtml r)
      | _, _ => String c (unescapeHtml rest)
      end
  end.

(** The string holds one of the four characters [escapeHtml] replaces. *)
Definition needs_escaping (s : string) : bool :=
  has_char "&" s || has_char "<" s || has_char ">" s || has_char "034" s.

(** The third element of each position. *)
Definition elevations (coords : Utils.Coords) : list value :=
  map (fun p => get p 2) coords.

(** A number that is [k] tenths. *)
Definition tenths (a : number) (k : Z) : Prop :=
  exists q : Q, a = Num q /\ (q * 10 == inject_Z k)%Q.

(** The sum of a list of integers. *)
Definition total (ks : list Z) : Z := fold_right Z.add 0%Z ks.

(** A feature with a track and statistics of its own. *)
Definition tagged_feature (path : Utils.Coords) (miles feet : Q) : Feature :=
  {| geometry := Some (LineString (Some path));
     properties := Some {| day := Number (Num 9);
                           distance_miles := Number (Num miles);
                           elevation_gain_ft := Number (Num feet) |} |}.

(** A first feature without a track that gives the distance by hand. *)
Definition waypoint : Feature :=
  {| geometry := Some (OtherGeometry (Some "Point"%string));
     properties := Some manual_distance |}.

(** Three day results, the second of a request that failed. *)
Definition logged_days : list Trip.DayResult :=
  [ {| Trip.index := 0; Trip.filename := "day-1.geojson"%string;
       Trip.url := "../data/jmt/day-1.geojson"%string; Trip.ok := true;
       Trip.geojson := None; Trip.dayNumber := Num 1;
       Trip.distance := Num 14.2; Trip.elevation := Num 920; Trip.error := None |};
    {| Trip.index := 1; Trip.filename := "day-2.geojson"%string;
       Trip.url := "../data/jmt/day-2.geojson"%string; Trip.ok := false;
       Trip.geojson := None; Trip.dayNumber := Num 2;
       Trip.distance := Num 0; Trip.elevation := Num 0;
       Trip.error := Some "HTTP 404"%string |};
    {| Trip.index := 2; Trip.filename := "day-3.geojson"%string;
       Trip.url := "../data/jmt/day-3.geojson"%string; Trip.ok := true;
       Trip.geojson := None; Trip.dayNumber := Num 3;
       Trip.distance := Num 9.9; Trip.elevation := Num 1480; Trip.error := None |} ].

(** A trip of the index. *)
Definition jmt_entry : TripEntry :=
  {| trip_id := "jmt"%string; page_url := Some "trips/jmt.html"%string |}.


(** The card data of a trip whose [meta.json] did not load. *)
Definition card_without_meta (entry : TripEntry) (reason : string) : Main.TripData :=
  {| Main.trip_id := trip_id entry;
     Main.page_url := page_url entry;
     Main.title := trip_id entry;
     Main.description := EmptyString;
     Main.start_date := None;
     Main.start_time := None;
     Main.end_date := None;
     Main.end_time := None;
     Main.totalDistance := Null;
     Main.totalElevation := Null;
     Main.duration := None;
     Main.error := Some ("Could not load meta.json (" ++ reason ++ ")")%string |}.

(** The string starts with a decimal digit. *)
Definition is_digit (c : ascii) : bool :=
  ((48 <=? nat_of_ascii c) && (nat_of_ascii c <=? 57))%nat.

Definition starts_with_digit (s : string) : bool :=
  match s with
  | EmptyString => false
  | String c _ => is_digit c
  end.

(** ** Notions and sample data of the binary64 part *)

Section Binary64Samples.
Import PrimFloat.

(** The statistics code did not throw: the day failed to load, or it
    loaded and no error was recorded. *)
Definition clean (r : Trip64.DayResult) : Prop :=
  Trip64.ok r = false \/ Trip64.error r = None.

(** A day of the homepage and a day of the trip page with the same
    outcome and the same statistics. *)
Definition same_day (home : Main64.DayStats) (page : Trip64.DayResult) : Prop :=
  Main64.ok home = Trip64.ok page
  /\ Main64.distance home = Trip64.distance page
  /\ Main64.elevation home = Trip64.elevation page.

(** No entry of the coordinate array is [null]. *)
Definition is_position (c : option Parsed.Position) : bool :=
  match c with
  | Some _ => true
  | None => false
  end.

Definition null_free_coords (coords : Parsed.Coords) : bool := forallb is_position coords.

Definition null_free_geometry (g : option Parsed.Geometry) : bool :=
  match g with
  | Some (Parsed.LineString coordinates) => null_free_coords (or_empty coordinates)
  | Some (Parsed.MultiLineString coordinates) =>
      forallb (fun path => match path with
                           | Some c => null_free_coords c
                           | None => false
                           end) (or_empty coordinates)
  | Some (Parsed.OtherGeometry _) => true
  | None => true
  end.

(** A payload that holds no [null] feature, path or position. *)
Definition null_free (g : Parsed.Payload) : bool :=
  match g with
  | None => true
  | Some (Parsed.FeatureCollection features) =>
      forallb (fun f => match f with
                        | Some f => null_free_geometry (Parsed.geometry f)
                        | None => false
                        end) (or_empty features)
  | Some (Parsed.FeatureObject f) => null_free_geometry (Parsed.geometry f)
  | Some (Parsed.GeometryObject g) => null_free_geometry (Some g)
  end.

(** The override of a member of the properties, when there is one. *)
Definition override_value (props : option Parsed.Properties)
  (member : Parsed.Properties -> F64.value) : option PrimFloat.float :=
  match props with
  | Some p =>
      match member p with
      | F64.Number n => Some n
      | F64.Undefined | F64.Null => None
      end
  | None => None
  end.

(** What the [try] block of [loadDayGeoJSON] and of [fetchDayStats]
    computes from a payload, when nothing throws: the distance and the
    elevation. *)
Definition statistics {math : F64.MathHost} {engine : F64.Engine} (g : Parsed.Payload)
  : completion (float * float) :=
  bind (Trip64.extractCoords g) (fun coords =>
  let props := Trip64.getFirstFeatureProps g in
  bind (Parsed.override props Parsed.distance_miles (Utils64.calcDistance coords))
    (fun distance =>
  bind (Parsed.override props Parsed.elevation_gain_ft (Utils64.calcElevationGain coords))
    (fun elevation =>
  ret (distance, elevation)))).

(** A number that is not [NaN] and whose sign bit is clear: [+0], a
    number above zero or [+Infinity]. *)
Definition non_negative (x : float) : Prop :=
  match FloatOps.Prim2SF x with
  | SpecFloat.S754_zero s | SpecFloat.S754_infinity s | SpecFloat.S754_finite s _ _ =>
      s = false
  | SpecFloat.S754_nan => False
  end.

(** The wording of V8 for a member read on [null]. *)
Definition v8 : F64.Engine :=
  {| F64.TypeError_null :=
       fun key => ("Cannot read properties of null (reading '" ++ key ++ "')")%string |}.

(** A stand-in for the approximated operations, to run the definitions:
    the results are not those of an engine. *)
Definition sample_math64 : F64.MathHost :=
  {| F64.Math_sin := fun x => x;
     F64.Math_cos := fun _ => PrimFloat.one;
     F64.Math_sqrt := PrimFloat.sqrt;
     F64.Math_atan2 := fun y _ => y;
     F64.exponentiate := fun x _ => PrimFloat.mul x x |}.

(** A position at the origin with the elevation [e]. *)
Definition at_elevation (e : PrimFloat.float) : Parsed.Position :=
  [F64.Number 0%float; F64.Number 0%float; F64.Number e].

(** The track of the README's day file. *)
Definition whitney_points : list Parsed.Position :=
  [ [F64.Number (-118.2923)%float; F64.Number 36.5785%float; F64.Number 2100%float];
    [F64.Number (-118.2901)%float; F64.Number 36.5712%float; F64.Number 2210%float];
    [F64.Number (-118.2876)%float; F64.Number 36.5648%float; F64.Number 2380%float] ].

(** Two climbs, of 0.2 and of 124999.8 metres, around a descent: 125000
    metres when added exactly, a little less when added in binary64. *)
Definition near_tie_points : list Parsed.Position :=
  [ at_elevation 0%float; at_elevation 0.2%float; at_elevation 0.1%float;
    at_elevation 124999.9%float ].

(** A climb to an elevation written [1e999], which [JSON.parse] reads as
    [Infinity]. *)
Definition overflow_points : list Parsed.Position :=
  [ at_elevation 0%float; at_elevation PrimFloat.infinity ].

(** A request answered with status 200 and a payload. *)
Definition parsed_response (record : Parsed.Payload) : completion (Response Parsed.Payload) :=
  inr {| res_ok := true; res_status := 200; res_json := inr record |}.

(** A feature that gives its distance by hand and whose coordinate array
    holds two [null] entries. *)
Definition null_positions : Parsed.Payload :=
  Some (Parsed.FeatureObject
          {| Parsed.geometry := Some (Parsed.LineString (Some [None; None]));
             Parsed.properties :=
               Some {| Parsed.day := F64.Undefined;
                       Parsed.distance_miles := F64.Number 5%float;
                       Parsed.elevation_gain_ft := F64.Undefined |} |}).

(** A day that climbs 4.5 metres: 14.76 feet, 10 once rounded. *)
Definition short_climb64 : Parsed.Payload :=
  Some (Parsed.GeometryObject
          (Parsed.LineString (Some [Some (at_elevation 0%float);
                                    Some (at_elevation 4.5%float)]))).

Definition two_short_climbs64 : list Trip64.DayResult :=
  Trip64.loadAllDays (math := sample_math64) (engine := v8)
    (fun _ _ => parsed_response short_climb64)
    "walk" "../data" ["day-1.geojson"; "day-2.geojson"]%string.

(** A day result that loaded with the given distance and elevation. *)
Definition loaded_day (index : nat) (miles feet : PrimFloat.float) : Trip64.DayResult :=
  {| Trip64.index := index; Trip64.filename := "day.geojson"%string;
     Trip64.url := "../data/jmt/day.geojson"%string; Trip64.ok := true;
     Trip64.geojson := None; Trip64.dayNumber := F64.of_nat (S index);
     Trip64.distance := miles; Trip64.elevation := feet; Trip64.error := None |}.

End Binary64Samples.

(** ** Tactics *)

(** Linear arithmetic over [Q] with divisions by ten. *)
Ltac lra_tenths :=
  unfold Qdiv in *; change (/ 10)%Q with (1 # 10)%Q in *; lra.

(** Evaluates the entry of the month table that a goal reads. *)
Ltac eval_month_table :=
  repeat match goal with
    | |- context [nth ?i ?l ?d] =>
        let v := eval vm_compute in (nth i l d) in change (nth i l d) with v
    end.

(** Case analysis on an index of the colour tables. *)
Ltac table_index k H :=
  destruct k as [|k]; [|
  destruct k as [|k]; [|
  destruct k as [|k]; [|
  destruct k as [|k]; [|
  destruct k as [|k]; [|
  destruct k as [|k]; [|
  destruct k as [|k]; [|
  destruct k as [|k]; [|
  destruct k as [|k]; [|
  destruct k as [|k]; [|exfalso; lia]]]]]]]]]].

(* ================================================================== *)
(** * Part IX. Properties *)
(* ================================================================== *)

(** ** Numbers *)

Lemma gtb_zero_Num (a : number) :
  (a >? Num 0) = true -> exists x : Q, a = Num x /\ (0 < x)%Q.
Proof.
  destruct a as [|x]; simpl; [discriminate|].
  intros H. exists x. split; [reflexivity|].
  apply negb_true_iff in H.
  destruct (Qlt_le_dec 0 x) as [Hlt|Hle]; [exact Hlt|].
  apply Qle_bool_iff in Hle. unfold gtb, ltb in H. congruence.
Qed.

Lemma Qfloor_half_bounds (x : Q) :
  (x - (1 # 2) < inject_Z (Qfloor (x + (1 # 2))) <= x + (1 # 2))%Q.
Proof.
  pose proof (Qfloor_le (x + (1 # 2))) as Hle.
  pose proof (Qlt_floor (x + (1 # 2))) as Hlt.
  rewrite inject_Z_plus in Hlt. change (inject_Z 1) with 1%Q in Hlt.
  split; [|exact Hle].
  lra.
Qed.

(** ** The index loops of [utils.js] walk the segments of the track *)

Section Loops.
Variable A : Type.
Variable f : A -> Utils.Position -> Utils.Position -> A.

Lemma index_loop_from (coords pre : Utils.Coords) (prev : Utils.Position)
  (rest : Utils.Coords) (a : A) :
  coords = (pre ++ prev :: rest)%list ->
  fold_left (fun acc i => f acc (Utils.at_ coords (i - 1)) (Utils.at_ coords i))
    (seq (S (length pre)) (length rest)) a
  = fold_left (fun acc pq => f acc (fst pq) (snd pq)) (combine (prev :: rest) rest) a.
Proof.
  revert pre prev a.
  induction rest as [|q rest IH]; intros pre prev a Hc; [reflexivity|].
  cbn [length seq fold_left combine fst snd].
  assert (Hprev : Utils.at_ coords (S (length pre) - 1) = prev).
  { subst coords. unfold Utils.at_.
    replace (S (length pre) - 1)%nat with (length pre) by lia.
    rewrite app_nth2 by lia. rewrite Nat.sub_diag. reflexivity. }
  assert (Hq : Utils.at_ coords (S (length pre)) = q).
  { subst coords. unfold Utils.at_.
    rewrite app_nth2 by lia.
    replace (S (length pre) - length pre)%nat with 1%nat by lia. reflexivity. }
  rewrite Hprev, Hq.
  specialize (IH (pre ++ [prev])%list q (f a prev q)).
  rewrite length_app in IH. cbn [length] in IH.
  replace (length pre + 1)%nat with (S (length pre)) in IH by lia.
  apply IH. subst coords. rewrite <- app_assoc. reflexivity.
Qed.

Lemma index_loop_pairs (coords : Utils.Coords) (a : A) :
  fold_left (fun acc i => f acc (Utils.at_ coords (i - 1)) (Utils.at_ coords i))
    (seq 1 (length coords - 1)) a
  = fold_left (fun acc pq => f acc (fst pq) (snd pq)) (Spec.consecutive_pairs coords) a.
Proof.
  destruct coords as [|p rest]; [reflexivity|].
  unfold Spec.consecutive_pairs. cbn [tl length].
  replace (S (length rest) - 1)%nat with (length rest) by lia.
  apply (@index_loop_from (p :: rest) [] p rest a). reflexivity.
Qed.

End Loops.

Lemma fold_left_add_map (B : Type) (g : B -> number) (l : list B) (a : number) :
  fold_left (fun acc b => acc + g b) l a = fold_left add (map g l) a.
Proof.
  revert a. induction l as [|b l IH]; intros a; [reflexivity|].
  cbn [fold_left map]. apply IH.
Qed.

Lemma climb_fold (pairs : list (Utils.Position * Utils.Position)) (gain : number) :
  fold_left
    (fun acc pq =>
       if is_number (get (fst pq) 2) && is_number (get (snd pq) 2)
       then if (ToNumber (get (snd pq) 2) - ToNumber (get (fst pq) 2)) >? Num 0
            then acc + (ToNumber (get (snd pq) 2) - ToNumber (get (fst pq) 2))
            else acc
       else acc)
    pairs gain
  = fold_left add (Spec.keep_some Spec.climb pairs) gain.
Proof.
  revert gain.
  induction pairs as [|[p q] pairs IH]; intros gain; [reflexivity|].
  cbn [fold_left Spec.keep_some fst snd].
  rewrite IH. unfold Spec.climb, Spec.elevation_of. cbn [fst snd].
  destruct (get p 2) as [| |a]; cbn [is_number andb]; try reflexivity.
  destruct (get q 2) as [| |b]; cbn [is_number andb ToNumber]; try reflexivity.
  destruct ((b - a) >? Num 0); reflexivity.
Qed.

Lemma calcElevationGain_loop_sum (coords : Utils.Coords) :
  Utils.calcElevationGain_loop coords = Spec.sum (Spec.positive_deltas coords).
Proof.
  unfold Utils.calcElevationGain_loop, Spec.sum, Spec.positive_deltas.
  rewrite <- climb_fold.
  rewrite <- (index_loop_pairs
                (fun gain p q =>
                   if is_number (get p 2) && is_number (get q 2)
                   then if (ToNumber (get q 2) - ToNumber (get p 2)) >? Num 0
                        then gain + (ToNumber (get q 2) - ToNumber (get p 2))
                        else gain
                   else gain)).
  reflexivity.
Qed.

(** ** Elevation gain *)

Lemma round_to_ten_Num (y : Q) :
  Spec.round_to_ten (Num y) = Num (inject_Z (Qfloor (y / 10 + (1 # 2))) * 10).
Proof. reflexivity. Qed.

Lemma feet_Num (x : Q) : Spec.feet (Num x) = Num (x * 3.28084).
Proof. reflexivity. Qed.

Lemma round_to_ten_nearest (y : Q) :
  exists k : Z,
    Spec.round_to_ten (Num y) = Num (inject_Z k * 10)
    /\ (y - 5 < inject_Z k * 10 <= y + 5)%Q.
Proof.
  exists (Qfloor (y / 10 + (1 # 2))). split; [apply round_to_ten_Num|].
  pose proof (Qfloor_half_bounds (y / 10)) as [Hlo Hhi].
  revert Hlo Hhi. generalize (Qfloor (y / 10 + (1 # 2))) as k. intros k Hlo Hhi.
  split; lra_tenths.
Qed.

Lemma round_to_ten_monotone (x y : Q) :
  (x <= y)%Q -> number_le (Spec.round_to_ten (Num x)) (Spec.round_to_ten (Num y)).
Proof.
  intros H. rewrite !round_to_ten_Num. unfold number_le.
  assert (Hz : (Qfloor (x / 10 + (1 # 2)) <= Qfloor (y / 10 + (1 # 2)))%Z).
  { apply Qfloor_resp_le. lra_tenths. }
  rewrite Zle_Qle in Hz. lra.
Qed.

Lemma keep_some_app (A B : Type) (f : A -> option B) (l1 l2 : list A) :
  Spec.keep_some f (l1 ++ l2) = (Spec.keep_some f l1 ++ Spec.keep_some f l2)%list.
Proof.
  induction l1 as [|a l1 IH]; [reflexivity|].
  cbn [app Spec.keep_some]. destruct (f a); rewrite IH; reflexivity.
Qed.

Lemma combine_snoc (p0 : Utils.Position) (t : Utils.Coords) (p : Utils.Position) :
  combine (p0 :: t ++ [p]) (t ++ [p])
  = (combine (p0 :: t) t ++ [(last (p0 :: t) [], p)])%list.
Proof.
  revert p0. induction t as [|q t IH]; intros p0; [reflexivity|].
  change (combine (p0 :: (q :: t) ++ [p]) ((q :: t) ++ [p]))
    with ((p0, q) :: combine (q :: t ++ [p]) (t ++ [p])).
  rewrite IH. reflexivity.
Qed.

Lemma consecutive_pairs_snoc (p0 : Utils.Position) (t : Utils.Coords) (p : Utils.Position) :
  Spec.consecutive_pairs ((p0 :: t) ++ [p])
  = (Spec.consecutive_pairs (p0 :: t) ++ [(last (p0 :: t) [], p)])%list.
Proof. apply combine_snoc. Qed.

Lemma climb_positive (seg : Utils.Position * Utils.Position) (d : number) :
  Spec.climb seg = Some d ->
  exists a b : number,
    get (fst seg) 2 = Number a /\ get (snd seg) 2 = Number b
    /\ d = b - a /\ exists x : Q, d = Num x /\ (0 < x)%Q.
Proof.
  unfold Spec.climb, Spec.elevation_of.
  destruct (get (fst seg) 2) as [| |a]; try discriminate.
  destruct (get (snd seg) 2) as [| |b]; try discriminate.
  destruct ((b - a) >? Num 0) eqn:Hpos; [|discriminate].
  intros [= <-]. exists a, b. repeat split.
  apply gtb_zero_Num, Hpos.
Qed.

Lemma keep_climb_positive (pairs : list (Utils.Position * Utils.Position)) :
  Forall positive_number (Spec.keep_some Spec.climb pairs).
Proof.
  induction pairs as [|seg pairs IH]; [constructor|].
  cbn [Spec.keep_some]. destruct (Spec.climb seg) as [d|] eqn:Hd; [|exact IH].
  constructor; [|exact IH].
  destruct (climb_positive _ Hd) as (a & b & _ & _ & _ & Hx). exact Hx.
Qed.

Lemma sum_positive_from (l : list number) (a : Q) :
  Forall positive_number l ->
  exists g : Q, fold_left add l (Num a) = Num g /\ (a <= g)%Q.
Proof.
  intros Hl. revert a.
  induction Hl as [|d l (x & -> & Hx) _ IH]; intros a.
  - exists a. split; [reflexivity|lra].
  - cbn [fold_left]. destruct (IH (a + x)%Q) as (g & Hg & Hle).
    exists g. split; [exact Hg|lra].
Qed.

Lemma positive_deltas_sum (coords : Utils.Coords) :
  exists g : Q, Spec.sum (Spec.positive_deltas coords) = Num g /\ (0 <= g)%Q.
Proof. apply sum_positive_from, keep_climb_positive. Qed.

Lemma calcElevationGain_unfold (coords : Utils.Coords) :
  Utils.calcElevationGain coords
  = Spec.round_to_ten (Spec.feet (Spec.sum (Spec.positive_deltas coords))).
Proof.
  unfold Utils.calcElevationGain.
  destruct (length coords <? 2)%nat eqn:Hlen.
  - apply Nat.ltb_lt in Hlen.
    destruct coords as [|p [|q rest]]; [reflexivity|reflexivity|].
    cbn [length] in Hlen. lia.
  - cbv zeta. rewrite calcElevationGain_loop_sum. reflexivity.
Qed.

Lemma rounded_feet_monotone (x y : Q) :
  (x <= y)%Q ->
  number_le (Spec.round_to_ten (Spec.feet (Num x))) (Spec.round_to_ten (Spec.feet (Num y))).
Proof.
  intros H. rewrite !feet_Num. apply round_to_ten_monotone. lra.
Qed.

Lemma positive_deltas_snoc (t : Utils.Coords) (p : Utils.Position) :
  exists more : list number,
    Spec.positive_deltas (t ++ [p]) = (Spec.positive_deltas t ++ more)%list
    /\ Forall positive_number more.
Proof.
  destruct t as [|p0 t].
  - exists []. split; [reflexivity|constructor].
  - exists (Spec.keep_some Spec.climb [(last (p0 :: t) [], p)]).
    split; [|apply keep_climb_positive].
    unfold Spec.positive_deltas.
    rewrite consecutive_pairs_snoc, keep_some_app. reflexivity.
Qed.

(** C9. Appending a point to a track never lowers [calcElevationGain]: the
    new segment adds a positive delta or nothing, and the conversion to feet
    and the rounding to the nearest ten keep the order. *)
Theorem calcElevationGain_append_monotone (t : Utils.Coords) (p : Utils.Position) :
  number_le (Utils.calcElevationGain t) (Utils.calcElevationGain (t ++ [p])).
Proof.
  rewrite !calcElevationGain_unfold.
  destruct (positive_deltas_snoc t p) as (more & -> & Hmore).
  destruct (positive_deltas_sum t) as (g & Hg & _).
  unfold Spec.sum in *. rewrite fold_left_app, Hg.
  destruct (sum_positive_from g Hmore) as (g' & -> & Hle).
  apply rounded_feet_monotone, Hle.
Qed.

(** ** Distance *)

Lemma round_to_tenth_Num (x : Q) :
  Spec.round_to_tenth (Num x) = Num (inject_Z (Qfloor (x * 10 + (1 # 2))) / 10).
Proof. reflexivity. Qed.

Lemma round_to_tenth_nearest (x : Q) :
  exists k : Z,
    Spec.round_to_tenth (Num x) = Num (inject_Z k / 10)
    /\ (x - (1 # 20) < inject_Z k / 10 <= x + (1 # 20))%Q.
Proof.
  exists (Qfloor (x * 10 + (1 # 2))). split; [apply round_to_tenth_Num|].
  pose proof (Qfloor_half_bounds (x * 10)) as [Hlo Hhi].
  revert Hlo Hhi. generalize (Qfloor (x * 10 + (1 # 2))) as k. intros k Hlo Hhi.
  split; lra_tenths.
Qed.

Lemma get_firstn (c : Utils.Position) (i n : nat) :
  (i < n)%nat -> get (firstn n c) i = get c i.
Proof.
  unfold get. revert i c. induction n as [|n IH]; intros i c Hi; [lia|].
  destruct c as [|v c]; [reflexivity|].
  destruct i as [|i]; [reflexivity|].
  cbn [firstn nth]. apply IH. lia.
Qed.

Section Distance.
Context {math : MathHost}.

Lemma haversineDistance_lon_lat (c1 c1' c2 c2' : Utils.Position) :
  firstn 2 c1 = firstn 2 c1' -> firstn 2 c2 = firstn 2 c2' ->
  Utils.haversineDistance c1 c2 = Utils.haversineDistance c1' c2'.
Proof.
  intros H1 H2. unfold Utils.haversineDistance.
  rewrite <- (get_firstn c1 (i := 0) (n := 2)), <- (get_firstn c1 (i := 1) (n := 2)) by lia.
  rewrite <- (get_firstn c2 (i := 0) (n := 2)), <- (get_firstn c2 (i := 1) (n := 2)) by lia.
  rewrite H1, H2.
  rewrite !get_firstn by lia. reflexivity.
Qed.

Lemma calcDistance_loop_sum (coords : Utils.Coords) :
  Utils.calcDistance_loop coords
  = Spec.sum (map Spec.distanceBetween (Spec.consecutive_pairs coords)).
Proof.
  unfold Utils.calcDistance_loop, Spec.sum.
  rewrite (index_loop_pairs (fun total p q => total + Utils.haversineDistance p q)).
  rewrite <- fold_left_add_map. reflexivity.
Qed.

Lemma calcDistance_unfold (coords : Utils.Coords) :
  (2 <= length coords)%nat ->
  Utils.calcDistance coords
  = Spec.round_to_tenth
      (Spec.sum (map Spec.distanceBetween (Spec.consecutive_pairs coords))).
Proof.
  intros Hlen. unfold Utils.calcDistance.
  apply Nat.ltb_ge in Hlen. rewrite Hlen. cbv zeta.
  rewrite calcDistance_loop_sum. reflexivity.
Qed.

End Distance.



(** ** Track extraction *)

Lemma extractCoords_loop_first_nonempty (features : list Feature) :
  match Trip.extractCoords_loop features with
  | Some c => c
  | None => []
  end
  = Spec.first_nonempty (map (fun f => Trip.extractCoordsFromGeometry (geometry f)) features).
Proof.
  induction features as [|f features IH]; [reflexivity|].
  cbn [Trip.extractCoords_loop map Spec.first_nonempty].
  destruct (Trip.extractCoordsFromGeometry (geometry f)) as [|p c]; [exact IH|reflexivity].
Qed.

Lemma first_nonempty_skip (before : list Utils.Coords) (track : Utils.Coords)
  (after : list Utils.Coords) :
  Forall (fun t => t = []) before -> track <> [] ->
  Spec.first_nonempty (before ++ track :: after) = track.
Proof.
  intros Hb Ht. induction Hb as [|t before -> _ IH].
  - destruct track; [congruence|reflexivity].
  - exact IH.
Qed.

(** C7. [extractCoords] dispatches on the kind of the record: a feature
    collection yields the track of its first feature with a non-empty
    track, a feature the track of its geometry, anything else is read as a
    geometry; a LineString yields its coordinates as they are, a
    MultiLineString the concatenation of its paths in order, and any other
    or missing geometry the empty track. *)
Theorem extractCoords_spec :
  (forall features : option (list Feature),
     Trip.extractCoords (Some (FeatureCollection features))
     = Spec.first_nonempty
         (map (fun f => Trip.extractCoordsFromGeometry (geometry f)) (or_empty features)))
  /\ (forall (before : list Feature) (f : Feature) (after : list Feature),
        Forall (fun f' => Trip.extractCoordsFromGeometry (geometry f') = []) before ->
        Trip.extractCoordsFromGeometry (geometry f) <> [] ->
        Trip.extractCoords (Some (FeatureCollection (Some (before ++ f :: after))))
        = Trip.extractCoordsFromGeometry (geometry f))
  /\ (forall feature : Feature,
        Trip.extractCoords (Some (FeatureObject feature))
        = Trip.extractCoordsFromGeometry (geometry feature))
  /\ (forall g : Geometry,
        Trip.extractCoords (Some (GeometryObject g))
        = Trip.extractCoordsFromGeometry (Some g))
  /\ (forall path : Utils.Coords,
        Trip.extractCoordsFromGeometry (Some (LineString (Some path))) = path)
  /\ (forall paths : list Utils.Coords,
        Trip.extractCoordsFromGeometry (Some (MultiLineString (Some paths)))
        = List.concat paths)
  /\ (forall type : jsstring,
        Trip.extractCoordsFromGeometry (Some (OtherGeometry type)) = [])
  /\ Trip.extractCoordsFromGeometry None = []
  /\ Trip.extractCoordsFromGeometry (Some (LineString None)) = []
  /\ Trip.extractCoordsFromGeometry (Some (MultiLineString None)) = []
  /\ Trip.extractCoords None = [].
Proof.
  assert (Hcoll : forall features : option (list Feature),
     Trip.extractCoords (Some (FeatureCollection features))
     = Spec.first_nonempty
         (map (fun f => Trip.extractCoordsFromGeometry (geometry f)) (or_empty features))).
  { intros features. rewrite <- extractCoords_loop_first_nonempty.
    unfold Trip.extractCoords.
    destruct (Trip.extractCoords_loop (or_empty features)); reflexivity. }
  split; [exact Hcoll|].
  split.
  { intros before f after Hb Hf. rewrite Hcoll. cbn [or_empty].
    rewrite map_app. cbn [map].
    apply first_nonempty_skip; [|exact Hf].
    induction Hb as [|f' before Hf' _ IH]; constructor; assumption. }
  repeat split; reflexivity.
Qed.

Lemma extractCoords_spec_witness :
  Trip.extractCoords
    (Some (FeatureCollection
             (Some ([empty_feature] ++ line_feature [[Number (Num 1); Number (Num 2)]]
                      :: [line_feature [[Number (Num 3); Number (Num 4)]]]))))
  = [[Number (Num 1); Number (Num 2)]].
Proof.
  apply (proj1 (proj2 extractCoords_spec) [empty_feature]
           (line_feature [[Number (Num 1); Number (Num 2)]])
           [line_feature [[Number (Num 3); Number (Num 4)]]]).
  - repeat constructor.
  - discriminate.
Defined.

(** ** Day resolution *)

Section DayResolution.
Context {math : MathHost}.
Variable fetch : Fetch Payload.
Variables tripId dataRoot filename : string.
Variable index : nat.

Lemma loadDayGeoJSON_url :
  Trip.url (Trip.loadDayGeoJSON fetch tripId dataRoot filename index)
  = day_url tripId dataRoot filename.
Proof.
  unfold Trip.loadDayGeoJSON, st_try_catch, st_bind, await.
  fold (day_url tripId dataRoot filename).
  destruct (fetch (day_url tripId dataRoot filename)) as [e|res]; [reflexivity|].
  destruct (res_ok res); [|reflexivity].
  destruct (res_json res); reflexivity.
Qed.

(** The result of a day whose payload was retrieved. *)
Lemma loadDayGeoJSON_retrieved (g : Payload) :
  Spec.outcome (fetch (day_url tripId dataRoot filename)) = inr g ->
  Trip.loadDayGeoJSON fetch tripId dataRoot filename index
  = {| Trip.index := index;
       Trip.filename := filename;
       Trip.url := day_url tripId dataRoot filename;
       Trip.ok := true;
       Trip.geojson := g;
       Trip.dayNumber :=
         override (Trip.getFirstFeatureProps g) day (of_nat index + Num 1);
       Trip.distance :=
         override (Trip.getFirstFeatureProps g) distance_miles
           (Utils.calcDistance (Trip.extractCoords g));
       Trip.elevation :=
         override (Trip.getFirstFeatureProps g) elevation_gain_ft
           (Utils.calcElevationGain (Trip.extractCoords g));
       Trip.error := None |}.
Proof.
  unfold Spec.outcome, Trip.loadDayGeoJSON, st_try_catch, st_bind, await.
  fold (day_url tripId dataRoot filename).
  destruct (fetch (day_url tripId dataRoot filename)) as [e|res]; [discriminate|].
  destruct (res_ok res); [|discriminate].
  destruct (res_json res) as [e|g']; [discriminate|].
  intros [= ->]. reflexivity.
Qed.

(** The result of a day whose fetch failed. *)
Lemma loadDayGeoJSON_failed (reason : string) :
  Spec.outcome (fetch (day_url tripId dataRoot filename)) = inl reason ->
  Trip.loadDayGeoJSON fetch tripId dataRoot filename index
  = {| Trip.index := index;
       Trip.filename := filename;
       Trip.url := day_url tripId dataRoot filename;
       Trip.ok := false;
       Trip.geojson := None;
       Trip.dayNumber := of_nat index + Num 1;
       Trip.distance := Num 0;
       Trip.elevation := Num 0;
       Trip.error := Some reason |}.
Proof.
  unfold Spec.outcome, Trip.loadDayGeoJSON, st_try_catch, st_bind, await.
  fold (day_url tripId dataRoot filename).
  destruct (fetch (day_url tripId dataRoot filename)) as [e|res].
  - intros [= <-]. reflexivity.
  - destruct (res_ok res).
    + destruct (res_json res) as [e|g']; [|discriminate].
      intros [= <-]. reflexivity.
    + intros [= <-]. reflexivity.
Qed.

End DayResolution.

Lemma override_coalesce (props : option Properties) (member : Properties -> value)
  (computed : number) :
  override props member computed = Spec.coalesce (Spec.override_of props member) computed.
Proof.
  destruct props as [p|]; [|reflexivity].
  unfold override, Spec.override_of, Spec.present, Spec.coalesce.
  destruct (member p); reflexivity.
Qed.



(** ** Aggregation *)

Lemma holds_index_plus_one (i : nat) : holds (of_nat i + Num 1) (Z.of_nat i + 1).
Proof.
  exists (inject_Z (Z.of_nat i) + 1)%Q. split; [reflexivity|].
  rewrite inject_Z_plus. reflexivity.
Qed.

Lemma mapi_from_length (A B : Type) (f : A -> nat -> B) (i : nat) (l : list A) :
  length (Trip.mapi_from f i l) = length l.
Proof.
  revert i. induction l as [|a l IH]; intros i; [reflexivity|].
  cbn [Trip.mapi_from length]. rewrite IH. reflexivity.
Qed.

Lemma mapi_from_nth_error (A B : Type) (f : A -> nat -> B) (i : nat) (l : list A)
  (k : nat) (a : A) :
  nth_error l k = Some a ->
  nth_error (Trip.mapi_from f i l) k = Some (f a (i + k)%nat).
Proof.
  revert i k. induction l as [|a' l IH]; intros i k Hk.
  - destruct k; discriminate.
  - destruct k as [|k]; cbn [nth_error Trip.mapi_from] in *.
    + injection Hk as ->. rewrite Nat.add_0_r. reflexivity.
    + rewrite (IH (S i) k Hk). f_equal. f_equal. lia.
Qed.

Lemma fold_left_totals (days : list Trip.DayResult) (d e : number) :
  fold_left
    (fun '(totalDistance, totalElevation) day =>
       (totalDistance + Trip.distance day, totalElevation + Trip.elevation day))
    days (d, e)
  = (fold_left add (map Trip.distance days) d, fold_left add (map Trip.elevation days) e).
Proof.
  revert d e. induction days as [|day days IH]; intros d e; [reflexivity|].
  cbn [fold_left map]. apply IH.
Qed.

Lemma aggregateTotals_sums (dayResults : list Trip.DayResult) :
  Trip.aggregateTotals dayResults
  = {| Trip.trip_total_distance :=
         Spec.round_to_tenth (Spec.sum (map Trip.distance (filter Trip.ok dayResults)));
       Trip.trip_total_elevation :=
         Spec.round_to_ten (Spec.sum (map Trip.elevation (filter Trip.ok dayResults)));
       Trip.trip_days_count := length (filter Trip.ok dayResults) |}.
Proof.
  unfold Trip.aggregateTotals. rewrite fold_left_totals. reflexivity.
Qed.

(** C1. Aggregation returns one day result per day file, in the order of
    the day list, each depending on the outcome of its own request only; a
    failed request gives the result with [ok = false], distance 0, elevation
    0, the position plus one as display day number and the failure reason as
    [error]; a retrieved payload gives an [ok] result; the totals and the
    day count are taken over the [ok] results only. *)
Theorem aggregate_partial_failure (math : MathHost) (net : nat -> Fetch Payload)
  (tripId dataRoot : string) (dayFiles : list string) :
  let totals := fst (Trip.aggregate net tripId dataRoot dayFiles) in
  let days := snd (Trip.aggregate net tripId dataRoot dayFiles) in
  length days = length dayFiles
  /\ (forall (i : nat) (filename : string),
        nth_error dayFiles i = Some filename ->
        exists r : Trip.DayResult,
          nth_error days i = Some r
          /\ r = Trip.loadDayGeoJSON (net i) tripId dataRoot filename i
          /\ Trip.index r = i
          /\ Trip.filename r = filename
          /\ (forall reason : string,
                Spec.outcome (net i (day_url tripId dataRoot filename)) = inl reason ->
                Trip.ok r = false
                /\ Trip.distance r = Num 0
                /\ Trip.elevation r = Num 0
                /\ Trip.dayNumber r = of_nat i + Num 1
                /\ holds (Trip.dayNumber r) (Z.of_nat i + 1)
                /\ Trip.error r = Some reason)
          /\ (forall record : Payload,
                Spec.outcome (net i (day_url tripId dataRoot filename)) = inr record ->
                Trip.ok r = true /\ Trip.geojson r = record /\ Trip.error r = None))
  /\ Trip.trip_total_distance totals
     = Spec.round_to_tenth (Spec.sum (map Trip.distance (filter Trip.ok days)))
  /\ Trip.trip_total_elevation totals
     = Spec.round_to_ten (Spec.sum (map Trip.elevation (filter Trip.ok days)))
  /\ Trip.trip_days_count totals = length (filter Trip.ok days)
  /\ (forall (host : DateHost) (fetchMeta : Fetch Meta) (res : Response Meta) (meta : Meta),
        fetchMeta (dataRoot ++ "/" ++ tripId ++ "/meta.json")%string = inr res ->
        res_ok res = true -> res_json res = inr meta ->
        GeoJSON.days meta = Some dayFiles -> dayFiles <> [] ->
        Trip.initTripPage fetchMeta net tripId dataRoot
        = Trip.Loaded
            (Utils.calcElapsedTime (start_date meta) (start_time meta)
               (end_date meta) (end_time meta))
            (Trip.DayStats totals days)).
Proof.
  intros totals days.
  assert (Hpage : forall (host : DateHost) (fetchMeta : Fetch Meta) (res : Response Meta)
                    (meta : Meta),
        fetchMeta (dataRoot ++ "/" ++ tripId ++ "/meta.json")%string = inr res ->
        res_ok res = true -> res_json res = inr meta ->
        GeoJSON.days meta = Some dayFiles -> dayFiles <> [] ->
        Trip.initTripPage fetchMeta net tripId dataRoot
        = Trip.Loaded
            (Utils.calcElapsedTime (start_date meta) (start_time meta)
               (end_date meta) (end_time meta))
            (Trip.DayStats totals days)).
  { intros host fetchMeta res meta Hres Hok Hjson Hdays Hne.
    unfold Trip.initTripPage, bind, ret. rewrite Hres, Hok. cbn [negb]. rewrite Hjson, Hdays.
    cbn [or_empty]. destruct dayFiles as [|file files]; [contradiction|].
    cbn [length Nat.eqb]. subst totals days.
    destruct (Trip.aggregate net tripId dataRoot (file :: files)); reflexivity. }
  revert Hpage. subst totals days. intros Hpage.
  unfold Trip.aggregate in *. cbn [fst snd] in *.
  split; [apply mapi_from_length|].
  split.
  { intros i filename Hi.
    exists (Trip.loadDayGeoJSON (net i) tripId dataRoot filename i).
    split.
    { unfold Trip.loadAllDays.
      rewrite (mapi_from_nth_error
                 (fun filename index =>
                    Trip.loadDayGeoJSON (net index) tripId dataRoot filename index)
                 0 dayFiles i Hi).
      reflexivity. }
    split; [reflexivity|].
    split.
    { unfold Trip.loadDayGeoJSON, st_try_catch, st_bind, await.
      destruct (net i _) as [e|res]; [reflexivity|].
      destruct (res_ok res); [|reflexivity].
      destruct (res_json res); reflexivity. }
    split.
    { unfold Trip.loadDayGeoJSON, st_try_catch, st_bind, await.
      destruct (net i _) as [e|res]; [reflexivity|].
      destruct (res_ok res); [|reflexivity].
      destruct (res_json res); reflexivity. }
    split.
    - intros reason Hr. rewrite (loadDayGeoJSON_failed _ _ _ _ i Hr).
      repeat split. cbn [Trip.dayNumber]. apply holds_index_plus_one.
    - intros record Hr. rewrite (loadDayGeoJSON_retrieved _ _ _ _ i Hr).
      repeat split. }
  repeat (split; [rewrite aggregateTotals_sums; reflexivity|]).
  exact Hpage.
Qed.

Lemma aggregate_partial_failure_witness :
  length (snd (Trip.aggregate (math := sample_math) second_fails "jmt" "../data" three_days))
  = 3%nat
  /\ (exists r : Trip.DayResult,
        nth_error
          (snd (Trip.aggregate (math := sample_math) second_fails "jmt" "../data" three_days)) 1
        = Some r
        /\ Trip.ok r = false
        /\ Trip.error r = Some "HTTP 404"%string)
  /\ (exists r : Trip.DayResult,
        nth_error
          (snd (Trip.aggregate (math := sample_math) second_fails "jmt" "../data" three_days)) 2
        = Some r
        /\ Trip.ok r = true)
  /\ Trip.initTripPage (math := sample_math) (host := utc_host)
       (fun _ => inr meta_response) second_fails "jmt" "../data"
     = Trip.Loaded
         (Utils.calcElapsedTime (host := utc_host)
            (start_date sample_meta) (start_time sample_meta)
            (end_date sample_meta) (end_time sample_meta))
         (Trip.DayStats
            (fst (Trip.aggregate (math := sample_math) second_fails "jmt" "../data" three_days))
            (snd (Trip.aggregate (math := sample_math) second_fails "jmt" "../data" three_days))).
Proof.
  destruct (aggregate_partial_failure sample_math second_fails "jmt" "../data" three_days)
    as (Hlen & Hdays & _ & _ & _ & Hpage).
  split; [exact Hlen|].
  split.
  { destruct (Hdays 1%nat "day-2.geojson"%string eq_refl)
      as (r & Hr & _ & _ & _ & Hfail & _).
    exists r. split; [exact Hr|].
    destruct (Hfail "HTTP 404"%string eq_refl) as (Hok & _ & _ & _ & _ & Herr).
    split; [exact Hok|exact Herr]. }
  split.
  { destruct (Hdays 2%nat "day-3.geojson"%string eq_refl)
      as (r & Hr & _ & _ & _ & _ & Hgot).
    exists r. split; [exact Hr|].
    destruct (Hgot sample_day eq_refl) as (Hok & _). exact Hok. }
  apply (Hpage utc_host (fun _ => inr meta_response) meta_response sample_meta);
    try reflexivity.
  discriminate.
Defined.

(** ** Elapsed time *)

Lemma holds_of_Z (z : Z) : holds (of_Z z) z.
Proof. exists (inject_Z z). split; reflexivity. Qed.

Lemma holds_sub (a b : number) (x y : Z) :
  holds a x -> holds b y -> holds (a - b) (x - y).
Proof.
  intros (p & -> & Hp) (q & -> & Hq). exists (p - q)%Q. split; [reflexivity|].
  rewrite Hp, Hq. unfold Zminus. rewrite inject_Z_plus, inject_Z_opp. reflexivity.
Qed.

Lemma holds_mul_literal (a : number) (x c : Z) :
  holds a x -> holds (a * Num (inject_Z c)) (x * c).
Proof.
  intros (p & -> & Hp). exists (p * inject_Z c)%Q. split; [reflexivity|].
  rewrite Hp, inject_Z_mult. reflexivity.
Qed.

Lemma Qfloor_div_pos (x : Z) (c : positive) :
  Qfloor (inject_Z x / inject_Z (Z.pos c)) = (x / Z.pos c)%Z.
Proof.
  unfold Qdiv, Qinv, inject_Z, Qmult, Qfloor. cbn [Qnum Qden].
  rewrite Z.mul_1_r. reflexivity.
Qed.

Lemma holds_floor_div (a : number) (x : Z) (c : positive) :
  holds a x -> holds (Math_floor (a / Num (inject_Z (Z.pos c)))) (x / Z.pos c).
Proof.
  intros (p & -> & Hp). unfold div.
  assert (Hc : Qeq_bool (inject_Z (Z.pos c)) 0 = false) by reflexivity.
  rewrite Hc. unfold Math_floor.
  assert (Hfl : Qfloor (p / inject_Z (Z.pos c)) = (x / Z.pos c)%Z).
  { rewrite Hp. apply Qfloor_div_pos. }
  rewrite Hfl. apply holds_of_Z.
Qed.

Lemma holds_leb_zero (a : number) (x : Z) :
  holds a x -> (a <=? Num 0) = (x <=? 0)%Z.
Proof.
  intros (p & -> & Hp). unfold leb.
  destruct (x <=? 0)%Z eqn:Hx.
  - apply Qle_bool_iff. rewrite Hp. apply Z.leb_le in Hx.
    change 0%Q with (inject_Z 0). rewrite <- Zle_Qle. exact Hx.
  - apply not_true_is_false. intros H. apply Qle_bool_iff in H.
    rewrite Hp in H. change 0%Q with (inject_Z 0) in H. rewrite <- Zle_Qle in H.
    apply Z.leb_gt in Hx. lia.
Qed.

Lemma holds_truthy (a : number) (x : Z) :
  holds a x -> truthy a = negb (x =? 0)%Z.
Proof.
  intros (p & -> & Hp). unfold truthy. f_equal.
  destruct (x =? 0)%Z eqn:Hx.
  - apply Qeq_bool_iff. rewrite Hp. apply Z.eqb_eq in Hx. subst x. reflexivity.
  - apply not_true_is_false. intros H. apply Qeq_bool_iff in H.
    rewrite Hp in H. change 0%Q with (inject_Z 0) in H.
    apply (proj1 (inject_Z_injective x 0)) in H. apply Z.eqb_neq in Hx. exact (Hx H).
Qed.

Lemma holds_toString (a : number) (x : Z) :
  holds a x -> Number_toString a = string_of_Z x.
Proof.
  intros (p & -> & Hp). unfold Number_toString.
  rewrite Hp, Qfloor_Z. reflexivity.
Qed.

Lemma append_letter_nonempty (s letter : string) :
  (s ++ letter)%string = EmptyString -> letter = EmptyString.
Proof. destruct s; [intros H; exact H|discriminate]. Qed.

Lemma nonempty_or_component (n : Z) (letter : string) (more : list string) (dflt : string) :
  (n =? 0)%Z = false -> letter <> EmptyString ->
  nonempty_or (String.concat " " ((string_of_Z n ++ letter)%string :: more)) dflt
  = String.concat " " ((string_of_Z n ++ letter)%string :: more).
Proof.
  intros _ Hl. cbn [String.concat].
  destruct more as [|s more].
  - destruct (string_of_Z n ++ letter)%string eqn:E; [|reflexivity].
    apply append_letter_nonempty in E. contradiction.
  - destruct (string_of_Z n ++ letter)%string eqn:E; [|reflexivity].
    apply append_letter_nonempty in E. contradiction.
Qed.

Lemma format_parts (d h m : Z) :
  nonempty_or
    (String.concat " "
       (let parts := [] in
        let parts := if negb (d =? 0)%Z then Utils.push parts (string_of_Z d ++ "d")%string
                     else parts in
        let parts := if negb (h =? 0)%Z then Utils.push parts (string_of_Z h ++ "h")%string
                     else parts in
        let parts := if negb (m =? 0)%Z then Utils.push parts (string_of_Z m ++ "m")%string
                     else parts in
        parts))
    "< 1m"
  = Spec.format_duration (d, h, m).
Proof.
  unfold Spec.format_duration, Spec.component, Utils.push. cbv zeta.
  destruct (d =? 0)%Z eqn:Hd, (h =? 0)%Z eqn:Hh, (m =? 0)%Z eqn:Hm;
    cbn [negb app]; try reflexivity;
    apply nonempty_or_component; try assumption; discriminate.
Qed.

Section ElapsedTime.
Context {host : DateHost}.

(** With two valid dates, [calcElapsedTime] is the duration between their
    time values. *)
Lemma calcElapsedTime_valid (startDate startTime endDate endTime : jsstring) (t1 t2 : Z) :
  Date_new (date_time_string startDate startTime) = Some t1 ->
  Date_new (date_time_string endDate endTime) = Some t2 ->
  Utils.calcElapsedTime startDate startTime endDate endTime = Spec.duration t1 t2.
Proof.
  intros H1 H2. unfold Utils.calcElapsedTime, Spec.duration.
  fold (date_time_string startDate startTime) (date_time_string endDate endTime).
  rewrite H1, H2. cbn [valueOf].
  assert (Hdiff : holds (of_Z t2 - of_Z t1) (t2 - t1))
    by (apply holds_sub; apply holds_of_Z).
  rewrite (holds_leb_zero Hdiff).
  replace (t2 - t1 <=? 0)%Z with (t2 <=? t1)%Z
    by (destruct (Z.leb_spec t2 t1), (Z.leb_spec (t2 - t1) 0); lia).
  destruct (t2 <=? t1)%Z; [reflexivity|].
  cbv zeta. unfold try_catch, ret.
  change (Num 86400000) with (Num (inject_Z 86400000)).
  change (Num 3600000) with (Num (inject_Z 3600000)).
  change (Num 60000) with (Num (inject_Z 60000)).
  set (diff := (t2 - t1)%Z) in *.
  set (diffMs := of_Z t2 - of_Z t1) in *.
  pose proof (holds_floor_div 86400000 Hdiff) as Hdays.
  set (days := Math_floor (diffMs / Num (inject_Z 86400000))) in *.
  pose proof (holds_sub Hdiff (holds_mul_literal 86400000 Hdays)) as Hrem1.
  set (diffMs1 := diffMs - days * Num (inject_Z 86400000)) in *.
  pose proof (holds_floor_div 3600000 Hrem1) as Hhours.
  set (hours := Math_floor (diffMs1 / Num (inject_Z 3600000))) in *.
  pose proof (holds_sub Hrem1 (holds_mul_literal 3600000 Hhours)) as Hrem2.
  set (diffMs2 := diffMs1 - hours * Num (inject_Z 3600000)) in *.
  pose proof (holds_floor_div 60000 Hrem2) as Hminutes.
  set (minutes := Math_floor (diffMs2 / Num (inject_Z 60000))) in *.
  rewrite (holds_truthy Hdays), (holds_truthy Hhours), (holds_truthy Hminutes).
  rewrite (holds_toString Hdays), (holds_toString Hhours), (holds_toString Hminutes).
  apply format_parts.
Qed.

(** With an invalid date on either side, the difference is [NaN]: it is
    not [<= 0], every component is [NaN], no part is pushed. *)
Lemma calcElapsedTime_invalid (startDate startTime endDate endTime : jsstring) :
  Date_new (date_time_string startDate startTime) = None
  \/ Date_new (date_time_string endDate endTime) = None ->
  Utils.calcElapsedTime startDate startTime endDate endTime = "< 1m"%string.
Proof.
  intros H. unfold Utils.calcElapsedTime.
  fold (date_time_string startDate startTime) (date_time_string endDate endTime).
  assert (Hnan : valueOf (Date_new (date_time_string endDate endTime))
                 - valueOf (Date_new (date_time_string startDate startTime)) = NaN).
  { destruct H as [-> | ->]; [|reflexivity].
    destruct (Date_new (date_time_string endDate endTime)); reflexivity. }
  rewrite Hnan. reflexivity.
Qed.

End ElapsedTime.

(** ** Well-formed dates are instances of the date-time string format *)

Lemma string_append_assoc (a b c : string) :
  ((a ++ b) ++ c)%string = (a ++ (b ++ c))%string.
Proof.
  induction a as [|x a IH]; [reflexivity|].
  cbn [append]. rewrite IH. reflexivity.
Qed.

Lemma digit_digit_char (k : Z) :
  (0 <= k <= 9)%Z -> digit (Spec.digit_char k) = Some k.
Proof.
  intros Hk. unfold digit, Spec.digit_char.
  rewrite nat_ascii_embedding by lia.
  replace ((48 <=? 48 + Z.to_nat k)%nat && (48 + Z.to_nat k <=? 57)%nat) with true.
  - f_equal. lia.
  - symmetry. apply andb_true_iff. split; apply Nat.leb_le; lia.
Qed.

Lemma digits_zero (acc : Z) (s : string) : digits 0 acc s = Some (acc, s).
Proof. reflexivity. Qed.

Lemma digits_two_digits (n : Z) (k : nat) (acc : Z) (rest : string) :
  (0 <= n < 100)%Z ->
  digits (S (S k)) acc (Spec.two_digits n ++ rest) = digits k (100 * acc + n)%Z rest.
Proof.
  intros Hn. unfold Spec.two_digits. cbn [append digits].
  rewrite !digit_digit_char by (Z.div_mod_to_equations; lia).
  f_equal. Z.div_mod_to_equations. lia.
Qed.

Lemma parse_year_digit (c : ascii) (s : string) (d : Z) :
  digit c = Some d -> parse_year (String c s) = digits 4 0 (String c s).
Proof.
  destruct c as [[] [] [] [] [] [] [] []]; try reflexivity; discriminate.
Qed.

Lemma parse_year_four_digits (y : Z) (rest : string) :
  (0 <= y <= 9999)%Z -> parse_year (Spec.four_digits y ++ rest) = Some (y, rest).
Proof.
  intros Hy. unfold Spec.four_digits. rewrite string_append_assoc.
  assert (Hhi : (0 <= y / 100 < 100)%Z) by (Z.div_mod_to_equations; lia).
  assert (Hlo : (0 <= y mod 100 < 100)%Z) by (Z.div_mod_to_equations; lia).
  transitivity (digits 4 0 (Spec.two_digits (y / 100) ++ Spec.two_digits (y mod 100) ++ rest)).
  - unfold Spec.two_digits at 1 3. cbn [append].
    apply (@parse_year_digit _ _ (y / 100 / 10)%Z).
    apply digit_digit_char. Z.div_mod_to_equations. lia.
  - rewrite (digits_two_digits 2 0 _ Hhi), (digits_two_digits 0 _ _ Hlo), digits_zero.
    replace (100 * (100 * 0 + y / 100) + y mod 100)%Z with y
      by (Z.div_mod_to_equations; lia).
    reflexivity.
Qed.

Lemma parse_dash2_two_digits (dflt n : Z) (rest : string) :
  (0 <= n < 100)%Z ->
  parse_dash2 dflt ("-" ++ Spec.two_digits n ++ rest) = Some (n, true, rest).
Proof.
  intros Hn. cbn [append parse_dash2].
  rewrite (digits_two_digits 0 0 rest Hn), digits_zero. reflexivity.
Qed.

Lemma two_digits_append_nil (n : Z) :
  Spec.two_digits n = (Spec.two_digits n ++ EmptyString)%string.
Proof. reflexivity. Qed.

Lemma parse_time_hh_mm (h mi : Z) :
  (0 <= h < 100)%Z -> (0 <= mi < 100)%Z ->
  parse_time ("T" ++ Spec.two_digits h ++ ":" ++ Spec.two_digits mi)
  = Some (Some (h, mi, 0, 0)%Z, None).
Proof.
  intros Hh Hmi. cbn [append parse_time].
  rewrite (digits_two_digits 0 0 _ Hh), digits_zero. cbv beta iota.
  rewrite (two_digits_append_nil mi), (digits_two_digits 0 0 _ Hmi), digits_zero.
  cbn [parse_seconds parse_offset]. reflexivity.
Qed.

Lemma parse_fields_well_formed (d : Spec.CalendarDate) (h mi : Z) :
  (0 <= Spec.year d <= 9999)%Z ->
  (0 <= Spec.month d < 100)%Z -> (0 <= Spec.day_of_month d < 100)%Z ->
  (0 <= h < 100)%Z -> (0 <= mi < 100)%Z ->
  parse_fields (Spec.date_string d ++ "T" ++ Spec.two_digits h ++ ":" ++ Spec.two_digits mi)
  = Some {| f_year := Spec.year d; f_month := Spec.month d;
            f_day := Spec.day_of_month d;
            f_time := Some (h, mi, 0, 0)%Z; f_offset := None |}.
Proof.
  intros Hy Hm Hd Hh Hmi. unfold parse_fields, Spec.date_string.
  rewrite !string_append_assoc.
  rewrite (parse_year_four_digits _ Hy).
  rewrite (parse_dash2_two_digits 1 _ Hm).
  rewrite (parse_dash2_two_digits 1 _ Hd).
  rewrite (parse_time_hh_mm Hh Hmi). reflexivity.
Qed.

Lemma days_before_month_bounds (y m : Z) :
  (1 <= m <= 12)%Z -> (0 <= days_before_month y m <= 335)%Z.
Proof.
  intros Hm. unfold days_before_month.
  assert (Hleap : (0 <= (if leap_year y && (3 <=? m)%Z then 1 else 0) <= 1)%Z)
    by (destruct (leap_year y && (3 <=? m)%Z); lia).
  assert (Hcases : (m = 1 \/ m = 2 \/ m = 3 \/ m = 4 \/ m = 5 \/ m = 6 \/ m = 7
                    \/ m = 8 \/ m = 9 \/ m = 10 \/ m = 11 \/ m = 12)%Z) by lia.
  revert Hleap. generalize (if leap_year y && (3 <=? m)%Z then 1%Z else 0%Z) as leap.
  intros leap Hleap.
  destruct Hcases as [-> | [-> | [-> | [-> | [-> | [-> | [-> | [-> | [-> | [-> | [-> | ->]]]]]]]]]]];
    eval_month_table; lia.
Qed.

Lemma DaysInMonth_bounds (y m : Z) : (28 <= DaysInMonth y m <= 31)%Z.
Proof.
  unfold DaysInMonth.
  destruct (m =? 2)%Z; [destruct (leap_year y); lia|].
  destruct ((m =? 4)%Z || (m =? 6)%Z || (m =? 9)%Z || (m =? 11)%Z); lia.
Qed.

Lemma local_time_bounds (d : Spec.CalendarDate) (t : option Spec.TimeOfDay) :
  Spec.valid_date d -> Spec.valid_optional_time t ->
  (Z.abs (Spec.local_time d t) <= 1000000000000000)%Z.
Proof.
  intros (Hy & Hm & Hd) Ht.
  pose proof (DaysInMonth_bounds (Spec.year d) (Spec.month d)) as Hdim.
  pose proof (days_before_month_bounds (Spec.year d) Hm) as Hbefore.
  assert (Htime : (0 <= match t with
                        | Some t => MakeTime (Spec.hours t) (Spec.minutes t) 0 0
                        | None => 0
                        end < 86400000)%Z).
  { destruct t as [t|]; [|lia]. destruct Ht as [Hh Hmi]. unfold MakeTime. lia. }
  unfold Spec.local_time, MakeDay, DayFromYear, msPerDay.
  revert Htime.
  generalize (match t with
              | Some t => MakeTime (Spec.hours t) (Spec.minutes t) 0 0
              | None => 0%Z
              end) as time.
  intros time Htime.
  revert Hbefore. generalize (days_before_month (Spec.year d) (Spec.month d)) as before.
  intros before Hbefore.
  Z.div_mod_to_equations. lia.
Qed.

Lemma or_string_time (t : option Spec.TimeOfDay) :
  Spec.valid_optional_time t ->
  exists h mi : Z,
    or_string (option_map Spec.time_string t) "00:00"
    = (Spec.two_digits h ++ ":" ++ Spec.two_digits mi)%string
    /\ (0 <= h <= 23)%Z /\ (0 <= mi <= 59)%Z
    /\ MakeTime h mi 0 0
       = match t with
         | Some t => MakeTime (Spec.hours t) (Spec.minutes t) 0 0
         | None => 0%Z
         end.
Proof.
  intros Ht. destruct t as [t|].
  - destruct Ht as [Hh Hmi]. exists (Spec.hours t), (Spec.minutes t).
    repeat split; try lia.
  - exists 0%Z, 0%Z. repeat split; lia.
Qed.

Section WellFormed.
Context {host : DateHost}.

Lemma TimeClip_UTC (t : Z) :
  (Z.abs t <= 1000000000000000)%Z -> TimeClip (UTC t) = Some (UTC t).
Proof.
  intros Ht. unfold TimeClip, UTC.
  pose proof (LocalTZA_range t) as Hoff.
  replace (Z.abs (t - LocalTZA t) <=? 8640000000000000)%Z with true; [reflexivity|].
  symmetry. apply Z.leb_le. lia.
Qed.

Lemma Date_new_well_formed (d : Spec.CalendarDate) (t : option Spec.TimeOfDay) :
  Spec.valid_date d -> Spec.valid_optional_time t ->
  Date_new (date_time_string (Some (Spec.date_string d)) (option_map Spec.time_string t))
  = Some (Spec.instant d t).
Proof.
  intros Hd Ht.
  pose proof (@local_time_bounds d t Hd Ht) as Hbound.
  destruct (@or_string_time t Ht) as (h & mi & Hs & Hh & Hmi & Htime).
  destruct Hd as (Hy & Hm & Hday).
  pose proof (DaysInMonth_bounds (Spec.year d) (Spec.month d)) as Hdim.
  unfold Date_new, Date_parse, date_time_string. cbn [template]. rewrite Hs.
  rewrite parse_fields_well_formed by lia.
  replace (valid_fields
             {| f_year := Spec.year d; f_month := Spec.month d;
                f_day := Spec.day_of_month d;
                f_time := Some (h, mi, 0%Z, 0%Z); f_offset := None |}) with true.
  - unfold fields_time_value. cbn [f_year f_month f_day f_time f_offset].
    unfold Spec.instant. unfold Spec.local_time in *. rewrite <- Htime in *.
    apply TimeClip_UTC, Hbound.
  - symmetry. unfold valid_fields, valid_time.
    cbn [f_year f_month f_day f_time f_offset].
    repeat (apply andb_true_iff; split); try (apply Z.leb_le; lia).
    apply orb_true_iff. left.
    repeat (apply andb_true_iff; split); apply Z.leb_le; lia.
Qed.

End WellFormed.

Lemma duration_shift (start finish offset : Z) :
  Spec.duration (start - offset) (finish - offset) = Spec.duration start finish.
Proof.
  unfold Spec.duration.
  replace (finish - offset - (start - offset))%Z with (finish - start)%Z by lia.
  replace (finish - offset <=? start - offset)%Z with (finish <=? start)%Z; [reflexivity|].
  destruct (Z.leb_spec finish start), (Z.leb_spec (finish - offset) (start - offset)); lia.
Qed.

(** C5. For well-formed dates [YYYY-MM-DD] and times [HH:MM] (midnight
    when the time is absent), [calcElapsedTime] is the unknown sentinel when
    the end instant is not after the start instant, and otherwise the
    difference split into whole days, whole hours of the remainder and
    whole minutes of the remainder, the non-zero components joined by
    spaces with the letters d, h, m, or the less-than-a-minute sentinel when
    all three are zero.  Where the host's offset from UTC is the same at
    both local times, 2024-06-01 07:00 to 2024-06-15 14:30 is "14d 7h 30m"
    and 2024-06-01 10:00 to 2024-06-01 09:00 is the unknown sentinel. *)
Theorem calcElapsedTime_spec (host : DateHost) :
  (forall (d1 d2 : Spec.CalendarDate) (t1 t2 : option Spec.TimeOfDay),
     Spec.valid_date d1 -> Spec.valid_optional_time t1 ->
     Spec.valid_date d2 -> Spec.valid_optional_time t2 ->
     let start := Spec.instant d1 t1 in
     let finish := Spec.instant d2 t2 in
     let elapsed :=
       Utils.calcElapsedTime (Some (Spec.date_string d1)) (option_map Spec.time_string t1)
         (Some (Spec.date_string d2)) (option_map Spec.time_string t2) in
     elapsed = Spec.duration start finish
     /\ ((finish <= start)%Z -> elapsed = "—"%string)
     /\ ((start < finish)%Z ->
         elapsed = Spec.format_duration (Spec.decompose (finish - start))))
  /\ (forall (startDate startTime endDate endTime : jsstring) (start finish : Z),
        Date_new (date_time_string startDate startTime) = Some start ->
        Date_new (date_time_string endDate endTime) = Some finish ->
        Utils.calcElapsedTime startDate startTime endDate endTime
        = Spec.duration start finish)
  /\ (forall d h m : Z,
        Spec.format_duration (d, h, m)
        = match (Spec.component d "d" ++ Spec.component h "h" ++ Spec.component m "m")%list with
          | [] => "< 1m"%string
          | parts => String.concat " " parts
          end)
  /\ (forall ms : Z,
        (0 < ms)%Z ->
        let '(d, h, m) := Spec.decompose ms in
        (d = ms / 86400000 /\ h = (ms - d * 86400000) / 3600000
         /\ m = (ms - d * 86400000 - h * 3600000) / 60000
         /\ 0 <= d /\ 0 <= h < 24 /\ 0 <= m < 60)%Z)
  /\ (LocalTZA (Spec.local_time june_1 (clock 7 0))
      = LocalTZA (Spec.local_time june_15 (clock 14 30)) ->
      Utils.calcElapsedTime (Some "2024-06-01") (Some "07:00") (Some "2024-06-15") (Some "14:30")
      = "14d 7h 30m")%string
  /\ (LocalTZA (Spec.local_time june_1 (clock 10 0))
      = LocalTZA (Spec.local_time june_1 (clock 9 0)) ->
      Utils.calcElapsedTime (Some "2024-06-01") (Some "10:00") (Some "2024-06-01") (Some "09:00")
      = "—")%string.
Proof.
  assert (Hgen : forall (d1 d2 : Spec.CalendarDate) (t1 t2 : option Spec.TimeOfDay),
     Spec.valid_date d1 -> Spec.valid_optional_time t1 ->
     Spec.valid_date d2 -> Spec.valid_optional_time t2 ->
     Utils.calcElapsedTime (Some (Spec.date_string d1)) (option_map Spec.time_string t1)
       (Some (Spec.date_string d2)) (option_map Spec.time_string t2)
     = Spec.duration (Spec.instant d1 t1) (Spec.instant d2 t2)).
  { intros d1 d2 t1 t2 Hd1 Ht1 Hd2 Ht2.
    apply calcElapsedTime_valid; apply Date_new_well_formed; assumption. }
  split.
  { intros d1 d2 t1 t2 Hd1 Ht1 Hd2 Ht2 start finish elapsed.
    subst elapsed. rewrite (Hgen d1 d2 t1 t2 Hd1 Ht1 Hd2 Ht2). fold start finish.
    split; [reflexivity|]. unfold Spec.duration. split; intros Hcmp.
    - apply Z.leb_le in Hcmp. rewrite Hcmp. reflexivity.
    - apply Z.leb_gt in Hcmp. rewrite Hcmp. reflexivity. }
  split; [intros; apply calcElapsedTime_valid; assumption|].
  split; [reflexivity|].
  split.
  { intros ms Hms. unfold Spec.decompose. cbv zeta.
    repeat split; Z.div_mod_to_equations; lia. }
  split.
  - intros Htz.
    change (Utils.calcElapsedTime (Some "2024-06-01"%string) (Some "07:00"%string)
              (Some "2024-06-15"%string) (Some "14:30"%string))
      with (Utils.calcElapsedTime (Some (Spec.date_string june_1))
              (option_map Spec.time_string (clock 7 0))
              (Some (Spec.date_string june_15))
              (option_map Spec.time_string (clock 14 30))).
    rewrite Hgen by (vm_compute; intuition discriminate).
    unfold Spec.instant, UTC. rewrite Htz, duration_shift. vm_compute. reflexivity.
  - intros Htz.
    change (Utils.calcElapsedTime (Some "2024-06-01"%string) (Some "10:00"%string)
              (Some "2024-06-01"%string) (Some "09:00"%string))
      with (Utils.calcElapsedTime (Some (Spec.date_string june_1))
              (option_map Spec.time_string (clock 10 0))
              (Some (Spec.date_string june_1))
              (option_map Spec.time_string (clock 9 0))).
    rewrite Hgen by (vm_compute; intuition discriminate).
    unfold Spec.instant, UTC. rewrite Htz, duration_shift. vm_compute. reflexivity.
Qed.

Lemma calcElapsedTime_spec_witness :
  (Utils.calcElapsedTime (host := utc_host)
     (Some "2024-06-01") (Some "07:00") (Some "2024-06-15") (Some "14:30")
   = "14d 7h 30m"
   /\ Utils.calcElapsedTime (host := utc_host)
        (Some "2024-06-01") (Some "10:00") (Some "2024-06-01") (Some "09:00")
      = "—"
   /\ Utils.calcElapsedTime (host := utc_host)
        (Some (Spec.date_string june_1)) None (Some (Spec.date_string june_15)) None
      = Spec.duration (Spec.instant (host := utc_host) june_1 None)
          (Spec.instant (host := utc_host) june_15 None)
   /\ let '(d, h, m) := Spec.decompose 90061000 in
      (d = 90061000 / 86400000 /\ h = (90061000 - d * 86400000) / 3600000
       /\ m = (90061000 - d * 86400000 - h * 3600000) / 60000
       /\ 0 <= d /\ 0 <= h < 24 /\ 0 <= m < 60)%Z)%string.
Proof.
  pose proof (calcElapsedTime_spec utc_host)
    as (Hgen & _ & _ & Hdecompose & Hfirst & Hsecond).
  split; [apply Hfirst; reflexivity|].
  split; [apply Hsecond; reflexivity|].
  split.
  - apply (Hgen june_1 june_15 None None); vm_compute; intuition discriminate.
  - apply (Hdecompose 90061000%Z). reflexivity.
Defined.

(** C6. What the code does on a malformed date or time: [new Date] does
    not throw on a string it cannot read, it yields an invalid date whose
    time value is [NaN]; the difference is [NaN], the test [diffMs <= 0] is
    false, no component is pushed, and [calcElapsedTime] returns the
    less-than-a-minute sentinel, not the unknown sentinel of its [catch]
    branch. *)
Theorem calcElapsedTime_malformed (host : DateHost)
  (startDate startTime endDate endTime : jsstring) :
  Date_new (date_time_string startDate startTime) = None
  \/ Date_new (date_time_string endDate endTime) = None ->
  Utils.calcElapsedTime startDate startTime endDate endTime = Spec.under_a_minute
  /\ Utils.calcElapsedTime startDate startTime endDate endTime <> Spec.unknown.
Proof.
  intros H. rewrite (calcElapsedTime_invalid _ _ _ _ H).
  split; [reflexivity|discriminate].
Qed.

Lemma calcElapsedTime_malformed_witness :
  (Utils.calcElapsedTime (host := utc_host)
     (Some "not-a-date") (Some "07:00") (Some "2024-06-15") (Some "14:30")
   = "< 1m")%string.
Proof.
  apply (proj1 (@calcElapsedTime_malformed utc_host
                  (Some "not-a-date") (Some "07:00") (Some "2024-06-15") (Some "14:30")
                  (or_introl eq_refl))%string).
Defined.

(* ================================================================== *)
(** * Part X. Further properties of the code *)
(* ================================================================== *)

(** ** [escapeHtml] *)

Lemma replace_all_app (c : ascii) (r a b : string) :
  replace_all c r (a ++ b) = (replace_all c r a ++ replace_all c r b)%string.
Proof.
  induction a as [|x a IH]; [reflexivity|].
  cbn [append replace_all]. destruct (Ascii.eqb x c).
  - rewrite IH, string_append_assoc. reflexivity.
  - rewrite IH. reflexivity.
Qed.

(** The four passes of [escapeHtml] escape each character once: what a
    pass inserts holds no character a later pass replaces. *)
Lemma escapeHtml_each (s : string) : Trip.escapeHtml (Str s) = escape_each s.
Proof.
  unfold Trip.escapeHtml. induction s as [|x s IH]; [reflexivity|].
  cbn [escape_each]. rewrite <- IH. unfold escape_char.
  cbn [replace_all].
  destruct (Ascii.eqb x "&") eqn:Hamp.
  { rewrite !replace_all_app. reflexivity. }
  cbn [replace_all].
  destruct (Ascii.eqb x "<") eqn:Hlt.
  { rewrite !replace_all_app. reflexivity. }
  cbn [replace_all].
  destruct (Ascii.eqb x ">") eqn:Hgt.
  { rewrite !replace_all_app. reflexivity. }
  cbn [replace_all].
  destruct (Ascii.eqb x "034") eqn:Hquot; reflexivity.
Qed.

Lemma escape_each_app (a b : string) :
  escape_each (a ++ b) = (escape_each a ++ escape_each b)%string.
Proof.
  induction a as [|x a IH]; [reflexivity|].
  cbn [append escape_each]. rewrite IH, string_append_assoc. reflexivity.
Qed.

Lemma prefix_empty (t : string) : prefix EmptyString t = true.
Proof. destruct t; reflexivity. Qed.

Lemma well_escaped_escape_char (c : ascii) (t : string) :
  well_escaped t = true -> well_escaped (escape_char c ++ t) = true.
Proof.
  intros Ht. unfold escape_char.
  destruct (Ascii.eqb c "&") eqn:Hamp; [simpl; rewrite prefix_empty; exact Ht|].
  destruct (Ascii.eqb c "<") eqn:Hlt; [simpl; rewrite prefix_empty; exact Ht|].
  destruct (Ascii.eqb c ">") eqn:Hgt; [simpl; rewrite prefix_empty; exact Ht|].
  destruct (Ascii.eqb c "034") eqn:Hquot; [simpl; rewrite prefix_empty; exact Ht|].
  cbn [append well_escaped]. rewrite Hamp, Hlt, Hgt, Hquot, Ht. reflexivity.
Qed.

(** X1. On a string, the text [escapeHtml] returns holds no [<], no [>]
    and no double quote, and each [&] in it starts one of the entities
    [&amp;], [&lt;], [&gt;], [&quot;].  An argument that is not a string is
    not escaped: a falsy one gives the empty string, a truthy one (a number,
    an array) comes back as [String] renders it, whatever characters that
    holds.  The copy of the homepage script returns the same text. *)
Theorem escapeHtml_well_escaped :
  (forall s : string,
     well_escaped (Trip.escapeHtml (Str s)) = true
     /\ has_char "<" (Trip.escapeHtml (Str s)) = false
     /\ has_char ">" (Trip.escapeHtml (Str s)) = false
     /\ has_char "034" (Trip.escapeHtml (Str s)) = false)
  /\ (forall shown : string, Trip.escapeHtml (Other false shown) = EmptyString)
  /\ (forall shown : string, Trip.escapeHtml (Other true shown) = shown)
  /\ (forall str : any, Main.escapeHtml str = Trip.escapeHtml str).
Proof.
  assert (Hfree : forall t : string,
            well_escaped t = true ->
            has_char "<" t = false /\ has_char ">" t = false /\ has_char "034" t = false).
  { induction t as [|c t IH]; [repeat split|].
    cbn [well_escaped has_char]. intros H.
    apply andb_true_iff in H. destruct H as [H Ht].
    apply andb_true_iff in H. destruct H as [H _].
    apply andb_true_iff in H. destruct H as [H Hquot].
    apply andb_true_iff in H. destruct H as [Hlt Hgt].
    apply negb_true_iff in Hlt, Hgt, Hquot.
    destruct (IH Ht) as (H1 & H2 & H3).
    rewrite Hlt, Hgt, Hquot, H1, H2, H3. repeat split. }
  split.
  { intros s.
    assert (Hwell : well_escaped (Trip.escapeHtml (Str s)) = true).
    { rewrite escapeHtml_each. induction s as [|c s IH]; [reflexivity|].
      cbn [escape_each]. apply well_escaped_escape_char, IH. }
    split; [exact Hwell|]. apply Hfree, Hwell. }
  split; [reflexivity|]. split; [reflexivity|].
  intros [s|truthy shown]; reflexivity.
Qed.

Lemma unescapeHtml_escape_each (s : string) : unescapeHtml (escape_each s) = s.
Proof.
  induction s as [|c s IH]; [reflexivity|].
  cbn [escape_each].
  destruct c as [[] [] [] [] [] [] [] []]; cbn; rewrite IH; reflexivity.
Qed.

(** X2. [escapeHtml] loses nothing: two different strings never escape to
    the same text. *)
Theorem escapeHtml_injective (s t : string) :
  Trip.escapeHtml (Str s) = Trip.escapeHtml (Str t) -> s = t.
Proof.
  rewrite !escapeHtml_each. intros H.
  rewrite <- (unescapeHtml_escape_each s), <- (unescapeHtml_escape_each t), H.
  reflexivity.
Qed.

Lemma escapeHtml_injective_witness :
  ("Tom & Jerry <3" = "Tom & Jerry <3")%string.
Proof.
  apply (escapeHtml_injective "Tom & Jerry <3" "Tom & Jerry <3"). reflexivity.
Defined.

Lemma string_length_app (a b : string) :
  String.length (a ++ b) = (String.length a + String.length b)%nat.
Proof. induction a as [|x a IH]; [reflexivity|]. cbn [append String.length]. rewrite IH. reflexivity. Qed.

Lemma has_char_app (c : ascii) (a b : string) :
  has_char c (a ++ b) = has_char c a || has_char c b.
Proof.
  induction a as [|x a IH]; [reflexivity|].
  cbn [append has_char]. rewrite IH, orb_assoc. reflexivity.
Qed.

Lemma needs_escaping_cons (c : ascii) (s : string) :
  needs_escaping (String c s)
  = (Ascii.eqb c "&" || Ascii.eqb c "<" || Ascii.eqb c ">" || Ascii.eqb c "034")
    || needs_escaping s.
Proof.
  unfold needs_escaping. cbn [has_char].
  destruct (Ascii.eqb c "&"), (Ascii.eqb c "<"), (Ascii.eqb c ">"), (Ascii.eqb c "034"),
    (has_char "&" s), (has_char "<" s), (has_char ">" s), (has_char "034" s); reflexivity.
Qed.

(** A replaced character grows into an entity that starts with [&]; any
    other character stays as it is. *)
Lemma escape_char_cases (c : ascii) :
  (Ascii.eqb c "&" || Ascii.eqb c "<" || Ascii.eqb c ">" || Ascii.eqb c "034" = true
   /\ (1 < String.length (escape_char c))%nat
   /\ has_char "&" (escape_char c) = true)
  \/ (Ascii.eqb c "&" || Ascii.eqb c "<" || Ascii.eqb c ">" || Ascii.eqb c "034" = false
      /\ escape_char c = String c EmptyString).
Proof.
  unfold escape_char.
  destruct (Ascii.eqb c "&"); [left; repeat split; cbn; lia|].
  destruct (Ascii.eqb c "<"); [left; repeat split; cbn; lia|].
  destruct (Ascii.eqb c ">"); [left; repeat split; cbn; lia|].
  destruct (Ascii.eqb c "034"); [left; repeat split; cbn; lia|].
  right. split; reflexivity.
Qed.

Lemma escape_each_length (s : string) :
  (String.length s <= String.length (escape_each s))%nat
  /\ (needs_escaping s = true -> (String.length s < String.length (escape_each s))%nat).
Proof.
  induction s as [|c s [IHle IHlt]]; [split; [reflexivity|discriminate]|].
  cbn [escape_each]. rewrite string_length_app, needs_escaping_cons. cbn [String.length].
  destruct (escape_char_cases c) as [(-> & Hlen & _) | (-> & ->)].
  - split; [lia|]. intros _. lia.
  - cbn [String.length orb]. split; [lia|]. intros H. specialize (IHlt H). lia.
Qed.

Lemma escape_each_unchanged (s : string) :
  needs_escaping s = false -> escape_each s = s.
Proof.
  induction s as [|c s IH]; [reflexivity|].
  rewrite needs_escaping_cons. cbn [escape_each].
  destruct (escape_char_cases c) as [(-> & _) | (-> & ->)]; [discriminate|].
  cbn [orb append]. intros H. rewrite (IH H). reflexivity.
Qed.

Lemma escape_each_ampersand (s : string) :
  needs_escaping s = true -> has_char "&" (escape_each s) = true.
Proof.
  induction s as [|c s IH]; [discriminate|].
  rewrite needs_escaping_cons. cbn [escape_each]. rewrite has_char_app.
  destruct (escape_char_cases c) as [(-> & _ & ->) | (-> & ->)]; [reflexivity|].
  cbn [orb]. intros H. rewrite (IH H). apply orb_true_r.
Qed.

(** X3. [escapeHtml] works piece by piece: the escape of a concatenation is
    the concatenation of the escapes.  It returns its argument unchanged
    exactly when the argument holds none of [&], [<], [>] and the double
    quote, it never shortens a string, and escaping a second time changes
    the text again unless nothing had to be escaped. *)
Theorem escapeHtml_composition :
  (forall a b : string,
     Trip.escapeHtml (Str (a ++ b)%string)
     = (Trip.escapeHtml (Str a) ++ Trip.escapeHtml (Str b))%string)
  /\ (forall s : string, Trip.escapeHtml (Str s) = s <-> needs_escaping s = false)
  /\ (forall s : string, (String.length s <= String.length (Trip.escapeHtml (Str s)))%nat)
  /\ (forall s : string,
        Trip.escapeHtml (Str (Trip.escapeHtml (Str s))) = Trip.escapeHtml (Str s)
        <-> needs_escaping s = false).
Proof.
  assert (Hiff : forall s : string, escape_each s = s <-> needs_escaping s = false).
  { intros s. split; [|apply escape_each_unchanged].
    intros H. destruct (needs_escaping s) eqn:Hs; [|reflexivity].
    pose proof (proj2 (escape_each_length s) Hs) as Hlt. rewrite H in Hlt. lia. }
  split; [intros a b; rewrite !escapeHtml_each; apply escape_each_app|].
  split; [intros s; rewrite escapeHtml_each; apply Hiff|].
  split; [intros s; rewrite escapeHtml_each; apply escape_each_length|].
  intros s. rewrite !escapeHtml_each, Hiff. split.
  - intros H. destruct (needs_escaping s) eqn:Hs; [|reflexivity].
    apply escape_each_ampersand in Hs. unfold needs_escaping in H. rewrite Hs in H.
    discriminate.
  - intros H. rewrite (escape_each_unchanged _ H). exact H.
Qed.

(** ** Day colours *)

Lemma mod_10_lt (i : nat) : (i mod 10 < 10)%nat.
Proof. apply Nat.mod_upper_bound. discriminate. Qed.

(** X4. Every day index has a neutral and a hover colour (the lookup never
    runs past the tables); the colours repeat every ten days, and within the
    same table two days have the same colour exactly when their indices
    differ by a multiple of ten. *)
Theorem dayColor_cycle (i j : nat) :
  (exists neutral hover : string,
     Utils.dayColorNeutral i = Some neutral /\ Utils.dayColorHover i = Some hover)
  /\ Utils.dayColorNeutral (i + 10) = Utils.dayColorNeutral i
  /\ Utils.dayColorHover (i + 10) = Utils.dayColorHover i
  /\ (Utils.dayColorNeutral i = Utils.dayColorNeutral j <-> i mod 10 = j mod 10)%nat
  /\ (Utils.dayColorHover i = Utils.dayColorHover j <-> i mod 10 = j mod 10)%nat.
Proof.
  unfold Utils.dayColorNeutral, Utils.dayColorHover.
  change (length Utils.DAY_COLORS_NEUTRAL) with 10%nat.
  change (length Utils.DAY_COLORS_HOVER) with 10%nat.
  assert (Hwrap : ((i + 10) mod 10 = i mod 10)%nat).
  { rewrite <- (Nat.Div0.add_mod_idemp_r i 10 10). cbn [Nat.modulo].
    change (10 mod 10)%nat with 0%nat. rewrite Nat.add_0_r. reflexivity. }
  rewrite Hwrap.
  pose proof (mod_10_lt i) as Hi. pose proof (mod_10_lt j) as Hj.
  revert Hi Hj. generalize (i mod 10)%nat as a, (j mod 10)%nat as b. intros a b Ha Hb.
  split.
  { table_index a Ha; cbn; eexists; eexists; split; reflexivity. }
  split; [reflexivity|]. split; [reflexivity|].
  split.
  - table_index a Ha; table_index b Hb; cbn;
      (split; [intros H; first [reflexivity | discriminate H] | intros H; first [reflexivity | discriminate H]]).
  - table_index a Ha; table_index b Hb; cbn;
      (split; [intros H; first [reflexivity | discriminate H] | intros H; first [reflexivity | discriminate H]]).
Qed.

(** X5. The hover colour of a day is never the neutral colour of any day,
    its own included: a hovered route is told apart from every route at
    rest. *)
Theorem dayColorHover_stands_out (i j : nat) :
  Utils.dayColorHover i <> Utils.dayColorNeutral j.
Proof.
  unfold Utils.dayColorNeutral, Utils.dayColorHover.
  change (length Utils.DAY_COLORS_NEUTRAL) with 10%nat.
  change (length Utils.DAY_COLORS_HOVER) with 10%nat.
  pose proof (mod_10_lt i) as Hi. pose proof (mod_10_lt j) as Hj.
  revert Hi Hj. generalize (i mod 10)%nat as a, (j mod 10)%nat as b. intros a b Ha Hb.
  table_index a Ha; table_index b Hb; cbn; discriminate.
Qed.

(** ** Elevation gain: flat tracks, tracks with the same elevations *)

Lemma fold_add_shift (l : list number) (a : number) :
  number_eq (fold_left add l a) (a + Spec.sum l)%js.
Proof.
  unfold Spec.sum. revert a. induction l as [|x l IH]; intros a.
  - destruct a as [|a]; cbn; [exact I|lra].
  - cbn [fold_left].
    pose proof (IH (a + x)%js) as H1. pose proof (IH (Num 0 + x)%js) as H2.
    revert H1 H2.
    generalize (fold_left add l (a + x)%js) as u.
    generalize (fold_left add l (Num 0 + x)%js) as v.
    generalize (fold_left add l (Num 0)) as s.
    intros s v u.
    destruct a as [|a], x as [|x], s as [|s], v as [|v], u as [|u]; cbn;
      try tauto; intros; lra.
Qed.

Lemma sum_app (l1 l2 : list number) :
  number_eq (Spec.sum (l1 ++ l2)) (Spec.sum l1 + Spec.sum l2)%js.
Proof.
  unfold Spec.sum at 1. rewrite fold_left_app. apply fold_add_shift.
Qed.

Lemma consecutive_pairs_app (a b : Utils.Coords) (p : Utils.Position) :
  Spec.consecutive_pairs (a ++ p :: b)
  = (Spec.consecutive_pairs (a ++ [p]) ++ Spec.consecutive_pairs (p :: b))%list.
Proof.
  unfold Spec.consecutive_pairs.
  induction a as [|x a IH]; [reflexivity|].
  destruct a as [|y a]; [reflexivity|].
  change (combine ((x :: y :: a) ++ p :: b) (tl ((x :: y :: a) ++ p :: b)))
    with ((x, y) :: combine ((y :: a) ++ p :: b) (tl ((y :: a) ++ p :: b))).
  rewrite IH. reflexivity.
Qed.

Lemma consecutive_pairs_nth_error (coords : Utils.Coords) (p q : Utils.Position) :
  In (p, q) (Spec.consecutive_pairs coords) ->
  exists i : nat, nth_error coords i = Some p /\ nth_error coords (S i) = Some q.
Proof.
  unfold Spec.consecutive_pairs.
  induction coords as [|x coords IH]; [intros []|].
  destruct coords as [|y coords]; [intros []|].
  cbn [tl combine In]. intros [[= <- <-]|Hin].
  - exists 0%nat. split; reflexivity.
  - destruct (IH Hin) as (i & Hp & Hq). exists (S i). split; assumption.
Qed.

Lemma holds_tens (k : Z) : holds (Num (inject_Z k * 10)) (10 * k).
Proof.
  exists (inject_Z k * 10)%Q. split; [reflexivity|].
  rewrite inject_Z_mult. change (inject_Z 10) with 10%Q. ring.
Qed.

(** X7. A track on which no segment climbs has an elevation gain of 0:
    wherever two consecutive points both carry a numeric elevation, the
    second is not above the first.  This covers descents, level tracks and
    tracks whose positions have no third element. *)
Theorem calcElevationGain_no_ascent (coords : Utils.Coords) :
  (forall (i : nat) (p q : Utils.Position) (a b : Q),
     nth_error coords i = Some p -> nth_error coords (S i) = Some q ->
     get p 2 = Number (Num a) -> get q 2 = Number (Num b) -> (b <= a)%Q) ->
  holds (Utils.calcElevationGain coords) 0.
Proof.
  intros Hflat. rewrite calcElevationGain_unfold.
  assert (Hnone : Spec.positive_deltas coords = []).
  { unfold Spec.positive_deltas.
    assert (Hpairs : forall seg, In seg (Spec.consecutive_pairs coords) ->
                                 Spec.climb seg = None).
    { intros [p q] Hin.
      destruct (consecutive_pairs_nth_error _ _ _ Hin) as (i & Hp & Hq).
      destruct (Spec.climb (p, q)) as [d|] eqn:Hd; [|reflexivity].
      destruct (climb_positive _ Hd) as (a & b & Ha & Hb & -> & x & Hx & Hpos).
      cbn [fst snd] in Ha, Hb.
      destruct a as [|a], b as [|b]; try discriminate Hx.
      injection Hx as <-.
      pose proof (Hflat i p q a b Hp Hq Ha Hb). lra. }
    induction (Spec.consecutive_pairs coords) as [|seg pairs IH]; [reflexivity|].
    cbn [Spec.keep_some]. rewrite (Hpairs seg (or_introl eq_refl)).
    apply IH. intros s Hs. apply Hpairs. right. exact Hs. }
  rewrite Hnone. exists (inject_Z 0 * 10)%Q. split; reflexivity.
Qed.

Lemma calcElevationGain_no_ascent_witness :
  holds (Utils.calcElevationGain
           [ [Number (Num 0); Number (Num 0); Number (Num 3400)];
             [Number (Num 0); Number (Num 0)];
             [Number (Num 0); Number (Num 0); Number (Num 3400)];
             [Number (Num 0); Number (Num 0); Number (Num 2950)] ]) 0.
Proof.
  apply calcElevationGain_no_ascent.
  intros i p q a b Hp Hq.
  destruct i as [|[|[|[|i]]]]; cbn in Hp, Hq;
    try discriminate Hq; injection Hp as <-; injection Hq as <-;
    cbn; intros Ha Hb; try discriminate Ha; try discriminate Hb.
  injection Ha as <-. injection Hb as <-. lra.
Defined.

(** X9. The elevation gain reads nothing but the third element of each
    position: two tracks with the same elevations have the same gain,
    wherever their points lie. *)
Theorem calcElevationGain_elevations_only (c1 c2 : Utils.Coords) :
  elevations c1 = elevations c2 ->
  Utils.calcElevationGain c1 = Utils.calcElevationGain c2.
Proof.
  intros H. rewrite !calcElevationGain_unfold. do 3 f_equal.
  unfold Spec.positive_deltas, Spec.consecutive_pairs.
  assert (Hgen : forall (l1 l2 m1 m2 : Utils.Coords),
             elevations l1 = elevations l2 -> elevations m1 = elevations m2 ->
             Spec.keep_some Spec.climb (combine l1 m1)
             = Spec.keep_some Spec.climb (combine l2 m2)).
  { induction l1 as [|x l1 IH]; intros l2 m1 m2 Hl Hm.
    - destruct l2; [reflexivity|discriminate Hl].
    - destruct l2 as [|y l2]; [discriminate Hl|].
      injection Hl as Hxy Hl.
      destruct m1 as [|u m1], m2 as [|v m2]; try discriminate Hm; [reflexivity|].
      injection Hm as Huv Hm.
      cbn [combine Spec.keep_some].
      assert (Hc : Spec.climb (x, u) = Spec.climb (y, v)).
      { unfold Spec.climb, Spec.elevation_of. cbn [fst snd]. rewrite Hxy, Huv. reflexivity. }
      rewrite Hc, (IH l2 m1 m2 Hl Hm). reflexivity. }
  apply Hgen; [exact H|].
  destruct c1, c2; try discriminate H; [reflexivity|].
  injection H as _ H. exact H.
Qed.

Lemma calcElevationGain_elevations_only_witness :
  Utils.calcElevationGain
    [ [Number (Num (-118.29)); Number (Num 36.57); Number (Num 2550)];
      [Number (Num (-118.24)); Number (Num 36.58); Number (Num 2830)] ]
  = Utils.calcElevationGain
      [ [Number (Num 7.65); Number (Num 45.97); Number (Num 2550)];
        [Null; Undefined; Number (Num 2830)] ].
Proof.
  apply calcElevationGain_elevations_only. reflexivity.
Defined.

(** ** Distance: cutting a track *)

Lemma number_eq_NaN (a : number) : number_eq a NaN -> a = NaN.
Proof. destruct a; [reflexivity|intros []]. Qed.

Lemma number_eq_Num (a : number) (q : Q) :
  number_eq a (Num q) -> exists x : Q, a = Num x /\ (x == q)%Q.
Proof. destruct a as [|x]; [intros []|]. intros H. exists x. split; [reflexivity|exact H]. Qed.

Lemma tenths_split (x x1 x2 : Q) :
  (x == x1 + x2)%Q ->
  (Qfloor (x1 * 10 + (1 # 2)) + Qfloor (x2 * 10 + (1 # 2)) - 1
   <= Qfloor (x * 10 + (1 # 2))
   <= Qfloor (x1 * 10 + (1 # 2)) + Qfloor (x2 * 10 + (1 # 2)) + 1)%Z.
Proof.
  intros Hx.
  pose proof (Qfloor_half_bounds (x * 10)) as [Hlo Hhi].
  pose proof (Qfloor_half_bounds (x1 * 10)) as [Hlo1 Hhi1].
  pose proof (Qfloor_half_bounds (x2 * 10)) as [Hlo2 Hhi2].
  revert Hlo Hhi Hlo1 Hhi1 Hlo2 Hhi2.
  generalize (Qfloor (x * 10 + (1 # 2))) as k.
  generalize (Qfloor (x1 * 10 + (1 # 2))) as k1.
  generalize (Qfloor (x2 * 10 + (1 # 2))) as k2.
  intros k2 k1 k Hlo Hhi Hlo1 Hhi1 Hlo2 Hhi2.
  assert (Hup : (inject_Z k < inject_Z (k1 + k2 + 2))%Q).
  { rewrite !inject_Z_plus. change (inject_Z 2) with 2%Q. lra. }
  assert (Hdown : (inject_Z (k1 + k2 - 2) < inject_Z k)%Q).
  { unfold Z.sub. rewrite !inject_Z_plus. change (inject_Z (- (2))) with (-2)%Q. lra. }
  rewrite <- Zlt_Qlt in Hup, Hdown. lia.
Qed.

Section DistanceSplit.
Context {math : MathHost}.

Lemma calcDistance_round (coords : Utils.Coords) :
  number_eq (Utils.calcDistance coords)
    (Spec.round_to_tenth
       (Spec.sum (map Spec.distanceBetween (Spec.consecutive_pairs coords)))).
Proof.
  destruct (Nat.le_gt_cases 2 (length coords)) as [Hlen|Hlen].
  - rewrite calcDistance_unfold by exact Hlen.
    destruct (Spec.round_to_tenth _) as [|v]; [exact I|cbn; reflexivity].
  - destruct coords as [|p [|q rest]]; [reflexivity|reflexivity|].
    cbn [length] in Hlen. lia.
Qed.

Lemma raw_distance_app (a b : Utils.Coords) (p : Utils.Position) :
  number_eq
    (Spec.sum (map Spec.distanceBetween (Spec.consecutive_pairs (a ++ p :: b))))
    (Spec.sum (map Spec.distanceBetween (Spec.consecutive_pairs (a ++ [p])))
     + Spec.sum (map Spec.distanceBetween (Spec.consecutive_pairs (p :: b))))%js.
Proof. rewrite consecutive_pairs_app, map_app. apply sum_app. Qed.

End DistanceSplit.


(** ** The overrides are read from the first feature only *)

Lemma extractCoords_loop_geometry (fs fs' : list Feature) :
  map geometry fs = map geometry fs' ->
  Trip.extractCoords_loop fs = Trip.extractCoords_loop fs'.
Proof.
  revert fs'. induction fs as [|f fs IH]; intros [|f' fs'] H; try discriminate H;
    [reflexivity|].
  injection H as Hf H. cbn [Trip.extractCoords_loop]. rewrite Hf, (IH fs' H). reflexivity.
Qed.

(** X11. In a feature collection the overrides are those of the first
    feature, even when the track is taken from a later one: the properties
    of the features after the first are never read, so two collections with
    the same first feature and the same geometries resolve to the same day
    number, distance and elevation. *)
Theorem loadDayGeoJSON_later_properties_unread (math : MathHost)
  (fetch fetch' : Fetch Payload) (tripId dataRoot filename : string) (index : nat)
  (first : Feature) (rest rest' : list Feature) :
  map geometry rest = map geometry rest' ->
  Spec.outcome (fetch (day_url tripId dataRoot filename))
  = inr (Some (FeatureCollection (Some (first :: rest)))) ->
  Spec.outcome (fetch' (day_url tripId dataRoot filename))
  = inr (Some (FeatureCollection (Some (first :: rest')))) ->
  let r := Trip.loadDayGeoJSON fetch tripId dataRoot filename index in
  let r' := Trip.loadDayGeoJSON fetch' tripId dataRoot filename index in
  Trip.dayNumber r = Trip.dayNumber r'
  /\ Trip.distance r = Trip.distance r'
  /\ Trip.elevation r = Trip.elevation r'
  /\ Trip.dayNumber r = override (properties first) day (of_nat index + Num 1)%js.
Proof.
  intros Hgeo Hfetch Hfetch' r r'. subst r r'.
  rewrite (loadDayGeoJSON_retrieved _ _ _ _ index Hfetch).
  rewrite (loadDayGeoJSON_retrieved _ _ _ _ index Hfetch').
  cbn [Trip.dayNumber Trip.distance Trip.elevation].
  assert (Htrack : Trip.extractCoords (Some (FeatureCollection (Some (first :: rest))))
                   = Trip.extractCoords (Some (FeatureCollection (Some (first :: rest'))))).
  { unfold Trip.extractCoords. cbn [or_empty].
    rewrite (@extractCoords_loop_geometry (first :: rest) (first :: rest'));
      [reflexivity|].
    cbn [map]. rewrite Hgeo. reflexivity. }
  rewrite Htrack. repeat split; reflexivity.
Qed.

Lemma loadDayGeoJSON_later_properties_unread_witness :
  Trip.distance
    (Trip.loadDayGeoJSON (math := sample_math)
       (fun _ => json_response
                   (Some (FeatureCollection
                            (Some [waypoint; tagged_feature whitney_track 99 9900]))))
       "jmt" "../data" "day-1.geojson" 0)
  = Trip.distance
      (Trip.loadDayGeoJSON (math := sample_math)
         (fun _ => json_response
                     (Some (FeatureCollection (Some [waypoint; line_feature whitney_track]))))
         "jmt" "../data" "day-1.geojson" 0).
Proof.
  apply (proj1 (proj2
    (@loadDayGeoJSON_later_properties_unread sample_math
       (fun _ => json_response
                   (Some (FeatureCollection
                            (Some [waypoint; tagged_feature whitney_track 99 9900]))))
       (fun _ => json_response
                   (Some (FeatureCollection (Some [waypoint; line_feature whitney_track]))))
       "jmt" "../data" "day-1.geojson" 0%nat
       waypoint [tagged_feature whitney_track 99 9900] [line_feature whitney_track]
       eq_refl eq_refl eq_refl)%string)).
Defined.

(** ** Totals of days that are on the grid *)

Lemma Qfloor_near (x : Q) (k : Z) :
  (x == inject_Z k)%Q -> Qfloor (x + (1 # 2)) = k.
Proof.
  intros Hx.
  pose proof (Qfloor_le (x + (1 # 2))) as Hle.
  pose proof (Qlt_floor (x + (1 # 2))) as Hlt.
  revert Hle Hlt. generalize (Qfloor (x + (1 # 2))) as f. intros f Hle Hlt.
  assert (Hup : (inject_Z f < inject_Z (k + 1))%Q).
  { rewrite inject_Z_plus. change (inject_Z 1) with 1%Q. lra. }
  assert (Hdown : (inject_Z k < inject_Z (f + 1))%Q) by lra.
  rewrite <- Zlt_Qlt in Hup, Hdown. lia.
Qed.

Lemma sum_tens (l : list number) (ks : list Z) :
  Forall2 (fun a k => holds a (10 * k)) l ks ->
  forall (acc : number) (z : Z), holds acc z ->
  holds (fold_left add l acc) (z + 10 * total ks).
Proof.
  induction 1 as [|a k l ks (q & -> & Hq) _ IH]; intros acc z (x & -> & Hx).
  - exists x. split; [reflexivity|]. rewrite Hx. cbn [total fold_right].
    replace (z + 10 * 0)%Z with z by lia. reflexivity.
  - cbn [fold_left total fold_right].
    replace (z + 10 * (k + fold_right Z.add 0 ks))%Z
      with ((z + 10 * k) + 10 * total ks)%Z by (unfold total; lia).
    apply IH. exists (x + q)%Q. split; [reflexivity|].
    rewrite Hx, Hq, <- inject_Z_plus. reflexivity.
Qed.

Lemma sum_tenths (l : list number) (ks : list Z) :
  Forall2 tenths l ks ->
  forall (acc : number) (z : Z), tenths acc z ->
  tenths (fold_left add l acc) (z + total ks).
Proof.
  induction 1 as [|a k l ks (q & -> & Hq) _ IH]; intros acc z (x & -> & Hx).
  - exists x. split; [reflexivity|]. rewrite Hx. cbn [total fold_right].
    replace (z + 0)%Z with z by lia. reflexivity.
  - cbn [fold_left total fold_right].
    replace (z + (k + fold_right Z.add 0 ks))%Z
      with ((z + k) + total ks)%Z by (unfold total; lia).
    apply IH. exists (x + q)%Q. split; [reflexivity|].
    rewrite inject_Z_plus, <- Hx, <- Hq. ring.
Qed.

Lemma Forall2_map_left (A : Type) (f : A -> number) (P : number -> Z -> Prop)
  (l : list A) (ks : list Z) :
  Forall2 (fun r k => P (f r) k) l ks -> Forall2 P (map f l) ks.
Proof. induction 1; cbn [map]; constructor; assumption. Qed.



(** ** [initTripPage]: failures of [meta.json], empty day lists, requests *)

(** X13. When [meta.json] does not load, [initTripPage] stops at the error
    it reports: the rejection reason, ["HTTP <status> fetching <url>"] for a
    response that is not ok, or the parse error; when the metadata list no
    day ([days] missing or empty) the elapsed time is still computed and the
    overview is the map error.  In none of these cases is a day requested:
    the page is the same on every network. *)
Theorem initTripPage_without_days (math : MathHost) (host : DateHost)
  (fetchMeta : Fetch Meta) (net : nat -> Fetch Payload) (tripId dataRoot : string) :
  let metaUrl := (dataRoot ++ "/" ++ tripId ++ "/meta.json")%string in
  let page := Trip.initTripPage fetchMeta net tripId dataRoot in
  (forall err : Error,
     fetchMeta metaUrl = inl err -> page = Trip.MetaError (message err))
  /\ (forall res : Response Meta,
        fetchMeta metaUrl = inr res -> res_ok res = false ->
        page = Trip.MetaError
                 ("HTTP " ++ string_of_Z (Z.of_nat (res_status res))
                  ++ " fetching " ++ metaUrl)%string)
  /\ (forall (res : Response Meta) (err : Error),
        fetchMeta metaUrl = inr res -> res_ok res = true -> res_json res = inl err ->
        page = Trip.MetaError (message err))
  /\ (forall (res : Response Meta) (meta : Meta),
        fetchMeta metaUrl = inr res -> res_ok res = true -> res_json res = inr meta ->
        days meta = None \/ days meta = Some [] ->
        page = Trip.Loaded
                 (Utils.calcElapsedTime (start_date meta) (start_time meta)
                    (end_date meta) (end_time meta))
                 Trip.NoDayFiles).
Proof.
  intros metaUrl page. subst metaUrl page. unfold Trip.initTripPage, bind, throw, ret.
  split; [intros err ->; reflexivity|].
  split; [intros res -> ->; reflexivity|].
  split; [intros res err -> -> ->; reflexivity|].
  intros res meta -> Hok Hjson Hdays. cbv beta iota. rewrite Hok. cbn [negb].
  rewrite Hjson. destruct Hdays as [-> | ->]; reflexivity.
Qed.

Lemma loadDayGeoJSON_ext (math : MathHost) (fetch fetch' : Fetch Payload)
  (tripId dataRoot filename : string) (index : nat) :
  fetch (day_url tripId dataRoot filename) = fetch' (day_url tripId dataRoot filename) ->
  Trip.loadDayGeoJSON fetch tripId dataRoot filename index
  = Trip.loadDayGeoJSON fetch' tripId dataRoot filename index.
Proof.
  intros H. unfold Trip.loadDayGeoJSON, st_try_catch, st_bind, await.
  fold (day_url tripId dataRoot filename). rewrite H. reflexivity.
Qed.

Lemma mapi_from_ext (A B : Type) (f g : A -> nat -> B) (i : nat) (l : list A) :
  (forall (k : nat) (a : A), nth_error l k = Some a -> f a (i + k)%nat = g a (i + k)%nat) ->
  Trip.mapi_from f i l = Trip.mapi_from g i l.
Proof.
  revert i. induction l as [|a l IH]; intros i H; [reflexivity|].
  cbn [Trip.mapi_from]. f_equal.
  - specialize (H 0%nat a eq_refl). rewrite Nat.add_0_r in H. exact H.
  - apply IH. intros k b Hk. specialize (H (S k) b Hk).
    rewrite Nat.add_succ_r in H. exact H.
Qed.

(** X14. What [initTripPage] computes before it draws (the error of the
    metadata, or the elapsed time with the totals and the day results it
    hands to the table, the map and the legend) depends on the network
    through [meta.json] and the day files the metadata list only, each read
    at its own URL: two networks that settle these requests alike give the
    same values.  What [buildMap] requests afterwards, the map tiles, is not
    part of these values. *)
Theorem initTripPage_requests (math : MathHost) (host : DateHost)
  (fetchMeta : Fetch Meta) (net net' : nat -> Fetch Payload) (tripId dataRoot : string) :
  (forall (res : Response Meta) (meta : Meta) (i : nat) (filename : string),
     fetchMeta (dataRoot ++ "/" ++ tripId ++ "/meta.json")%string = inr res ->
     res_json res = inr meta ->
     nth_error (or_empty (days meta)) i = Some filename ->
     net i (day_url tripId dataRoot filename) = net' i (day_url tripId dataRoot filename)) ->
  Trip.initTripPage fetchMeta net tripId dataRoot
  = Trip.initTripPage fetchMeta net' tripId dataRoot.
Proof.
  intros Hsame. unfold Trip.initTripPage, bind, throw, ret.
  destruct (fetchMeta (dataRoot ++ "/" ++ tripId ++ "/meta.json")%string)
    as [err|res] eqn:Hres; [reflexivity|].
  destruct (res_ok res); [|reflexivity]. cbn [negb].
  destruct (res_json res) as [err|meta] eqn:Hmeta; [reflexivity|].
  destruct (length (or_empty (days meta)) =? 0)%nat; [reflexivity|].
  unfold Trip.aggregate, Trip.loadAllDays.
  rewrite (@mapi_from_ext _ _
             (fun filename index =>
                Trip.loadDayGeoJSON (net index) tripId dataRoot filename index)
             (fun filename index =>
                Trip.loadDayGeoJSON (net' index) tripId dataRoot filename index)
             0 (or_empty (days meta))); [reflexivity|].
  intros k filename Hk. cbn [Nat.add].
  apply loadDayGeoJSON_ext, (Hsame res meta k filename eq_refl Hmeta Hk).
Qed.

Lemma initTripPage_requests_witness :
  Trip.initTripPage (math := sample_math) (host := utc_host)
    (fun _ => inr meta_response) second_fails "jmt" "../data"
  = Trip.initTripPage (math := sample_math) (host := utc_host)
      (fun _ => inr meta_response)
      (fun index url =>
         if (3 <=? index)%nat then inl {| message := "offline" |} else second_fails index url)
      "jmt" "../data".
Proof.
  apply initTripPage_requests.
  intros res meta i filename [= <-] [= <-] Hi.
  destruct i as [|[|[|i]]]; try reflexivity.
  cbn in Hi. destruct i; discriminate Hi.
Defined.

(** ** The day statistics of the homepage *)

Lemma fetchDayStats_failed (math : MathHost) (fetch : Fetch Payload) (url reason : string) :
  Spec.outcome (fetch url) = inl reason ->
  Main.fetchDayStats fetch url
  = {| Main.ok := false; Main.distance := Num 0; Main.elevation := Num 0 |}.
Proof.
  unfold Spec.outcome, Main.fetchDayStats, try_catch, bind, throw, ret.
  destruct (fetch url) as [e|res]; [reflexivity|].
  destruct (res_ok res); [|reflexivity].
  destruct (res_json res) as [e|g']; [reflexivity|discriminate].
Qed.

Lemma mapi_from_Forall2 (A B C : Type) (R : B -> C -> Prop)
  (f : A -> nat -> B) (g : A -> nat -> C) (i : nat) (l : list A) :
  (forall (k : nat) (a : A), nth_error l k = Some a -> R (f a (i + k)%nat) (g a (i + k)%nat)) ->
  Forall2 R (Trip.mapi_from f i l) (Trip.mapi_from g i l).
Proof.
  revert i. induction l as [|a l IH]; intros i H; [constructor|].
  cbn [Trip.mapi_from]. constructor.
  - specialize (H 0%nat a eq_refl). rewrite Nat.add_0_r in H. exact H.
  - apply IH. intros k b Hk. specialize (H (S k) b Hk).
    rewrite Nat.add_succ_r in H. exact H.
Qed.

Lemma computeTripData_loop_from (dayResults : list Main.DayStats) (d e : number) :
  fold_left
    (fun '(totalDistance, totalElevation) day =>
       if Main.ok day
       then ((totalDistance + Main.distance day)%js, (totalElevation + Main.elevation day)%js)
       else (totalDistance, totalElevation))
    dayResults (d, e)
  = (fold_left add (map Main.distance (filter Main.ok dayResults)) d,
     fold_left add (map Main.elevation (filter Main.ok dayResults)) e).
Proof.
  revert d e. induction dayResults as [|day days IH]; intros d e; [reflexivity|].
  cbn [fold_left filter]. destruct (Main.ok day); [|apply IH].
  cbn [map fold_left]. apply IH.
Qed.

Lemma computeTripData_loop_sums (dayResults : list Main.DayStats) :
  Main.computeTripData_loop dayResults
  = (Spec.sum (map Main.distance (filter Main.ok dayResults)),
     Spec.sum (map Main.elevation (filter Main.ok dayResults))).
Proof. apply computeTripData_loop_from. Qed.

(** ** [computeTripData]: what the card holds when data are missing *)

Lemma mapi_from_Forall (A B : Type) (P : B -> Prop) (f : A -> nat -> B) (i : nat)
  (l : list A) :
  (forall (k : nat) (a : A), nth_error l k = Some a -> P (f a (i + k)%nat)) ->
  Forall P (Trip.mapi_from f i l).
Proof.
  revert i. induction l as [|a l IH]; intros i H; [constructor|].
  cbn [Trip.mapi_from]. constructor.
  - specialize (H 0%nat a eq_refl). rewrite Nat.add_0_r in H. exact H.
  - apply IH. intros k b Hk. specialize (H (S k) b Hk).
    rewrite Nat.add_succ_r in H. exact H.
Qed.

Lemma filter_none (days : list Main.DayStats) :
  Forall (fun day => Main.ok day = false) days -> filter Main.ok days = [].
Proof.
  induction 1 as [|day days Hday _ IH]; [reflexivity|].
  cbn [filter]. rewrite Hday. exact IH.
Qed.

(** X16. What [computeTripData] records when data are missing.  If
    [meta.json] does not load, the card keeps the trip id as title, no
    totals and no duration, and the error names the reason.  If the metadata
    list no day, the totals stay [null].  If they list days and every day
    request fails, the totals are 0, not [null], and no error is recorded.
    The duration is computed exactly when both dates are non-empty
    strings. *)
Theorem computeTripData_missing_data (math : MathHost) (host : DateHost)
  (fetchMeta : Fetch Meta) (net : nat -> Fetch Payload) (entry : TripEntry) :
  let metaUrl := ("./data" ++ "/" ++ trip_id entry ++ "/meta.json")%string in
  let card := Main.computeTripData fetchMeta net entry in
  (forall err : Error,
     fetchMeta metaUrl = inl err -> card = card_without_meta entry (message err))
  /\ (forall res : Response Meta,
        fetchMeta metaUrl = inr res -> res_ok res = false ->
        card = card_without_meta entry
                 ("HTTP " ++ string_of_Z (Z.of_nat (res_status res)))%string)
  /\ (forall (res : Response Meta) (err : Error),
        fetchMeta metaUrl = inr res -> res_ok res = true -> res_json res = inl err ->
        card = card_without_meta entry (message err))
  /\ (forall (res : Response Meta) (meta : Meta),
        fetchMeta metaUrl = inr res -> res_ok res = true -> res_json res = inr meta ->
        Main.error card = None
        /\ (Main.duration card = None
            <-> truthy_string (start_date meta) = false
                \/ truthy_string (end_date meta) = false)
        /\ (days meta = None \/ days meta = Some [] ->
            Main.totalDistance card = Null /\ Main.totalElevation card = Null)
        /\ (forall dayFiles : list string,
              days meta = Some dayFiles -> dayFiles <> [] ->
              (forall (i : nat) (filename : string),
                 nth_error dayFiles i = Some filename ->
                 exists reason : string,
                   Spec.outcome (net i (day_url (trip_id entry) "./data" filename))
                   = inl reason) ->
              exists d e : number,
                Main.totalDistance card = Number d /\ holds d 0
                /\ Main.totalElevation card = Number e /\ holds e 0)).
Proof.
  intros metaUrl card. subst metaUrl card.
  unfold Main.computeTripData, bind, throw, ret.
  split; [intros err ->; reflexivity|].
  split; [intros res -> ->; reflexivity|].
  split; [intros res err -> -> ->; reflexivity|].
  intros res meta -> Hok Hjson. cbv beta iota. rewrite Hok. cbn [negb]. rewrite Hjson.
  cbn [Main.error Main.duration Main.totalDistance Main.totalElevation].
  split; [reflexivity|].
  split.
  { destruct (truthy_string (start_date meta)), (truthy_string (end_date meta));
      cbn [andb]; split; try discriminate; auto.
    intros [H|H]; discriminate H. }
  split.
  { intros [-> | ->]; split; reflexivity. }
  intros dayFiles -> Hne Hfail. cbn [or_empty].
  destruct dayFiles as [|file files]; [contradiction|].
  cbn [length Nat.eqb].
  set (home := Trip.mapi_from _ 0 (file :: files)).
  assert (Hnone : filter Main.ok home = []).
  { apply filter_none, mapi_from_Forall. intros k filename Hk. cbn [Nat.add].
    destruct (Hfail k filename Hk) as (reason & Hreason).
    unfold day_url in Hreason.
    rewrite (fetchDayStats_failed _ _ _ Hreason). reflexivity. }
  rewrite computeTripData_loop_sums, Hnone. cbn [map fst snd].
  eexists. eexists. split; [reflexivity|]. split.
  { eexists. split; [reflexivity|]. vm_compute. reflexivity. }
  split; [reflexivity|].
  eexists. split; [reflexivity|]. vm_compute. reflexivity.
Qed.

(** ** [calcElapsedTime]: what each result tells *)

Lemma string_of_Z_digit (n : Z) : (0 <= n)%Z -> starts_with_digit (string_of_Z n) = true.
Proof.
  intros Hn. destruct n as [|p|p]; [reflexivity| |lia].
  unfold string_of_Z. cbn [Z.to_int]. unfold NilZero.string_of_int, NilZero.string_of_uint.
  destruct (Pos.to_uint p); reflexivity.
Qed.

Lemma starts_with_digit_app (s t : string) :
  starts_with_digit s = true -> starts_with_digit (s ++ t)%string = true.
Proof. destruct s as [|c s]; [discriminate|]. intros H. exact H. Qed.

Lemma starts_with_digit_concat (x : string) (more : list string) :
  starts_with_digit x = true ->
  starts_with_digit (String.concat " " (x :: more)) = true.
Proof.
  intros H. destruct more as [|y more]; [exact H|].
  cbn [String.concat]. apply starts_with_digit_app, H.
Qed.

Lemma component_digit (n : Z) (letter : string) (more : list string) :
  (0 < n)%Z ->
  starts_with_digit
    (match (Spec.component n letter ++ more)%list with
     | [] => Spec.under_a_minute
     | parts => String.concat " " parts
     end) = true.
Proof.
  intros Hn. unfold Spec.component.
  destruct (Z.eqb_spec n 0) as [->|_]; [lia|].
  cbn [app]. apply starts_with_digit_concat, starts_with_digit_app, string_of_Z_digit. lia.
Qed.

Lemma format_duration_outcome (d h m : Z) :
  (0 <= d)%Z -> (0 <= h)%Z -> (0 <= m)%Z ->
  (d = 0%Z /\ h = 0%Z /\ m = 0%Z /\ Spec.format_duration (d, h, m) = Spec.under_a_minute)
  \/ (~ (d = 0%Z /\ h = 0%Z /\ m = 0%Z)
      /\ starts_with_digit (Spec.format_duration (d, h, m)) = true).
Proof.
  intros Hd Hh Hm. unfold Spec.format_duration.
  destruct (Z.eq_dec d 0) as [->|Hd0].
  - destruct (Z.eq_dec h 0) as [->|Hh0].
    + destruct (Z.eq_dec m 0) as [->|Hm0].
      * left. repeat split.
      * right. split; [intros (_ & _ & H); contradiction|].
        replace (Spec.component 0 "d" ++ Spec.component 0 "h" ++ Spec.component m "m")%list
          with (Spec.component m "m" ++ [])%list by (rewrite app_nil_r; reflexivity).
        apply component_digit. lia.
    + right. split; [intros (_ & H & _); contradiction|].
      change (Spec.component 0 "d" ++ Spec.component h "h" ++ Spec.component m "m")%list
        with (Spec.component h "h" ++ Spec.component m "m")%list.
      apply component_digit. lia.
  - right. split; [intros (H & _); contradiction|].
    apply component_digit. lia.
Qed.

Lemma duration_outcome (t1 t2 : Z) :
  (t1 < t2)%Z ->
  ((t2 < t1 + 60000)%Z /\ Spec.duration t1 t2 = Spec.under_a_minute)
  \/ ((t1 + 60000 <= t2)%Z /\ starts_with_digit (Spec.duration t1 t2) = true).
Proof.
  intros Hlt. unfold Spec.duration.
  destruct (Z.leb_spec t2 t1) as [Hle|_]; [lia|].
  unfold Spec.decompose. cbv zeta.
  set (diff := (t2 - t1)%Z).
  assert (Hdiff : (0 < diff)%Z) by (subst diff; lia).
  set (d := (diff / 86400000)%Z).
  set (r1 := (diff - d * 86400000)%Z).
  set (h := (r1 / 3600000)%Z).
  set (r2 := (r1 - h * 3600000)%Z).
  set (m := (r2 / 60000)%Z).
  assert (Hd : (0 <= d /\ 0 <= r1 < 86400000)%Z)
    by (subst d r1; Z.div_mod_to_equations; lia).
  assert (Hh : (0 <= h /\ 0 <= r2 < 3600000)%Z)
    by (subst h r2; Z.div_mod_to_equations; lia).
  assert (Hm : (0 <= m /\ 60000 * m <= r2 < 60000 * m + 60000)%Z)
    by (subst m; Z.div_mod_to_equations; lia).
  destruct (format_duration_outcome (proj1 Hd) (proj1 Hh) (proj1 Hm))
    as [(Hd0 & Hh0 & Hm0 & Hf)|(Hnz & Hf)].
  - left. split; [|exact Hf].
    subst diff. subst r2 r1. lia.
  - right. split; [|exact Hf].
    destruct (Z.eq_dec d 0) as [Hd0|Hd0]; [|subst diff r1; nia].
    destruct (Z.eq_dec h 0) as [Hh0|Hh0]; [|subst diff r2 r1; nia].
    destruct (Z.eq_dec m 0) as [Hm0|Hm0]; [exfalso; apply Hnz; auto|].
    subst diff r2 r1. nia.
Qed.

(** X17. What each result of [calcElapsedTime] tells.  The dash is
    returned exactly when both dates are valid and the end is not after the
    start; ["< 1m"] exactly when a date is invalid or the end is less than a
    minute after the start; every other result starts with a digit, so it is
    neither of the two and never empty. *)
Theorem calcElapsedTime_outcomes (host : DateHost)
  (startDate startTime endDate endTime : jsstring) :
  let result := Utils.calcElapsedTime startDate startTime endDate endTime in
  let start := Date_new (date_time_string startDate startTime) in
  let finish := Date_new (date_time_string endDate endTime) in
  (result = "—"%string
   <-> exists t1 t2 : Z, start = Some t1 /\ finish = Some t2 /\ (t2 <= t1)%Z)
  /\ (result = "< 1m"%string
      <-> start = None \/ finish = None
          \/ exists t1 t2 : Z,
               start = Some t1 /\ finish = Some t2 /\ (t1 < t2 < t1 + 60000)%Z)
  /\ (result = "—"%string \/ result = "< 1m"%string \/ starts_with_digit result = true).
Proof.
  intros result start finish. subst result.
  destruct start as [t1|] eqn:Hstart; [destruct finish as [t2|] eqn:Hfinish|].
  - subst start finish. rewrite (calcElapsedTime_valid _ _ _ _ Hstart Hfinish).
    destruct (Z.le_gt_cases t2 t1) as [Hle|Hgt].
    + assert (Hr : Spec.duration t1 t2 = "—"%string).
      { unfold Spec.duration. destruct (Z.leb_spec t2 t1); [reflexivity|lia]. }
      rewrite Hr. split; [|split].
      * split; [intros _; exists t1, t2; auto|reflexivity].
      * split; [discriminate|].
        intros [H|[H|(a & b & [= <-] & [= <-] & H)]]; [discriminate H|discriminate H|lia].
      * left. reflexivity.
    + destruct (duration_outcome Hgt) as [(Hshort & Hr)|(Hlong & Hdigit)].
      * rewrite Hr. split; [|split].
        -- split; [discriminate|]. intros (a & b & [= <-] & [= <-] & H). lia.
        -- split; [|reflexivity]. intros _. right. right. exists t1, t2. auto with zarith.
        -- right. left. reflexivity.
      * split; [|split].
        -- split.
           ++ intros H. rewrite H in Hdigit. discriminate Hdigit.
           ++ intros (a & b & [= <-] & [= <-] & H). lia.
        -- split.
           ++ intros H. rewrite H in Hdigit. discriminate Hdigit.
           ++ intros [H|[H|(a & b & [= <-] & [= <-] & H)]];
                [discriminate H|discriminate H|lia].
        -- right. right. exact Hdigit.
  - subst start finish.
    rewrite (calcElapsedTime_invalid _ _ _ _ (or_intror Hfinish)).
    split; [|split].
    + split; [discriminate|]. intros (a & b & _ & H & _). discriminate H.
    + split; [auto|reflexivity].
    + right. left. reflexivity.
  - subst start.
    rewrite (calcElapsedTime_invalid _ _ _ _ (or_introl Hstart)).
    split; [|split].
    + split; [discriminate|]. intros (a & b & H & _). discriminate H.
    + split; [auto|reflexivity].
    + right. left. reflexivity.
Qed.

(* ================================================================== *)
(** * Part XI. Properties of the code on binary64 numbers *)
(* ================================================================== *)

Section Binary64.
Import PrimFloat F64 Parsed.
Local Open Scope float_scope.

(** ** The index loops walk the segments of the track *)

Section Loops64.
Variables A E : Type.
Variable d : E.
Variable step : A -> E -> E -> completion A.

Lemma foldM_index_from (l pre : list E) (prev : E) (rest : list E) (a : A) :
  l = (pre ++ prev :: rest)%list ->
  F64.foldM (fun acc i => step acc (nth (i - 1) l d) (nth i l d))
    (seq (S (length pre)) (length rest)) a
  = F64.foldM (fun acc pq => step acc (fst pq) (snd pq)) (combine (prev :: rest) rest) a.
Proof.
  revert pre prev a.
  induction rest as [|q rest IH]; intros pre prev a Hl; [reflexivity|].
  cbn [length seq F64.foldM combine fst snd].
  assert (Hprev : nth (S (length pre) - 1) l d = prev).
  { subst l. replace (S (length pre) - 1)%nat with (length pre) by lia.
    rewrite app_nth2 by lia. rewrite Nat.sub_diag. reflexivity. }
  assert (Hq : nth (S (length pre)) l d = q).
  { subst l. rewrite app_nth2 by lia.
    replace (S (length pre) - length pre)%nat with 1%nat by lia. reflexivity. }
  rewrite Hprev, Hq. unfold bind.
  destruct (step a prev q) as [e|a']; [reflexivity|].
  specialize (IH (pre ++ [prev])%list q a').
  rewrite length_app in IH. cbn [length] in IH.
  replace (length pre + 1)%nat with (S (length pre)) in IH by lia.
  apply IH. subst l. rewrite <- app_assoc. reflexivity.
Qed.

Lemma foldM_index_pairs (l : list E) (a : A) :
  F64.foldM (fun acc i => step acc (nth (i - 1) l d) (nth i l d))
    (seq 1 (length l - 1)) a
  = F64.foldM (fun acc pq => step acc (fst pq) (snd pq)) (Spec64.consecutive_pairs l) a.
Proof.
  destruct l as [|p rest]; [reflexivity|].
  unfold Spec64.consecutive_pairs. cbn [tl length].
  replace (S (length rest) - 1)%nat with (length rest) by lia.
  apply (@foldM_index_from (p :: rest) [] p rest a). reflexivity.
Qed.

End Loops64.

(** On positions that are not [null] no step throws, and the loop is a
    left fold over the segments. *)
Lemma foldM_positions (A : Type)
  (step : A -> option Parsed.Position -> option Parsed.Position -> completion A)
  (g : A -> Parsed.Position -> Parsed.Position -> A)
  (ps qs : list Parsed.Position) (a : A) :
  (forall acc p q, step acc (Some p) (Some q) = ret (g acc p q)) ->
  F64.foldM (fun acc pq => step acc (fst pq) (snd pq))
    (combine (map Some ps) (map Some qs)) a
  = ret (fold_left (fun acc pq => g acc (fst pq) (snd pq)) (combine ps qs) a).
Proof.
  intros Hstep. revert qs a.
  induction ps as [|p ps IH]; intros qs a; [reflexivity|].
  destruct qs as [|q qs]; [reflexivity|].
  cbn [map combine F64.foldM fold_left fst snd]. rewrite Hstep. apply IH.
Qed.

Lemma index_loop_positions (A : Type)
  (step : A -> option Parsed.Position -> option Parsed.Position -> completion A)
  (g : A -> Parsed.Position -> Parsed.Position -> A)
  (points : list Parsed.Position) (a : A) :
  (forall acc p q, step acc (Some p) (Some q) = ret (g acc p q)) ->
  F64.foldM
    (fun acc i => step acc (Utils64.at_ (map Some points) (i - 1))
                    (Utils64.at_ (map Some points) i))
    (seq 1 (length (map Some points) - 1)) a
  = ret (fold_left (fun acc pq => g acc (fst pq) (snd pq))
           (Spec64.consecutive_pairs points) a).
Proof.
  intros Hstep. unfold Utils64.at_.
  rewrite (foldM_index_pairs None step (map Some points) a).
  unfold Spec64.consecutive_pairs.
  replace (tl (map Some points)) with (map (@Some Parsed.Position) (tl points))
    by (destruct points; reflexivity).
  apply foldM_positions, Hstep.
Qed.

(** ** Elevation gain *)

Section Elevation64.
Context {engine : Engine}.

Lemma climb_fold64 (pairs : list (Position * Position)) (gain : float) :
  fold_left
    (fun gain pq =>
       if is_number (get (fst pq) 2) && is_number (get (snd pq) 2) then
         if gtb (ToNumber (get (snd pq) 2) - ToNumber (get (fst pq) 2)) 0
         then gain + (ToNumber (get (snd pq) 2) - ToNumber (get (fst pq) 2))
         else gain
       else gain)
    pairs gain
  = fold_left PrimFloat.add (Spec.keep_some Spec64.climb pairs) gain.
Proof.
  revert gain. induction pairs as [|[p q] pairs IH]; intros gain; [reflexivity|].
  cbn [fold_left Spec.keep_some fst snd]. rewrite IH.
  unfold Spec64.climb, Spec64.elevation_of. cbn [fst snd].
  destruct (get p 2) as [| |a]; try reflexivity;
    destruct (get q 2) as [| |b]; try reflexivity.
  cbn [is_number andb ToNumber]. destruct (gtb (b - a) 0); reflexivity.
Qed.

Lemma calcElevationGain_points (points : list Position) :
  Utils64.calcElevationGain (map Some points) = ret (Spec64.trackElevationGain points).
Proof.
  unfold Utils64.calcElevationGain.
  destruct points as [|p [|q rest]]; [reflexivity|reflexivity|].
  replace (length (map Some (p :: q :: rest)) <? 2)%nat with false by reflexivity.
  unfold Utils64.elevation_step.
  rewrite (index_loop_positions
             (fun gain c1 c2 =>
                bind (member c1 2 "2") (fun prevEle =>
                bind (member c2 2 "2") (fun currEle =>
                ret (if is_number prevEle && is_number currEle then
                       if gtb (ToNumber currEle - ToNumber prevEle) 0
                       then gain + (ToNumber currEle - ToNumber prevEle)
                       else gain
                     else gain))))
             (fun gain p q =>
                if is_number (get p 2) && is_number (get q 2) then
                  if gtb (ToNumber (get q 2) - ToNumber (get p 2)) 0
                  then gain + (ToNumber (get q 2) - ToNumber (get p 2))
                  else gain
                else gain)
             (p :: q :: rest) 0); [|reflexivity].
  unfold bind, ret. rewrite climb_fold64. reflexivity.
Qed.

End Elevation64.

(** C3. On binary64 numbers, [calcElevationGain] of a sequence of points
    is 0 below two points and otherwise the sum, taken from left to right,
    of the positive elevation deltas of the consecutive points, multiplied
    by 3.28084 and rounded to the nearest ten by [Math.round(x / 10) * 10];
    a segment counts only when both ends carry a number as third element
    and the delta is above zero.  [Math.round] gives the integer nearest to
    the exact value of its argument, a tie going up.  Each operation rounds
    to binary64: the README's track gives 920, a sum that is 125000 metres
    exactly but a little less in binary64 gives 410100, and a sum that
    overflows gives [Infinity]. *)
Theorem calcElevationGain_spec (engine : Engine) (points : list Position) :
  Utils64.calcElevationGain (map Some points) = ret (Spec64.trackElevationGain points)
  /\ ((2 <= length points)%nat ->
      Spec64.trackElevationGain points
      = Spec64.round_to_ten (Spec64.feet (Spec64.sum (Spec64.positive_deltas points))))
  /\ ((length points < 2)%nat -> Spec64.trackElevationGain points = 0)
  /\ (forall (seg : Position * Position) (delta : float),
        Spec64.climb seg = Some delta ->
        exists a b : float,
          get (fst seg) 2 = Number a /\ get (snd seg) 2 = Number b
          /\ delta = b - a /\ (0 <? delta) = true)
  /\ (forall (p q : Position) (a b : float),
        get p 2 = Number a -> get q 2 = Number b ->
        Spec64.climb (p, q) = if 0 <? b - a then Some (b - a) else None)
  /\ (forall p q : Position,
        is_number (get p 2) = false \/ is_number (get q 2) = false ->
        Spec64.climb (p, q) = None)
  /\ (forall (x : float) (s : bool) (m : positive) (e : Z),
        FloatOps.Prim2SF x = SpecFloat.S754_finite s m e ->
        Math_round x
        = if (0 <=? e)%Z then x
          else rounded s (Qfloor (exact_value s m e + (1 # 2))))
  /\ Utils64.calcElevationGain (map Some whitney_points) = ret 920
  /\ Utils64.calcElevationGain (map Some near_tie_points) = ret 410100
  /\ Utils64.calcElevationGain (map Some overflow_points) = ret infinity.
Proof.
  split; [apply calcElevationGain_points|].
  split.
  { intros Hlen. destruct points as [|p [|q rest]]; cbn [length] in Hlen; try lia.
    reflexivity. }
  split.
  { intros Hlen. destruct points as [|p [|q rest]]; cbn [length] in Hlen; try lia;
      reflexivity. }
  split.
  { intros [p q] delta. unfold Spec64.climb, Spec64.elevation_of. cbn [fst snd].
    destruct (get p 2) as [| |a]; try discriminate.
    destruct (get q 2) as [| |b]; try discriminate.
    destruct (gtb (b - a) 0) eqn:Hpos; [|discriminate].
    intros [= <-]. exists a, b. repeat split. exact Hpos. }
  split.
  { intros p q a b Ha Hb. unfold Spec64.climb, Spec64.elevation_of. cbn [fst snd].
    rewrite Ha, Hb. reflexivity. }
  split.
  { intros p q H. unfold Spec64.climb, Spec64.elevation_of. cbn [fst snd].
    destruct (get p 2), (get q 2); try reflexivity; destruct H; discriminate. }
  split.
  { intros x s m e Hx. unfold Math_round. rewrite Hx. reflexivity. }
  split; [vm_compute; reflexivity|].
  split; vm_compute; reflexivity.
Qed.

Lemma calcElevationGain_spec_witness :
  Spec64.trackElevationGain [at_elevation 100] = 0
  /\ Spec64.trackElevationGain [at_elevation 2100; at_elevation 2210]
     = Spec64.round_to_ten
         (Spec64.feet (Spec64.sum (Spec64.positive_deltas
                                     [at_elevation 2100; at_elevation 2210])))
  /\ (exists a b : float,
        get (at_elevation 2100) 2 = Number a /\ get (at_elevation 2210) 2 = Number b
        /\ 110 = b - a /\ (0 <? 110) = true)
  /\ Spec64.climb (at_elevation 2210, at_elevation 2100) = None
  /\ Spec64.climb ([Number 0; Number 0], at_elevation 2100) = None
  /\ Math_round 41010.499999999993 = 41010.
Proof.
  pose proof (calcElevationGain_spec v8 [at_elevation 2100; at_elevation 2210])
    as (_ & Hlong & _ & Hclimb & Hboth & Hmissing & Hround & _).
  pose proof (calcElevationGain_spec v8 [at_elevation 100]) as (_ & _ & Hshort & _).
  split; [apply Hshort; simpl; lia|].
  split; [apply Hlong; simpl; lia|].
  split.
  { apply (Hclimb (at_elevation 2100, at_elevation 2210)). vm_compute. reflexivity. }
  split.
  { apply (Hboth (at_elevation 2210) (at_elevation 2100) 2210 2100); reflexivity. }
  split; [apply Hmissing; left; reflexivity|].
  erewrite Hround by (vm_compute; reflexivity). vm_compute. reflexivity.
Defined.

(** ** Distance *)

Section Distance64.
Context {math : MathHost} {engine : Engine}.

Lemma haversineDistance_positions (p q : Position) :
  Utils64.haversineDistance (Some p) (Some q) = ret (Spec64.distanceBetween (p, q)).
Proof. reflexivity. Qed.

Lemma fold_left_add_map64 (B : Type) (g : B -> float) (l : list B) (a : float) :
  fold_left (fun acc b => acc + g b) l a = fold_left PrimFloat.add (map g l) a.
Proof.
  revert a. induction l as [|b l IH]; intros a; [reflexivity|].
  cbn [fold_left map]. apply IH.
Qed.

Lemma calcDistance_points (points : list Position) :
  Utils64.calcDistance (map Some points) = ret (Spec64.trackDistance points).
Proof.
  unfold Utils64.calcDistance.
  destruct points as [|p [|q rest]]; [reflexivity|reflexivity|].
  replace (length (map Some (p :: q :: rest)) <? 2)%nat with false by reflexivity.
  rewrite (index_loop_positions
             (fun total c1 c2 =>
                bind (Utils64.haversineDistance c1 c2) (fun d => ret (total + d)))
             (fun total p q => total + Spec64.distanceBetween (p, q))
             (p :: q :: rest) 0); [|reflexivity].
  unfold bind, ret, Spec64.trackDistance, Spec64.sum, Spec64.round_to_tenth.
  rewrite <- fold_left_add_map64.
  assert (Hfold : forall (pairs : list (Position * Position)) (a : float),
             fold_left (fun acc pq => acc + Spec64.distanceBetween (fst pq, snd pq)) pairs a
             = fold_left (fun acc pq => acc + Spec64.distanceBetween pq) pairs a).
  { induction pairs as [|[u v] pairs IH]; intros a; [reflexivity|].
    cbn [fold_left fst snd]. apply IH. }
  rewrite Hfold. reflexivity.
Qed.

End Distance64.

(** ** Payloads without [null] *)

Lemma null_free_coords_points (coords : Coords) :
  null_free_coords coords = true -> exists points : list Position, coords = map Some points.
Proof.
  induction coords as [|[p|] coords IH]; cbn [null_free_coords forallb is_position andb].
  - intros _. exists []. reflexivity.
  - intros H. destruct (IH H) as (points & ->). exists (p :: points). reflexivity.
  - discriminate.
Qed.

Lemma null_free_coords_app (a b : Coords) :
  null_free_coords (a ++ b) = null_free_coords a && null_free_coords b.
Proof. apply forallb_app. Qed.

Lemma null_free_flat (paths : list (option Coords)) :
  forallb (fun path => match path with
                       | Some c => null_free_coords c
                       | None => false
                       end) paths = true ->
  null_free_coords (flat paths) = true.
Proof.
  induction paths as [|[c|] paths IH]; cbn [forallb]; [reflexivity| |discriminate].
  intros H. apply andb_true_iff in H. destruct H as [Hc Hrest].
  unfold flat. cbn [map concat]. rewrite null_free_coords_app, Hc. apply IH, Hrest.
Qed.

Lemma null_free_extractCoordsFromGeometry (g : option Geometry) :
  null_free_geometry g = true ->
  null_free_coords (Trip64.extractCoordsFromGeometry g) = true.
Proof.
  destruct g as [[c|ps|t]|]; cbn [null_free_geometry Trip64.extractCoordsFromGeometry];
    try reflexivity; [exact (fun H => H)|apply null_free_flat].
Qed.

Section Extraction64.
Context {engine : Engine}.

Lemma null_free_extractCoords_loop (features : list (option Feature)) :
  forallb (fun f => match f with
                    | Some f => null_free_geometry (geometry f)
                    | None => false
                    end) features = true ->
  Trip64.extractCoords_loop features = ret None
  \/ exists c : Coords,
       Trip64.extractCoords_loop features = ret (Some c) /\ null_free_coords c = true.
Proof.
  induction features as [|[f|] features IH]; cbn [forallb]; [left; reflexivity| |discriminate].
  intros H. apply andb_true_iff in H. destruct H as [Hf Hrest].
  cbn [Trip64.extractCoords_loop].
  destruct (has_length (Trip64.extractCoordsFromGeometry (geometry f))).
  - right. eexists. split; [reflexivity|].
    apply null_free_extractCoordsFromGeometry, Hf.
  - apply IH, Hrest.
Qed.

Lemma null_free_extractCoords (g : Payload) :
  null_free g = true ->
  exists points : list Position, Trip64.extractCoords g = ret (map Some points).
Proof.
  intros H.
  assert (Hc : exists c : Coords,
             Trip64.extractCoords g = ret c /\ null_free_coords c = true).
  { destruct g as [[features|f|geom]|]; cbn [null_free] in H.
    - unfold Trip64.extractCoords.
      destruct (null_free_extractCoords_loop _ H) as [-> | (c & -> & Hc)].
      + exists []. split; reflexivity.
      + exists c. split; [reflexivity|exact Hc].
    - eexists. split; [reflexivity|]. apply null_free_extractCoordsFromGeometry, H.
    - eexists. split; [reflexivity|].
      apply (null_free_extractCoordsFromGeometry (Some geom)), H.
    - exists []. split; reflexivity. }
  destruct Hc as (c & Hc & Hfree).
  destruct (null_free_coords_points _ Hfree) as (points & ->).
  exists points. exact Hc.
Qed.

(** The two copies of the extraction code. *)
Lemma Main64_extractCoordsFromGeometry_eq (g : option Geometry) :
  Main64.extractCoordsFromGeometry g = Trip64.extractCoordsFromGeometry g.
Proof. destruct g as [[c|c|t]|]; reflexivity. Qed.

Lemma Main64_extractCoords_loop_eq (features : list (option Feature)) :
  Main64.extractCoords_loop features = Trip64.extractCoords_loop features.
Proof.
  induction features as [|[f|] features IH]; [reflexivity| |reflexivity].
  cbn [Main64.extractCoords_loop Trip64.extractCoords_loop].
  rewrite Main64_extractCoordsFromGeometry_eq, IH. reflexivity.
Qed.

Lemma Main64_extractCoords_eq (g : Payload) :
  Main64.extractCoords g = Trip64.extractCoords g.
Proof.
  destruct g as [[features|f|geom]|]; try reflexivity.
Qed.

Lemma Main64_getFirstFeatureProps_eq (g : Payload) :
  Main64.getFirstFeatureProps g = Trip64.getFirstFeatureProps g.
Proof.
  destruct g as [[[[|[f|] fs]|]|f|geom]|]; reflexivity.
Qed.

End Extraction64.

(** ** The day statistics of the two pages *)

Section Days64.
Context {math : MathHost} {engine : Engine}.

Lemma fetchDayStats_failed64 (fetch : Fetch Payload) (url reason : string) :
  Spec64.outcome (fetch url) = inl reason ->
  Main64.fetchDayStats fetch url
  = {| Main64.ok := false; Main64.distance := 0; Main64.elevation := 0 |}.
Proof.
  unfold Spec64.outcome, Main64.fetchDayStats, try_catch, bind, throw, ret.
  destruct (fetch url) as [e|[ok status json]]; [reflexivity|].
  cbv beta iota delta [res_ok res_status res_json].
  destruct ok; [|reflexivity].
  destruct json as [e|g']; [reflexivity|discriminate].
Qed.

Lemma fetchDayStats_retrieved64 (fetch : Fetch Payload) (url : string) (g : Payload) :
  Spec64.outcome (fetch url) = inr g ->
  Main64.fetchDayStats fetch url
  = match statistics g with
    | inl _ => {| Main64.ok := false; Main64.distance := 0; Main64.elevation := 0 |}
    | inr (distance, elevation) =>
        {| Main64.ok := true; Main64.distance := distance; Main64.elevation := elevation |}
    end.
Proof.
  unfold Spec64.outcome, Main64.fetchDayStats, statistics, try_catch.
  destruct (fetch url) as [e|[ok status json]]; [discriminate|].
  cbv beta iota delta [res_ok res_status res_json].
  destruct ok; [|discriminate].
  destruct json as [e|g']; [discriminate|].
  intros [= ->]. cbn [negb bind ret].
  change (Main64.extractCoords g) with (Trip64.extractCoords g).
  rewrite !Main64_getFirstFeatureProps_eq.
  unfold bind, ret.
  destruct (Trip64.extractCoords g) as [e|coords]; [reflexivity|].
  destruct (override _ distance_miles _) as [e|distance]; [reflexivity|].
  destruct (override _ elevation_gain_ft _) as [e|elevation]; reflexivity.
Qed.

Lemma loadDayGeoJSON_failed64 (fetch : Fetch Payload) (tripId dataRoot filename : string)
  (index : nat) (reason : string) :
  Spec64.outcome (fetch (day_url tripId dataRoot filename)) = inl reason ->
  Trip64.loadDayGeoJSON fetch tripId dataRoot filename index
  = {| Trip64.index := index;
       Trip64.filename := filename;
       Trip64.url := day_url tripId dataRoot filename;
       Trip64.ok := false;
       Trip64.geojson := None;
       Trip64.dayNumber := of_nat index + 1;
       Trip64.distance := 0;
       Trip64.elevation := 0;
       Trip64.error := Some reason |}.
Proof.
  unfold Spec64.outcome, Trip64.loadDayGeoJSON, st_try_catch, st_bind, await.
  fold (day_url tripId dataRoot filename).
  destruct (fetch (day_url tripId dataRoot filename)) as [e|[ok status json]].
  - intros [= <-]. reflexivity.
  - cbv beta iota delta [res_ok res_status res_json]. destruct ok.
    + destruct json as [e|g']; [|discriminate].
      intros [= <-]. reflexivity.
    + intros [= <-]. reflexivity.
Qed.

(** The result of a day whose payload was retrieved: what was assigned
    before a throw stays. *)
Lemma loadDayGeoJSON_retrieved64 (fetch : Fetch Payload) (tripId dataRoot filename : string)
  (index : nat) (g : Payload) :
  Spec64.outcome (fetch (day_url tripId dataRoot filename)) = inr g ->
  Trip64.loadDayGeoJSON fetch tripId dataRoot filename index
  = let loaded :=
      {| Trip64.index := index;
         Trip64.filename := filename;
         Trip64.url := day_url tripId dataRoot filename;
         Trip64.ok := true;
         Trip64.geojson := g;
         Trip64.dayNumber := of_nat index + 1;
         Trip64.distance := 0;
         Trip64.elevation := 0;
         Trip64.error := None |} in
    let props := Trip64.getFirstFeatureProps g in
    match Trip64.extractCoords g with
    | inl e => Trip64.set_error (Some (message e)) loaded
    | inr coords =>
        let numbered := Trip64.set_dayNumber (Trip64.day_number props index) loaded in
        match override props distance_miles (Utils64.calcDistance coords) with
        | inl e => Trip64.set_error (Some (message e)) numbered
        | inr distance =>
            let measured := Trip64.set_distance distance numbered in
            match override props elevation_gain_ft (Utils64.calcElevationGain coords) with
            | inl e => Trip64.set_error (Some (message e)) measured
            | inr elevation => Trip64.set_elevation elevation measured
            end
        end
    end.
Proof.
  unfold Spec64.outcome, Trip64.loadDayGeoJSON, st_try_catch, st_bind, await.
  fold (day_url tripId dataRoot filename).
  destruct (fetch (day_url tripId dataRoot filename)) as [e|[ok status json]]; [discriminate|].
  cbv beta iota delta [res_ok res_status res_json].
  destruct ok; [|discriminate].
  destruct json as [e|g']; [discriminate|].
  intros [= ->]. cbn [negb st_ret update fst snd]. cbv zeta.
  destruct (Trip64.extractCoords g) as [e|coords]; [reflexivity|].
  destruct (override _ distance_miles _) as [e|distance]; [reflexivity|].
  destruct (override _ elevation_gain_ft _) as [e|elevation]; reflexivity.
Qed.

(** When the statistics code of the trip page did not throw, the homepage
    has the same day. *)
Lemma same_day_outcome (fetch fetch' : Fetch Payload) (url tripId dataRoot filename : string)
  (index : nat) :
  Spec64.outcome (fetch url) = Spec64.outcome (fetch' (day_url tripId dataRoot filename)) ->
  clean (Trip64.loadDayGeoJSON fetch' tripId dataRoot filename index) ->
  same_day (Main64.fetchDayStats fetch url)
    (Trip64.loadDayGeoJSON fetch' tripId dataRoot filename index).
Proof.
  intros H.
  destruct (Spec64.outcome (fetch' (day_url tripId dataRoot filename))) as [reason|g] eqn:Hpage.
  - rewrite (fetchDayStats_failed64 _ _ H), (loadDayGeoJSON_failed64 _ _ _ _ index Hpage).
    intros _. repeat split.
  - rewrite (fetchDayStats_retrieved64 _ _ H), (loadDayGeoJSON_retrieved64 _ _ _ _ index Hpage).
    unfold statistics, bind, ret. cbv zeta.
    destruct (Trip64.extractCoords g) as [e|coords].
    { intros [Hok|Herr]; discriminate. }
    destruct (override _ distance_miles _) as [e|distance].
    { intros [Hok|Herr]; discriminate. }
    destruct (override _ elevation_gain_ft _) as [e|elevation].
    { intros [Hok|Herr]; discriminate. }
    intros _. repeat split.
Qed.

(** A payload without [null] never makes the statistics code throw. *)
Lemma null_free_clean (fetch : Fetch Payload) (tripId dataRoot filename : string)
  (index : nat) (g : Payload) :
  Spec64.outcome (fetch (day_url tripId dataRoot filename)) = inr g ->
  null_free g = true ->
  Trip64.error (Trip64.loadDayGeoJSON fetch tripId dataRoot filename index) = None.
Proof.
  intros Hg Hfree. rewrite (loadDayGeoJSON_retrieved64 _ _ _ _ index Hg). cbv zeta.
  destruct (null_free_extractCoords _ Hfree) as (points & ->).
  unfold ret. rewrite calcDistance_points, calcElevationGain_points.
  destruct (Trip64.getFirstFeatureProps g) as [p|]; cbn [override];
    [destruct (distance_miles p), (elevation_gain_ft p)|]; reflexivity.
Qed.

End Days64.




(** ** Totals *)

Lemma fold_left_totals64 (days : list Trip64.DayResult) (d e : float) :
  fold_left
    (fun '(totalDistance, totalElevation) day =>
       (totalDistance + Trip64.distance day, totalElevation + Trip64.elevation day))
    days (d, e)
  = (fold_left PrimFloat.add (map Trip64.distance days) d,
     fold_left PrimFloat.add (map Trip64.elevation days) e).
Proof.
  revert d e. induction days as [|day days IH]; intros d e; [reflexivity|].
  cbn [fold_left map]. apply IH.
Qed.

Lemma aggregateTotals_sums64 (dayResults : list Trip64.DayResult) :
  Trip64.aggregateTotals dayResults
  = {| Trip64.trip_total_distance :=
         Spec64.round_to_tenth
           (Spec64.sum (map Trip64.distance (filter Trip64.ok dayResults)));
       Trip64.trip_total_elevation :=
         Spec64.round_to_ten
           (Spec64.sum (map Trip64.elevation (filter Trip64.ok dayResults)));
       Trip64.trip_days_count := length (filter Trip64.ok dayResults) |}.
Proof.
  unfold Trip64.aggregateTotals. rewrite fold_left_totals64. reflexivity.
Qed.

(** C8. On binary64 numbers, the trip totals are the sums, taken from
    left to right, of the [ok] days' distance and elevation values, rounded
    again: the distance by [Math.round(x * 10) / 10], the elevation by
    [Math.round(x / 10) * 10].  The day values that were computed are
    rounded already, so the totals round twice: two days of 14.76 feet each
    total 20, where the sum of the raw gains would round to 30.  The sums
    round to binary64 as well: days of 3.05 and 5.1 miles total 8.1. *)
Theorem aggregateTotals_double_rounding :
  (forall dayResults : list Trip64.DayResult,
     Trip64.trip_total_distance (Trip64.aggregateTotals dayResults)
     = Spec64.round_to_tenth
         (Spec64.sum (map Trip64.distance (filter Trip64.ok dayResults)))
     /\ Trip64.trip_total_elevation (Trip64.aggregateTotals dayResults)
        = Spec64.round_to_ten
            (Spec64.sum (map Trip64.elevation (filter Trip64.ok dayResults))))
  /\ (forall (math : MathHost) (engine : Engine) (fetch : Fetch Payload)
        (tripId dataRoot filename : string) (index : nat) (record : Payload)
        (points : list Position),
        Spec64.outcome (fetch (day_url tripId dataRoot filename)) = inr record ->
        Trip64.extractCoords record = ret (map Some points) ->
        (2 <= length points)%nat ->
        let r := Trip64.loadDayGeoJSON fetch tripId dataRoot filename index in
        let props := Trip64.getFirstFeatureProps record in
        (override_value props distance_miles = None ->
         Trip64.distance r
         = Spec64.round_to_tenth
             (Spec64.sum (map Spec64.distanceBetween (Spec64.consecutive_pairs points))))
        /\ (override_value props elevation_gain_ft = None ->
            Trip64.elevation r
            = Spec64.round_to_ten
                (Spec64.feet (Spec64.sum (Spec64.positive_deltas points)))))
  /\ map Trip64.elevation two_short_climbs64 = [10; 10]
  /\ Trip64.trip_total_elevation (Trip64.aggregateTotals two_short_climbs64) = 20
  /\ Spec64.round_to_ten (Spec64.feet 4.5 + Spec64.feet 4.5) = 30
  /\ Trip64.trip_total_distance
       (Trip64.aggregateTotals [loaded_day 0 3.05 0; loaded_day 1 5.1 0]) = 8.1.
Proof.
  split.
  { intros dayResults. rewrite aggregateTotals_sums64. split; reflexivity. }
  split.
  { intros math engine fetch tripId dataRoot filename index record points
      Hfetch Hcoords Hlen r props. subst r.
    rewrite (loadDayGeoJSON_retrieved64 _ _ _ _ index Hfetch). cbv zeta.
    rewrite Hcoords. unfold ret. rewrite calcDistance_points, calcElevationGain_points.
    fold props.
    assert (Hd : Spec64.trackDistance points
                 = Spec64.round_to_tenth
                     (Spec64.sum (map Spec64.distanceBetween
                                    (Spec64.consecutive_pairs points)))).
    { destruct points as [|p [|q rest]]; cbn [length] in Hlen; try lia. reflexivity. }
    assert (He : Spec64.trackElevationGain points
                 = Spec64.round_to_ten
                     (Spec64.feet (Spec64.sum (Spec64.positive_deltas points)))).
    { destruct points as [|p [|q rest]]; cbn [length] in Hlen; try lia. reflexivity. }
    rewrite <- Hd, <- He. unfold override_value, override, ret.
    destruct props as [p|].
    - destruct (distance_miles p) as [| |miles], (elevation_gain_ft p) as [| |feet];
        cbn [Trip64.distance Trip64.elevation Trip64.set_elevation Trip64.set_distance
               Trip64.set_dayNumber];
        (split; intros H; first [reflexivity|discriminate H]).
    - cbn [Trip64.distance Trip64.elevation Trip64.set_elevation Trip64.set_distance
             Trip64.set_dayNumber].
      split; reflexivity. }
  split; [vm_compute; reflexivity|].
  split; [vm_compute; reflexivity|].
  split; vm_compute; reflexivity.
Qed.

Lemma aggregateTotals_double_rounding_witness :
  Trip64.distance
    (Trip64.loadDayGeoJSON (math := sample_math64) (engine := v8)
       (fun _ => parsed_response short_climb64) "walk" "../data" "day-1.geojson" 0)
  = Spec64.round_to_tenth
      (Spec64.sum (map (Spec64.distanceBetween (math := sample_math64))
                     (Spec64.consecutive_pairs [at_elevation 0; at_elevation 4.5])))
  /\ Trip64.elevation
       (Trip64.loadDayGeoJSON (math := sample_math64) (engine := v8)
          (fun _ => parsed_response short_climb64) "walk" "../data" "day-1.geojson" 0)
     = Spec64.round_to_ten
         (Spec64.feet (Spec64.sum (Spec64.positive_deltas [at_elevation 0; at_elevation 4.5]))).
Proof.
  pose proof (proj1 (proj2 aggregateTotals_double_rounding) sample_math64 v8
                (fun _ => parsed_response short_climb64)
                "walk" "../data" "day-1.geojson" 0%nat short_climb64
                [at_elevation 0; at_elevation 4.5] eq_refl eq_refl)%string
    as H.
  destruct H as (Hdistance & Helevation); [simpl; lia|].
  split.
  - apply Hdistance. reflexivity.
  - apply Helevation. reflexivity.
Defined.

(** ** The homepage card against the trip page *)

Lemma computeTripData_loop_from64 (dayResults : list Main64.DayStats) (d e : float) :
  fold_left
    (fun '(totalDistance, totalElevation) day =>
       if Main64.ok day
       then (totalDistance + Main64.distance day, totalElevation + Main64.elevation day)
       else (totalDistance, totalElevation))
    dayResults (d, e)
  = (fold_left PrimFloat.add (map Main64.distance (filter Main64.ok dayResults)) d,
     fold_left PrimFloat.add (map Main64.elevation (filter Main64.ok dayResults)) e).
Proof.
  revert d e. induction dayResults as [|day days IH]; intros d e; [reflexivity|].
  cbn [fold_left filter]. destruct (Main64.ok day); [|apply IH].
  cbn [map fold_left]. apply IH.
Qed.

Lemma same_day_sums (home : list Main64.DayStats) (page : list Trip64.DayResult) :
  Forall2 same_day home page ->
  map Main64.distance (filter Main64.ok home) = map Trip64.distance (filter Trip64.ok page)
  /\ map Main64.elevation (filter Main64.ok home)
     = map Trip64.elevation (filter Trip64.ok page).
Proof.
  induction 1 as [|h p home page (Hok & Hd & He) _ [IHd IHe]]; [split; reflexivity|].
  cbn [filter]. rewrite Hok. destruct (Trip64.ok p); [|split; assumption].
  cbn [map]. rewrite Hd, He, IHd, IHe. split; reflexivity.
Qed.

Lemma mapi_from_clean (A : Type) (f : A -> nat -> Trip64.DayResult) (i : nat) (l : list A) :
  Forall clean (Trip.mapi_from f i l) ->
  forall (k : nat) (a : A), nth_error l k = Some a -> clean (f a (i + k)%nat).
Proof.
  revert i. induction l as [|a l IH]; intros i H k b Hk; [destruct k; discriminate|].
  cbn [Trip.mapi_from] in H. inversion H as [|r rs Hr Hrs]. subst.
  destruct k as [|k].
  - injection Hk as <-. rewrite Nat.add_0_r. exact Hr.
  - rewrite Nat.add_succ_r. apply (IH (S i) Hrs k b Hk).
Qed.

(** X15. The homepage card and the trip page show the same totals: when
    the metadata load and list at least one day, each day file settles on
    the homepage (under [./data]) as it does on the trip page (under its own
    data root), and on no day the statistics code of the trip page throws,
    [computeTripData] records the distance and the elevation that
    [initTripPage] puts in the overview. *)
Theorem computeTripData_matches_trip_page (math : MathHost) (engine : Engine)
  (host : DateHost) (fetchMeta : Fetch Meta) (net net' : nat -> Fetch Payload)
  (entry : TripEntry) (dataRoot : string) (res : Response Meta) (meta : Meta)
  (dayFiles : list string) :
  fetchMeta ("./data" ++ "/" ++ trip_id entry ++ "/meta.json")%string = inr res ->
  res_ok res = true -> res_json res = inr meta ->
  days meta = Some dayFiles -> dayFiles <> [] ->
  (forall (i : nat) (filename : string),
     nth_error dayFiles i = Some filename ->
     Spec64.outcome (net i (day_url (trip_id entry) "./data" filename))
     = Spec64.outcome (net' i (day_url (trip_id entry) dataRoot filename))) ->
  Forall clean (Trip64.loadAllDays net' (trip_id entry) dataRoot dayFiles) ->
  let card := Main64.computeTripData fetchMeta net entry in
  let totals := fst (Trip64.aggregate net' (trip_id entry) dataRoot dayFiles) in
  Main64.totalDistance card = Number (Trip64.trip_total_distance totals)
  /\ Main64.totalElevation card = Number (Trip64.trip_total_elevation totals)
  /\ Main64.error card = None.
Proof.
  intros Hres Hok Hjson Hdays Hne Hsame Hclean card totals. subst card totals.
  unfold Main64.computeTripData, bind, throw, ret. rewrite Hres. cbv beta iota.
  rewrite Hok. cbn [negb]. rewrite Hjson, Hdays. cbn [or_empty].
  destruct dayFiles as [|file files]; [contradiction|].
  cbn [length Nat.eqb].
  set (home := Trip.mapi_from _ 0 (file :: files)).
  unfold Trip64.aggregate. cbn [fst]. rewrite aggregateTotals_sums64.
  cbn [Trip64.trip_total_distance Trip64.trip_total_elevation].
  assert (Hdays2 : Forall2 same_day home
                     (Trip64.loadAllDays net' (trip_id entry) dataRoot (file :: files))).
  { apply mapi_from_Forall2. intros k filename Hk. cbn [Nat.add].
    apply same_day_outcome; [apply (Hsame k filename Hk)|].
    apply (@mapi_from_clean _
             (fun filename index =>
                Trip64.loadDayGeoJSON (net' index) (trip_id entry) dataRoot filename index)
             0 (file :: files) Hclean k filename Hk). }
  destruct (same_day_sums Hdays2) as [Hd He].
  unfold Main64.computeTripData_loop. rewrite computeTripData_loop_from64, Hd, He.
  cbn [fst snd Main64.totalDistance Main64.totalElevation Main64.error].
  repeat split.
Qed.

Lemma computeTripData_matches_trip_page_witness :
  Main64.totalElevation
    (Main64.computeTripData (math := sample_math64) (engine := v8) (host := utc_host)
       (fun _ => inr meta_response) (fun _ _ => parsed_response short_climb64) jmt_entry)
  = Number
      (Trip64.trip_total_elevation
         (fst (Trip64.aggregate (math := sample_math64) (engine := v8)
                 (fun _ _ => parsed_response short_climb64) "jmt" "../data" three_days))).
Proof.
  refine (proj1 (proj2
    (@computeTripData_matches_trip_page sample_math64 v8 utc_host
       (fun _ => inr meta_response)
       (fun _ _ => parsed_response short_climb64)
       (fun _ _ => parsed_response short_climb64) jmt_entry "../data"
       meta_response sample_meta three_days
       eq_refl eq_refl eq_refl eq_refl _ _ _))).
  - discriminate.
  - intros i filename _. reflexivity.
  - unfold Trip64.loadAllDays, three_days. cbn [Trip.mapi_from].
    repeat (apply Forall_cons; [right; reflexivity|]). apply Forall_nil.
Defined.

(** ** The sign of a rounded result *)

Section Sign.
Import SpecFloat FloatOps FloatAxioms.

Lemma iter_pos_keeps (A : Type) (P : A -> Prop) (f : A -> A) :
  (forall x, P x -> P (f x)) -> forall (n : positive) (x : A), P x -> P (iter_pos f n x).
Proof.
  intros Hf. induction n as [n IH|n IH|]; intros x Hx; cbn [iter_pos]; auto.
Qed.

Lemma shr_1_keeps (mrs : shr_record) : (0 <= shr_m mrs)%Z -> (0 <= shr_m (shr_1 mrs))%Z.
Proof.
  destruct mrs as [m r s]. cbn [shr_m].
  destruct m as [|[p|p|]|[p|p|]]; cbn; lia.
Qed.

Lemma shr_fexp_keeps (m e : Z) (l : location) :
  (0 <= m)%Z -> (0 <= shr_m (fst (shr_fexp prec emax m e l)))%Z.
Proof.
  intros Hm. unfold shr_fexp, shr.
  assert (H0 : (0 <= shr_m (shr_record_of_loc m l))%Z)
    by (destruct l as [|[]]; exact Hm).
  destruct (fexp prec emax (Zdigits2 m + e) - e)%Z; cbn [fst]; try exact H0.
  apply iter_pos_keeps; [apply shr_1_keeps|exact H0].
Qed.

Lemma round_nearest_even_keeps (m : Z) (l : location) :
  (0 <= m)%Z -> (0 <= round_nearest_even m l)%Z.
Proof.
  intros Hm. destruct l as [|[]]; cbn [round_nearest_even]; try lia.
  destruct (Z.even m); lia.
Qed.

Lemma binary_round_aux_sign (s : bool) (m e : Z) (l : location) :
  (0 <= m)%Z ->
  match binary_round_aux prec emax s m e l with
  | S754_zero s' | S754_infinity s' | S754_finite s' _ _ => s' = s
  | S754_nan => False
  end.
Proof.
  intros Hm. unfold binary_round_aux.
  pose proof (shr_fexp_keeps e l Hm) as H1.
  destruct (shr_fexp prec emax m e l) as [mrs' e']. cbn [fst] in H1.
  pose proof (shr_fexp_keeps e' loc_Exact
                (round_nearest_even_keeps (loc_of_shr_record mrs') H1)) as H2.
  destruct (shr_fexp prec emax
              (round_nearest_even (shr_m mrs') (loc_of_shr_record mrs')) e' loc_Exact)
    as [mrs'' e'']. cbn [fst] in H2.
  destruct (shr_m mrs'') as [|p|p]; [reflexivity| |lia].
  destruct (e'' <=? emax - prec)%Z; reflexivity.
Qed.

Lemma binary_normalize_sign (m e : Z) :
  (0 <= m)%Z ->
  match binary_normalize prec emax m e false with
  | S754_zero s' | S754_infinity s' | S754_finite s' _ _ => s' = false
  | S754_nan => False
  end.
Proof.
  intros Hm. destruct m as [|p|p]; [reflexivity| |lia].
  cbn [binary_normalize]. unfold binary_round.
  destruct (shl_align p e (fexp prec emax (Z.pos (digits2_pos p) + e))) as [mz ez].
  apply binary_round_aux_sign. lia.
Qed.

Lemma non_negative_add (x y : float) :
  non_negative x -> non_negative y -> non_negative (x + y).
Proof.
  unfold non_negative. rewrite add_spec. unfold SF64add, SFadd.
  destruct (Prim2SF x) as [sx|sx| |sx mx ex], (Prim2SF y) as [sy|sy| |sy my ey];
    try contradiction; intros -> ->; try reflexivity.
  cbn [cond_Zopp]. apply binary_normalize_sign. lia.
Qed.

Lemma non_negative_mul (x c : float) (m : positive) (e : Z) :
  Prim2SF c = S754_finite false m e -> non_negative x -> non_negative (x * c).
Proof.
  intros Hc. unfold non_negative. rewrite mul_spec, Hc. unfold SF64mul, SFmul.
  destruct (Prim2SF x) as [sx|sx| |sx mx ex]; try contradiction; intros ->;
    try reflexivity.
  apply binary_round_aux_sign. lia.
Qed.

Lemma non_negative_div (x c : float) (m : positive) (e : Z) :
  Prim2SF c = S754_finite false m e -> non_negative x -> non_negative (x / c).
Proof.
  intros Hc. unfold non_negative. rewrite div_spec, Hc. unfold SF64div, SFdiv.
  destruct (Prim2SF x) as [sx|sx| |sx mx ex]; try contradiction; intros ->;
    try reflexivity.
  unfold SFdiv_core_binary. cbv zeta.
  set (s := (ex - e - Z.min (fexp prec emax (Zdigits2 (Z.pos mx) + ex - (Zdigits2 (Z.pos m) + e)))
                          (ex - e))%Z).
  set (m' := match s with
             | Z.pos _ => Z.shiftl (Z.pos mx) s
             | Z0 => Z.pos mx
             | Z.neg _ => 0%Z
             end).
  assert (Hm' : (0 <= m')%Z).
  { subst m'. destruct s; [lia| |lia]. apply Z.shiftl_nonneg. lia. }
  pose proof (Z.div_pos m' (Z.pos m) Hm' eq_refl) as Hq.
  unfold Z.div in Hq. destruct (Z.div_eucl m' (Z.pos m)) as [q r]. cbn [fst] in Hq.
  apply binary_round_aux_sign, Hq.
Qed.

Lemma non_negative_of_Z (p : positive) : non_negative (of_Z (Z.pos p)).
Proof.
  unfold non_negative, of_Z. rewrite of_uint63_spec.
  apply binary_normalize_sign. apply Uint63.to_Z_bounded.
Qed.

Lemma non_negative_Math_round (x : float) : non_negative x -> non_negative (Math_round x).
Proof.
  unfold Math_round, non_negative at 1.
  destruct (Prim2SF x) as [sx|sx| |sx mx ex] eqn:Hx; try contradiction; intros ->;
    try (unfold non_negative; rewrite Hx; reflexivity).
  destruct (0 <=? ex)%Z; [unfold non_negative; rewrite Hx; reflexivity|].
  unfold rounded.
  assert (Hn : (0 <= Qfloor (exact_value false mx ex + (1 # 2)))%Z).
  { change 0%Z with (Qfloor 0). apply Qfloor_resp_le.
    unfold exact_value, Qle. cbn. lia. }
  destruct (Qfloor (exact_value false mx ex + (1 # 2))) as [|p|p]; [reflexivity| |lia].
  cbn [Z.eqb]. apply non_negative_of_Z.
Qed.

Lemma positive_non_negative (d : float) : (0 <? d) = true -> non_negative d.
Proof.
  rewrite ltb_spec. unfold non_negative, SFltb.
  change (Prim2SF 0) with (S754_zero false).
  destruct (Prim2SF d) as [s|s| |s m e]; cbn [SFcompare]; try discriminate;
    destruct s; try discriminate; reflexivity.
Qed.

Lemma non_negative_sign (x : float) :
  non_negative x -> (x <? 0) = false /\ is_nan x = false.
Proof.
  unfold non_negative, is_nan. rewrite ltb_spec, eqb_spec. unfold SFltb, SFeqb.
  change (Prim2SF 0) with (S754_zero false).
  destruct (Prim2SF x) as [s|s| |s m e]; try contradiction; intros ->;
    cbn [SFcompare]; try (split; reflexivity).
  rewrite Z.compare_refl, Pos.compare_cont_refl. split; reflexivity.
Qed.

End Sign.

Lemma sum_non_negative (deltas : list float) (a : float) :
  Forall (fun d => (0 <? d) = true) deltas -> non_negative a ->
  non_negative (fold_left PrimFloat.add deltas a).
Proof.
  intros Hd. revert a. induction Hd as [|d deltas Hpos _ IH]; intros a Ha; [exact Ha|].
  cbn [fold_left]. apply IH, non_negative_add; [exact Ha|].
  apply positive_non_negative, Hpos.
Qed.

Lemma positive_deltas_positive (pairs : list (Position * Position)) :
  Forall (fun d => (0 <? d) = true) (Spec.keep_some Spec64.climb pairs).
Proof.
  induction pairs as [|[p q] pairs IH]; [constructor|].
  cbn [Spec.keep_some]. destruct (Spec64.climb (p, q)) as [d|] eqn:Hd; [|exact IH].
  constructor; [|exact IH].
  unfold Spec64.climb, Spec64.elevation_of in Hd. cbn [fst snd] in Hd.
  destruct (get p 2) as [| |a]; try discriminate Hd.
  destruct (get q 2) as [| |b]; try discriminate Hd.
  destruct (gtb (b - a) 0) eqn:Hpos; [|discriminate Hd].
  injection Hd as <-. exact Hpos.
Qed.

(** X6. On binary64 numbers, [calcElevationGain] of a sequence of points
    is never [NaN] and never below zero, whatever the third elements hold;
    it is not always finite: a sum that overflows gives [Infinity]. *)
Theorem calcElevationGain_not_negative (engine : Engine) (points : list Position) :
  (exists gain : float,
     Utils64.calcElevationGain (map Some points) = ret gain
     /\ non_negative gain /\ (gain <? 0) = false /\ is_nan gain = false)
  /\ Utils64.calcElevationGain (map Some overflow_points) = ret infinity.
Proof.
  split; [|vm_compute; reflexivity].
  exists (Spec64.trackElevationGain points).
  split; [apply calcElevationGain_points|].
  assert (H : non_negative (Spec64.trackElevationGain points)).
  { destruct points as [|p [|q rest]]; [reflexivity|reflexivity|].
    unfold Spec64.trackElevationGain, Spec64.round_to_ten, Spec64.feet.
    eapply non_negative_mul; [vm_compute; reflexivity|].
    apply non_negative_Math_round.
    eapply non_negative_div; [vm_compute; reflexivity|].
    eapply non_negative_mul; [vm_compute; reflexivity|].
    apply sum_non_negative; [apply positive_deltas_positive|reflexivity]. }
  split; [exact H|]. apply non_negative_sign, H.
Qed.

End Binary64.
